(** * A shallow embedding of [pkg/raindrop/client.go]

    The Raindrop.io API client is glue code around Go's standard library:
    every operation builds a request ([newRequest]), hands it to the HTTP
    transport and decodes the reply ([parseResponse]).  This development
    embeds the client's functions one by one and proves what the
    specification says about them.

    Layout:
    - the Go runtime notions the client needs (errors, panics, [defer]);
    - models of the library functions the client calls ([strconv], [path],
      [net/url], [encoding/json], [net/http]), each documented with the part
      of the library behaviour it covers;
    - the embedding of [client.go] itself, in module [raindrop];
    - the theorems.

    Go strings are byte strings: they are modelled by [string], a list of
    8-bit characters.  Integers are modelled by [Z]. *)

From Stdlib Require Import ZArith Ascii String List Bool Lia.
From Stdlib Require Import DecimalString DecimalZ.
From stdpp Require Import gmap strings list fin_maps.

Set Warnings "-register-all".

Local Open Scope string_scope.
Local Open Scope Z_scope.

(** ** Bytes and strings *)

Definition byte_val (c : ascii) : Z := Z.of_N (N_of_ascii c).
Definition byte_of (z : Z) : ascii := ascii_of_N (Z.to_N z).

(** The double quote, byte 34. *)
Definition dquote : ascii := "034"%char.

Definition in_range (lo hi c : ascii) : bool :=
  (byte_val lo <=? byte_val c) && (byte_val c <=? byte_val hi).

Definition is_lower (c : ascii) : bool := in_range "a" "z" c.
Definition is_upper (c : ascii) : bool := in_range "A" "Z" c.
Definition is_digit (c : ascii) : bool := in_range "0" "9" c.
Definition is_alpha (c : ascii) : bool := is_lower c || is_upper c.

Definition to_upper (c : ascii) : ascii :=
  if is_lower c then byte_of (byte_val c - 32) else c.
Definition to_lower (c : ascii) : ascii :=
  if is_upper c then byte_of (byte_val c + 32) else c.

Definition ishex (c : ascii) : bool :=
  is_digit c || in_range "a" "f" c || in_range "A" "F" c.

Definition unhex (c : ascii) : Z :=
  if is_digit c then byte_val c - 48
  else if in_range "a" "f" c then byte_val c - 97 + 10
  else if in_range "A" "F" c then byte_val c - 65 + 10
  else 0.

Definition upperhex (n : Z) : ascii :=
  if n <? 10 then byte_of (48 + n) else byte_of (65 + n - 10).
Definition lowerhex (n : Z) : ascii :=
  if n <? 10 then byte_of (48 + n) else byte_of (97 + n - 10).

Fixpoint string_map (f : ascii -> ascii) (s : string) : string :=
  match s with
  | EmptyString => EmptyString
  | String c r => String (f c) (string_map f r)
  end.

Fixpoint string_forallb (p : ascii -> bool) (s : string) : bool :=
  match s with
  | EmptyString => true
  | String c r => p c && string_forallb p r
  end.

Definition string_existsb (p : ascii -> bool) (s : string) : bool :=
  negb (string_forallb (fun c => negb (p c)) s).

(** [cut sep s] is Go's [strings.Cut] for a one-byte separator: the text
    before the first [sep], the text after it, and whether [sep] occurs. *)
Fixpoint cut (sep : ascii) (s : string) : string * string * bool :=
  match s with
  | EmptyString => (EmptyString, EmptyString, false)
  | String c r =>
      if Ascii.eqb c sep then (EmptyString, r, true)
      else let '(b, a, found) := cut sep r in (String c b, a, found)
  end.

(** [split sep s] is Go's [strings.Split] for a one-byte separator. *)
Fixpoint split (sep : ascii) (s : string) : list string :=
  match s with
  | EmptyString => [EmptyString]
  | String c r =>
      if Ascii.eqb c sep then EmptyString :: split sep r
      else match split sep r with
           | [] => [String c EmptyString]
           | x :: xs => String c x :: xs
           end
  end.

Fixpoint join (sep : string) (l : list string) : string :=
  match l with
  | [] => EmptyString
  | [x] => x
  | x :: xs => x +:+ sep +:+ join sep xs
  end.

Definition is_empty (s : string) : bool :=
  match s with EmptyString => true | _ => false end.

Definition has_prefix (s p : string) : bool := String.prefix p s.

Fixpoint sorted_insert (x : string) (l : list string) : list string :=
  match l with
  | [] => [x]
  | y :: ys => if String.leb x y then x :: l else y :: sorted_insert x ys
  end.

(** [sort.Strings]: byte-wise lexicographic order. *)
Definition sort_strings (l : list string) : list string :=
  fold_right sorted_insert [] l.

(** ** Errors, panics and deferred calls *)

(** The values of Go's [error] interface that can reach the client.  A [nil]
    error is [None] in an [option error].  The texts of the library's errors
    are abridged where Go formats an operand with [%q]; the errors of the
    client itself are given in full. *)
Inductive error : Type :=
| errorString (s : string)
    (* errors.New and fmt.Errorf without %w, from the standard library *)
| fundamental (msg : string)
    (* errors.New of github.com/pkg/errors *)
| url_EscapeError (s : string)
| url_InvalidHostError (s : string)
| url_Error (op URL : string) (err : error)
| json_SyntaxError
| json_UnmarshalTypeError (Value GoType : string)
| http_InvalidMethod (method : string)
| external (msg : string)
    (* an error produced outside the client: by the transport, or by a
       response body's Read or Close *)
| runtime_nil_dereference
    (* the run-time panic "invalid memory address or nil pointer
       dereference" *)
| unmodelled (what : string).
    (* the input is one the model of a library function does not cover *)

(** The result of running a Go function: it returns, or it panics. *)
Inductive outcome (A : Type) : Type :=
| Returned (a : A)
| Panicked (v : error).
Arguments Returned {A} a.
Arguments Panicked {A} v.

Section Monad.
Context {S : Type}.

(** Computations over a state [S] that may panic; the state reached when
    the panic started is kept, because deferred calls still run on it. *)
Definition M (A : Type) : Type := S -> outcome A * S.

Definition ret {A} (a : A) : M A := fun s => (Returned a, s).

Definition bind {A B} (k : A -> M B) (m : M A) : M B := fun s =>
  match m s with
  | (Returned a, s') => k a s'
  | (Panicked v, s') => (Panicked v, s')
  end.

Definition panic {A} (v : error) : M A := fun s => (Panicked v, s).

Definition modify (f : S -> S) : M unit := fun s => (Returned tt, f s).

(** [with_defer d body] is a function body [body] that started with
    [defer d]: [d] runs when [body] returns and also when it panics; a
    panic of [d] replaces the outcome. *)
Definition with_defer {A} (d : M unit) (body : M A) : M A := fun s =>
  let '(r, s1) := body s in
  match d s1 with
  | (Returned _, s2) => (r, s2)
  | (Panicked v, s2) => (Panicked v, s2)
  end.
End Monad.
Arguments M S A : clear implicits.

#[global] Instance M_ret {S} : MRet (M S) := @ret S.
#[global] Instance M_bind {S} : MBind (M S) := @bind S.

(** ** [strconv] and [fmt]'s [%d] *)

Module strconv.
(** [strconv.Itoa], which is also what [fmt]'s [%d] and [fmt.Sprint]
    print for an [int]. *)
Definition Itoa (i : Z) : string := NilZero.string_of_int (Z.to_int i).

(** [strconv.ParseInt(s, 10, bits)] on the literals a JSON number can be
    (an optional minus sign and digits; no plus sign). *)
Definition ParseInt (s : string) (bits : Z) : option Z :=
  match NilZero.int_of_string s with
  | Some d =>
      let z := Z.of_int d in
      if (- 2 ^ (bits - 1) <=? z) && (z <? 2 ^ (bits - 1)) then Some z
      else None
  | None => None
  end.

(** [strconv.ParseUint(s, 10, bits)]: digits only. *)
Definition ParseUint (s : string) (bits : Z) : option Z :=
  match NilZero.uint_of_string s with
  | Some d =>
      let z := Z.of_uint d in
      if z <? 2 ^ bits then Some z else None
  | None => None
  end.
End strconv.

(** ** [path] *)

Module path.
(** The elements of a path are processed from left to right on a stack
    held in reverse; [rooted] paths drop a [..] that has nothing to pop,
    the others keep it. *)
Fixpoint clean_elems (rooted : bool) (stack : list string)
    (elems : list string) : list string :=
  match elems with
  | [] => rev stack
  | e :: rest =>
      if String.eqb e "" || String.eqb e "." then
        clean_elems rooted stack rest
      else if String.eqb e ".." then
        match stack with
        | top :: below =>
            if String.eqb top ".." then
              clean_elems rooted (e :: stack) rest
            else clean_elems rooted below rest
        | [] =>
            if rooted then clean_elems rooted stack rest
            else clean_elems rooted [e] rest
        end
      else clean_elems rooted (e :: stack) rest
  end.

(** [path.Clean]: the shortest path equivalent to [p] by purely lexical
    processing (multiple slashes, [.] and [..] elements). *)
Definition Clean (p : string) : string :=
  match p with
  | EmptyString => "."
  | String c _ =>
      let rooted := Ascii.eqb c "/" in
      let body := join "/" (clean_elems rooted [] (split "/" p)) in
      if rooted then "/" +:+ body
      else if is_empty body then "." else body
  end.

(** The buffer that [path.Join] builds before cleaning it. *)
Fixpoint join_buf (buf : string) (elem : list string) : string :=
  match elem with
  | [] => buf
  | e :: rest =>
      if negb (is_empty buf) || negb (is_empty e) then
        join_buf ((if negb (is_empty buf) then buf +:+ "/" else buf) +:+ e)
                 rest
      else join_buf buf rest
  end.

(** [path.Join]. *)
Definition Join (elem : list string) : string :=
  if forallb is_empty elem then "" else Clean (join_buf "" elem).
End path.

(** Library functions of type [(T, error)] that return either a value or an
    error, never both. *)
Inductive result (A : Type) : Type :=
| Ok (a : A)
| Err (e : error).
Arguments Ok {A} a.
Arguments Err {A} e.

(** ** [net/url] *)

Module url.

(** The fields of [url.URL] the client can reach.  [User], [OmitHost] are
    left out: [Parse] below reports URLs with user information or a bracketed
    IPv6 host as outside the model. *)
Record URL : Type := {
  Scheme : string;
  Opaque : string;
  Host : string;
  Path : string;
  RawPath : string;
  ForceQuery : bool;
  RawQuery : string;
  Fragment : string;
  RawFragment : string
}.

Definition empty_URL : URL :=
  {| Scheme := ""; Opaque := ""; Host := ""; Path := ""; RawPath := "";
     ForceQuery := false; RawQuery := ""; Fragment := ""; RawFragment := "" |}.

Definition set_Path (p : string) (u : URL) : URL :=
  {| Scheme := Scheme u; Opaque := Opaque u; Host := Host u; Path := p;
     RawPath := RawPath u; ForceQuery := ForceQuery u;
     RawQuery := RawQuery u; Fragment := Fragment u;
     RawFragment := RawFragment u |}.

Definition set_RawQuery (q : string) (u : URL) : URL :=
  {| Scheme := Scheme u; Opaque := Opaque u; Host := Host u; Path := Path u;
     RawPath := RawPath u; ForceQuery := ForceQuery u;
     RawQuery := q; Fragment := Fragment u;
     RawFragment := RawFragment u |}.

Inductive encoding : Type :=
| encodePath | encodeHost | encodeQueryComponent | encodeFragment.

Definition mem_byte (c : ascii) (set : string) : bool :=
  string_existsb (Ascii.eqb c) set.

(** [shouldEscape]: whether a byte must be percent-encoded in the given
    part of a URL. *)
Definition shouldEscape (c : ascii) (mode : encoding) : bool :=
  if is_alpha c || is_digit c then false
  else if match mode with
          | encodeHost =>
              mem_byte c "!$&'()*+,;=:[]<>" || Ascii.eqb c dquote
          | _ => false
          end then false
  else if mem_byte c "-_.~" then false
  else if mem_byte c "$&+,/:;=?@" then
    match mode with
    | encodePath => Ascii.eqb c "?"
    | encodeQueryComponent => true
    | encodeFragment => false
    | encodeHost => true
    end
  else if match mode with
          | encodeFragment => mem_byte c "!()*" | _ => false
          end then false
  else true.

Fixpoint escape (s : string) (mode : encoding) : string :=
  match s with
  | EmptyString => EmptyString
  | String c r =>
      if shouldEscape c mode then
        if Ascii.eqb c " " &&
           match mode with encodeQueryComponent => true | _ => false end
        then String "+" (escape r mode)
        else String "%" (String (upperhex (byte_val c / 16))
                          (String (upperhex (byte_val c mod 16))
                             (escape r mode)))
      else String c (escape r mode)
  end.

Definition take3 (s : string) : string := String.substring 0 3 s.

(** [unescape]: the inverse of [escape]; it fails on a [%] that is not
    followed by two hexadecimal digits and, for a host, on bytes a host
    cannot hold. *)
Fixpoint unescape (s : string) (mode : encoding) : result string :=
  match s with
  | EmptyString => Ok EmptyString
  | String c r =>
      if Ascii.eqb c "%" then
        match r with
        | String h1 (String h2 r') =>
            if ishex h1 && ishex h2 then
              if match mode with encodeHost => true | _ => false end
                 && (unhex h1 <? 8) && negb (String.eqb (take3 s) "%25")
              then Err (url_EscapeError (take3 s))
              else match unescape r' mode with
                   | Ok t => Ok (String (byte_of (unhex h1 * 16 + unhex h2)) t)
                   | Err e => Err e
                   end
            else Err (url_EscapeError (take3 s))
        | _ => Err (url_EscapeError (take3 s))
        end
      else if Ascii.eqb c "+" then
        match unescape r mode with
        | Ok t =>
            Ok (String (match mode with
                        | encodeQueryComponent => " "%char
                        | _ => c
                        end) t)
        | Err e => Err e
        end
      else if match mode with encodeHost => true | _ => false end
              && (byte_val c <? 128) && shouldEscape c encodeHost
      then Err (url_InvalidHostError (String c EmptyString))
      else match unescape r mode with
           | Ok t => Ok (String c t)
           | Err e => Err e
           end
  end.

Definition QueryEscape (s : string) : string := escape s encodeQueryComponent.
Definition QueryUnescape (s : string) : result string :=
  unescape s encodeQueryComponent.

(** [validEncoded] and [URL.EscapedPath]. *)
Definition validEncoded (s : string) (mode : encoding) : bool :=
  string_forallb
    (fun c => mem_byte c "!$&'()*+,;=:@[]%" || negb (shouldEscape c mode)) s.

Definition EscapedPath (u : URL) : string :=
  if negb (is_empty (RawPath u)) && validEncoded (RawPath u) encodePath &&
     match unescape (RawPath u) encodePath with
     | Ok p => String.eqb p (Path u)
     | Err _ => false
     end
  then RawPath u
  else if String.eqb (Path u) "*" then "*"
  else escape (Path u) encodePath.

Definition EscapedFragment (u : URL) : string :=
  if negb (is_empty (RawFragment u)) &&
     validEncoded (RawFragment u) encodeFragment &&
     match unescape (RawFragment u) encodeFragment with
     | Ok f => String.eqb f (Fragment u)
     | Err _ => false
     end
  then RawFragment u
  else escape (Fragment u) encodeFragment.

(** [URL.String], for a URL without user information. *)
Definition String_ (u : URL) : string :=
  let scheme := if is_empty (Scheme u) then "" else Scheme u +:+ ":" in
  let rest :=
    if negb (is_empty (Opaque u)) then Opaque u
    else
      let authority :=
        if negb (is_empty (Scheme u)) || negb (is_empty (Host u)) then
          (if negb (is_empty (Host u)) || negb (is_empty (Path u))
           then "//" else "")
          +:+ escape (Host u) encodeHost
        else "" in
      let p := EscapedPath u in
      let slash :=
        match p with
        | String c _ =>
            if negb (Ascii.eqb c "/") && negb (is_empty (Host u))
            then "/" else ""
        | EmptyString => ""
        end in
      let dot :=
        if is_empty (scheme +:+ authority +:+ slash) &&
           mem_byte ":" (fst (fst (cut "/" p)))
        then "./" else "" in
      authority +:+ slash +:+ dot +:+ p in
  scheme +:+ rest
  +:+ (if ForceQuery u || negb (is_empty (RawQuery u))
       then "?" +:+ RawQuery u else "")
  +:+ (if is_empty (Fragment u) then "" else "#" +:+ EscapedFragment u).

(** [getScheme]: [Ok (Some (scheme, rest))] when the text starts with a
    scheme and a colon, [Ok None] when it has no scheme. *)
Fixpoint scan_scheme (first : bool) (s : string)
    : result (option (string * string)) :=
  match s with
  | EmptyString => Ok None
  | String c r =>
      if is_alpha c then
        match scan_scheme false r with
        | Ok (Some (sch, rest)) => Ok (Some (String c sch, rest))
        | other => other
        end
      else if is_digit c || mem_byte c "+-." then
        if first then Ok None
        else match scan_scheme false r with
             | Ok (Some (sch, rest)) => Ok (Some (String c sch, rest))
             | other => other
             end
      else if Ascii.eqb c ":" then
        if first then Err (errorString "missing protocol scheme")
        else Ok (Some (EmptyString, r))
      else Ok None
  end.

Definition getScheme (rawURL : string) : result (string * string) :=
  match scan_scheme true rawURL with
  | Ok (Some p) => Ok p
  | Ok None => Ok ("", rawURL)
  | Err e => Err e
  end.

Definition is_CTL (c : ascii) : bool :=
  (byte_val c <? 32) || (byte_val c =? 127).

Fixpoint count_byte (c : ascii) (s : string) : nat :=
  match s with
  | EmptyString => O
  | String d r => ((if Ascii.eqb c d then 1 else 0) + count_byte c r)%nat
  end.

Fixpoint last_byte (s : string) : option ascii :=
  match s with
  | EmptyString => None
  | String c EmptyString => Some c
  | String _ r => last_byte r
  end.

Definition drop_last (s : string) : string :=
  String.substring 0 (String.length s - 1) s.

(** The text from the last [sep] of [s] on, if [sep] occurs. *)
Fixpoint from_last (sep : ascii) (s : string) : option string :=
  match s with
  | EmptyString => None
  | String c r =>
      match from_last sep r with
      | Some t => Some t
      | None => if Ascii.eqb c sep then Some s else None
      end
  end.

Definition validOptionalPort (port : string) : bool :=
  match port with
  | EmptyString => true
  | String c r => Ascii.eqb c ":" && string_forallb is_digit r
  end.

(** [parseAuthority] for an authority that is a host with an optional port.
    User information and bracketed IPv6 hosts are outside the model. *)
Definition parseAuthority (authority : string) : result string :=
  if mem_byte "@" authority || has_prefix authority "[" then
    Err (unmodelled "net/url: user information or IPv6 literal")
  else
    match from_last ":" authority with
    | Some colonPort =>
        if validOptionalPort colonPort then unescape authority encodeHost
        else Err (errorString "invalid port after host")
    | None => unescape authority encodeHost
    end.

(** [url.parse] with [viaRequest = false]. *)
Definition parse (rawURL : string) : result URL :=
  if string_existsb is_CTL rawURL then
    Err (errorString "net/url: invalid control character in URL")
  else if String.eqb rawURL "*" then Ok (set_Path "*" empty_URL)
  else
    match getScheme rawURL with
    | Err e => Err e
    | Ok (scheme0, rest0) =>
        let scheme := string_map to_lower scheme0 in
        let '(rest, rawQuery, forceQuery) :=
          if match last_byte rest0 with
             | Some c => Ascii.eqb c "?"
             | None => false
             end && Nat.eqb (count_byte "?" rest0) 1
          then (drop_last rest0, "", true)
          else let '(b, a, _) := cut "?" rest0 in (b, a, false) in
        let setPath (host p : string) : result URL :=
          match unescape p encodePath with
          | Err e => Err e
          | Ok path =>
              Ok {| Scheme := scheme; Opaque := ""; Host := host;
                    Path := path;
                    RawPath := if String.eqb p (escape path encodePath)
                               then "" else p;
                    ForceQuery := forceQuery; RawQuery := rawQuery;
                    Fragment := ""; RawFragment := "" |}
          end in
        if negb (has_prefix rest "/") && negb (is_empty scheme) then
          Ok {| Scheme := scheme; Opaque := rest; Host := ""; Path := "";
                RawPath := ""; ForceQuery := forceQuery;
                RawQuery := rawQuery; Fragment := ""; RawFragment := "" |}
        else if negb (has_prefix rest "/") &&
                mem_byte ":" (fst (fst (cut "/" rest))) then
          Err (errorString "first path segment in URL cannot contain colon")
        else if (negb (is_empty scheme) || negb (has_prefix rest "///"))
                && has_prefix rest "//" then
          let after := String.substring 2 (String.length rest - 2) rest in
          let '(authority, tail, found) := cut "/" after in
          match parseAuthority authority with
          | Err e => Err e
          | Ok host => setPath host (if found then "/" +:+ tail else "")
          end
        else setPath "" rest
    end.

(** [url.Parse]: the fragment is cut off first; a failure is wrapped in a
    [*url.Error]. *)
Definition Parse (rawURL : string) : result URL :=
  let '(u, frag, _) := cut "#" rawURL in
  match parse u with
  | Err e => Err (url_Error "parse" u e)
  | Ok url =>
      if is_empty frag then Ok url
      else match unescape frag encodeFragment with
           | Err e => Err (url_Error "parse" rawURL e)
           | Ok f =>
               Ok {| Scheme := Scheme url; Opaque := Opaque url;
                     Host := Host url; Path := Path url;
                     RawPath := RawPath url; ForceQuery := ForceQuery url;
                     RawQuery := RawQuery url; Fragment := f;
                     RawFragment :=
                       if String.eqb frag (escape f encodeFragment)
                       then "" else frag |}
           end
  end.

(** [url.Values] is [map[string][]string]. *)
Definition Values_Get (v : gmap string (list string)) (key : string) : string :=
  match v !! key with
  | Some (x :: _) => x
  | _ => ""
  end.

Definition Values_Add (v : gmap string (list string)) (key value : string)
    : gmap string (list string) :=
  <[key := (default [] (v !! key) ++ [value])%list]> v.

(** [Values.Encode]: [key=value] pairs joined by [&], sorted by key. *)
Definition Values_Encode (v : gmap string (list string)) : string :=
  join "&"
    (concat
       (map (fun k =>
               map (fun x => QueryEscape k +:+ "=" +:+ QueryEscape x)
                   (default [] (v !! k)))
            (sort_strings (map fst (map_to_list v))))).

(** One round of the loop of [parseQuery], on one [&]-separated piece. *)
Definition parseQuery_step (m : gmap string (list string)) (piece : string)
    : gmap string (list string) :=
  if mem_byte ";" piece then m
  else if is_empty piece then m
  else
    let '(key, value, _) := cut "=" piece in
    match QueryUnescape key, QueryUnescape value with
    | Ok k, Ok x => Values_Add m k x
    | _, _ => m
    end.

(** [URL.Query]: [ParseQuery] of the raw query, malformed pairs dropped. *)
Definition Query (u : URL) : gmap string (list string) :=
  fold_left parseQuery_step (split "&" (RawQuery u)) ∅.

End url.

(** ** [unicode/utf8] *)

Module utf8.

Definition RuneError : Z := 0xFFFD.

Definition between (lo x hi : Z) : bool := (lo <=? x) && (x <=? hi).

Definition low6 (c : ascii) : Z := Z.land (byte_val c) 0x3F.

(** [utf8.DecodeRune]: the first rune of [s] and its width in bytes; an
    ill-formed sequence is [(RuneError, 1)]. *)
Definition DecodeRune (s : string) : Z * nat :=
  match s with
  | EmptyString => (RuneError, 0%nat)
  | String b0 r =>
      let x := byte_val b0 in
      if x <? 0x80 then (x, 1%nat)
      else if between 0xC2 x 0xDF then
        match r with
        | String b1 _ =>
            if between 0x80 (byte_val b1) 0xBF
            then (Z.lor (Z.shiftl (Z.land x 0x1F) 6) (low6 b1), 2%nat)
            else (RuneError, 1%nat)
        | _ => (RuneError, 1%nat)
        end
      else if between 0xE0 x 0xEF then
        match r with
        | String b1 (String b2 _) =>
            if between (if x =? 0xE0 then 0xA0 else 0x80) (byte_val b1)
                       (if x =? 0xED then 0x9F else 0xBF)
               && between 0x80 (byte_val b2) 0xBF
            then (Z.lor (Z.shiftl (Z.land x 0x0F) 12)
                    (Z.lor (Z.shiftl (low6 b1) 6) (low6 b2)), 3%nat)
            else (RuneError, 1%nat)
        | _ => (RuneError, 1%nat)
        end
      else if between 0xF0 x 0xF4 then
        match r with
        | String b1 (String b2 (String b3 _)) =>
            if between (if x =? 0xF0 then 0x90 else 0x80) (byte_val b1)
                       (if x =? 0xF4 then 0x8F else 0xBF)
               && between 0x80 (byte_val b2) 0xBF
               && between 0x80 (byte_val b3) 0xBF
            then (Z.lor (Z.shiftl (Z.land x 0x07) 18)
                    (Z.lor (Z.shiftl (low6 b1) 12)
                       (Z.lor (Z.shiftl (low6 b2) 6) (low6 b3))), 4%nat)
            else (RuneError, 1%nat)
        | _ => (RuneError, 1%nat)
        end
      else (RuneError, 1%nat)
  end.

Definition cont_byte (r : Z) (shift : Z) : ascii :=
  byte_of (Z.lor 0x80 (Z.land (Z.shiftr r shift) 0x3F)).

(** [utf8.AppendRune] to the empty string. *)
Definition EncodeRune (r0 : Z) : string :=
  let r := if (r0 <? 0) || (0x10FFFF <? r0) || between 0xD800 r0 0xDFFF
           then RuneError else r0 in
  if r <=? 0x7F then String (byte_of r) EmptyString
  else if r <=? 0x7FF then
    String (byte_of (Z.lor 0xC0 (Z.shiftr r 6)))
      (String (cont_byte r 0) EmptyString)
  else if r <=? 0xFFFF then
    String (byte_of (Z.lor 0xE0 (Z.shiftr r 12)))
      (String (cont_byte r 6) (String (cont_byte r 0) EmptyString))
  else
    String (byte_of (Z.lor 0xF0 (Z.shiftr r 18)))
      (String (cont_byte r 12)
         (String (cont_byte r 6) (String (cont_byte r 0) EmptyString))).

End utf8.

(** ** [encoding/json] *)

Module json.

(** JSON texts as trees.  A number keeps its literal, an object keeps its
    members in order, duplicates included. *)
Inductive value : Type :=
| JNull
| JBool (b : bool)
| JNumber (lit : string)
| JString (s : string)
| JArray (elems : list value)
| JObject (members : list (string * value)).

(** *** Encoding *)

(** The body of [appendString] with [escapeHTML] set, as [Encoder.Encode]
    uses it.  [skip] counts the continuation bytes of the rune at hand that
    are still to be passed over; they are copied when [keep] is set (a
    well-formed rune is written as it is) and dropped otherwise (the rune
    has been written as an escape). *)
Fixpoint quote_body (skip : nat) (keep : bool) (s : string) : string :=
  match s with
  | EmptyString => EmptyString
  | String c r =>
      match skip with
      | S k =>
          if keep then String c (quote_body k keep r)
          else quote_body k keep r
      | O =>
          let x := byte_val c in
          if x <? 0x80 then
            if Ascii.eqb c "\" || Ascii.eqb c dquote then
              String "\" (String c (quote_body 0 true r))
            else if x =? 8 then "\b" +:+ quote_body 0 true r
            else if x =? 12 then "\f" +:+ quote_body 0 true r
            else if x =? 10 then "\n" +:+ quote_body 0 true r
            else if x =? 13 then "\r" +:+ quote_body 0 true r
            else if x =? 9 then "\t" +:+ quote_body 0 true r
            else if (x <? 0x20) || Ascii.eqb c "<" || Ascii.eqb c ">"
                    || Ascii.eqb c "&" then
              "\u00" +:+ String (lowerhex (x / 16))
                          (String (lowerhex (x mod 16)) (quote_body 0 true r))
            else String c (quote_body 0 true r)
          else
            match utf8.DecodeRune s with
            | (rune, size) =>
                if (rune =? utf8.RuneError) && Nat.eqb size 1 then
                  "\ufffd" +:+ quote_body 0 true r
                else if (rune =? 0x2028) || (rune =? 0x2029) then
                  "\u202" +:+ String (lowerhex (Z.land rune 0xF))
                                (quote_body 2 false r)
                else String c (quote_body (size - 1) true r)
            end
      end
  end.

Definition quote (s : string) : string :=
  String dquote (quote_body 0 true s +:+ String dquote EmptyString).

(** The compact text of a JSON tree, as [json.Marshal] writes it. *)
Fixpoint render (v : value) : string :=
  match v with
  | JNull => "null"
  | JBool true => "true"
  | JBool false => "false"
  | JNumber lit => lit
  | JString s => quote s
  | JArray elems =>
      "[" +:+ join "," (map render elems) +:+ "]"
  | JObject members =>
      "{" +:+ join ","
                (map (fun m => quote (fst m) +:+ ":" +:+ render (snd m))
                     members)
      +:+ "}"
  end.

(** Types that [json.Marshal] can encode.  The tree of a struct lists its
    fields in declaration order under the names of their [json] tags;
    [omitempty] fields are left out when empty. *)
Class Marshal (A : Type) : Type := marshal : A -> value.

(** [json.NewEncoder(&b).Encode(v)]: the text written to the buffer, the
    compact text and a newline.  Encoding fails on channels, functions,
    cyclic values and the like; none of the types below has any. *)
Definition Encode {A} `{Marshal A} (a : A) : result string :=
  Ok (render (marshal a) +:+ String (byte_of 10) EmptyString).

#[global] Instance Marshal_string : Marshal string := JString.
#[global] Instance Marshal_bool : Marshal bool := JBool.
#[global] Instance Marshal_int : Marshal Z := fun z => JNumber (strconv.Itoa z).

(** A slice is [None] when it is [nil]; a [nil] slice encodes as [null]. *)
#[global] Instance Marshal_slice {A} `{Marshal A} : Marshal (option (list A)) :=
  fun s => match s with
           | None => JNull
           | Some l => JArray (map marshal l)
           end.

(** The emptiness that [omitempty] tests, by kind. *)
Definition empty_slice {A} (s : option (list A)) : bool :=
  match s with
  | None | Some [] => true
  | _ => false
  end.

(** A struct field of the encoder: its name, whether it is left out, and
    its tree. *)
Definition member (name : string) (omit : bool) (v : value)
    : list (string * value) :=
  if omit then [] else [(name, v)].

(** *** Decoding *)

Definition is_space (c : ascii) : bool :=
  Ascii.eqb c " " || (byte_val c =? 9) || (byte_val c =? 10)
  || (byte_val c =? 13).

Fixpoint skip_ws (s : string) : string :=
  match s with
  | String c r => if is_space c then skip_ws r else s
  | EmptyString => s
  end.

Fixpoint take_digits (s : string) : string * string :=
  match s with
  | String c r =>
      if is_digit c then let '(d, t) := take_digits r in (String c d, t)
      else (EmptyString, s)
  | EmptyString => (EmptyString, s)
  end.

(** A number literal at the start of [s]: an optional minus sign, an
    integer part without leading zeros, an optional fraction and an optional
    exponent. *)
Definition scan_number (s : string) : option (string * string) :=
  let '(sign, s1) :=
    match s with
    | String "-" r => ("-", r)
    | _ => ("", s)
    end in
  let int_part :=
    match s1 with
    | String "0" r => Some ("0", r)
    | _ => match take_digits s1 with
           | (EmptyString, _) => None
           | (d, r) => Some (d, r)
           end
    end in
  match int_part with
  | None => None
  | Some (i, s2) =>
      let frac :=
        match s2 with
        | String "." r =>
            match take_digits r with
            | (EmptyString, _) => None
            | (d, t) => Some ("." +:+ d, t)
            end
        | _ => Some ("", s2)
        end in
      match frac with
      | None => None
      | Some (f, s3) =>
          let exp :=
            match s3 with
            | String e r =>
                if Ascii.eqb e "e" || Ascii.eqb e "E" then
                  let '(sg, r1) :=
                    match r with
                    | String "+" t => ("+", t)
                    | String "-" t => ("-", t)
                    | _ => ("", r)
                    end in
                  match take_digits r1 with
                  | (EmptyString, _) => None
                  | (d, t) => Some (String e sg +:+ d, t)
                  end
                else Some ("", s3)
            | EmptyString => Some ("", s3)
            end in
          match exp with
          | None => None
          | Some (x, s4) => Some (sign +:+ i +:+ f +:+ x, s4)
          end
      end
  end.

(** [getu4]: the code unit of a [\uXXXX] escape at the start of [s]. *)
Definition getu4 (s : string) : option (Z * string) :=
  match s with
  | String "\" (String "u" (String a (String b (String c (String d r))))) =>
      if ishex a && ishex b && ishex c && ishex d
      then Some (unhex a * 4096 + unhex b * 256 + unhex c * 16 + unhex d, r)
      else None
  | _ => None
  end.

(** [utf16.DecodeRune]. *)
Definition utf16_DecodeRune (r1 r2 : Z) : Z :=
  if utf8.between 0xD800 r1 0xDBFF && utf8.between 0xDC00 r2 0xDFFF
  then Z.lor (Z.shiftl (r1 - 0xD800) 10) (r2 - 0xDC00) + 0x10000
  else utf8.RuneError.

(** The text of a string literal after its opening quote: the decoded
    string and what follows the closing quote.  Escapes are resolved and
    ill-formed UTF-8 is replaced by U+FFFD, as [unquote] does. *)
Fixpoint scan_string (fuel : nat) (s : string) : option (string * string) :=
  match fuel with
  | O => None
  | S f =>
      let emit (t : string) (rest : string) :=
        match scan_string f rest with
        | Some (u, r) => Some (t +:+ u, r)
        | None => None
        end in
      match s with
      | EmptyString => None
      | String c r =>
          if Ascii.eqb c dquote then Some (EmptyString, r)
          else if Ascii.eqb c "\" then
            match r with
            | String e r' =>
                if Ascii.eqb e dquote || Ascii.eqb e "\" || Ascii.eqb e "/"
                then emit (String e EmptyString) r'
                else if Ascii.eqb e "b" then emit (String (byte_of 8) "") r'
                else if Ascii.eqb e "f" then emit (String (byte_of 12) "") r'
                else if Ascii.eqb e "n" then emit (String (byte_of 10) "") r'
                else if Ascii.eqb e "r" then emit (String (byte_of 13) "") r'
                else if Ascii.eqb e "t" then emit (String (byte_of 9) "") r'
                else if Ascii.eqb e "u" then
                  match getu4 s with
                  | None => None
                  | Some (rr, r2) =>
                      if utf8.between 0xD800 rr 0xDFFF then
                        match getu4 r2 with
                        | Some (rr1, r3) =>
                            let dec := utf16_DecodeRune rr rr1 in
                            if dec =? utf8.RuneError
                            then emit (utf8.EncodeRune utf8.RuneError) r2
                            else emit (utf8.EncodeRune dec) r3
                        | None => emit (utf8.EncodeRune utf8.RuneError) r2
                        end
                      else emit (utf8.EncodeRune rr) r2
                  end
                else None
            | EmptyString => None
            end
          else if byte_val c <? 0x20 then None
          else if byte_val c <? 0x80 then emit (String c EmptyString) r
          else
            let '(rune, size) := utf8.DecodeRune s in
            emit (utf8.EncodeRune rune)
                 (String.substring size (String.length s - size) s)
      end
  end.

(** [maxNestingDepth] of the scanner: a text whose arrays and objects nest
    deeper is not valid for [json.Unmarshal]. *)
Definition maxNestingDepth : Z := 10000.

(** Recursive descent over the text; [fuel] bounds the number of nested
    calls and [depth] counts the arrays and objects that are open. *)
Fixpoint parse_value (fuel : nat) (depth : Z) (s0 : string)
    : option (value * string) :=
  match fuel with
  | O => None
  | S f =>
      let s := skip_ws s0 in
      match s with
      | EmptyString => None
      | String c r =>
          if Ascii.eqb c "{" then
            if maxNestingDepth <? depth + 1 then None
            else
              match skip_ws r with
              | String "}" r' => Some (JObject [], r')
              | _ =>
                  match parse_members f (depth + 1) r with
                  | Some (ms, r') => Some (JObject ms, r')
                  | None => None
                  end
              end
          else if Ascii.eqb c "[" then
            if maxNestingDepth <? depth + 1 then None
            else
              match skip_ws r with
              | String "]" r' => Some (JArray [], r')
              | _ =>
                  match parse_elems f (depth + 1) r with
                  | Some (vs, r') => Some (JArray vs, r')
                  | None => None
                  end
              end
          else if Ascii.eqb c dquote then
            match scan_string (S (String.length r)) r with
            | Some (str, r') => Some (JString str, r')
            | None => None
            end
          else if has_prefix s "null" then
            Some (JNull, String.substring 4 (String.length s - 4) s)
          else if has_prefix s "true" then
            Some (JBool true, String.substring 4 (String.length s - 4) s)
          else if has_prefix s "false" then
            Some (JBool false, String.substring 5 (String.length s - 5) s)
          else
            match scan_number s with
            | Some (lit, r') => Some (JNumber lit, r')
            | None => None
            end
      end
  end
with parse_elems (fuel : nat) (depth : Z) (s : string)
    : option (list value * string) :=
  match fuel with
  | O => None
  | S f =>
      match parse_value f depth s with
      | Some (v, r) =>
          match skip_ws r with
          | String "," r' =>
              match parse_elems f depth r' with
              | Some (vs, r'') => Some (v :: vs, r'')
              | None => None
              end
          | String "]" r' => Some ([v], r')
          | _ => None
          end
      | None => None
      end
  end
with parse_members (fuel : nat) (depth : Z) (s : string)
    : option (list (string * value) * string) :=
  match fuel with
  | O => None
  | S f =>
      match skip_ws s with
      | String "034" r =>
          match scan_string (S (String.length r)) r with
          | Some (key, r1) =>
              match skip_ws r1 with
              | String ":" r2 =>
                  match parse_value f depth r2 with
                  | Some (v, r3) =>
                      match skip_ws r3 with
                      | String "," r4 =>
                          match parse_members f depth r4 with
                          | Some (ms, r5) => Some ((key, v) :: ms, r5)
                          | None => None
                          end
                      | String "}" r4 => Some ([(key, v)], r4)
                      | _ => None
                      end
                  | None => None
                  end
              | _ => None
              end
          | None => None
          end
      | _ => None
      end
  end.

(** The tree of a JSON text, when the text is valid JSON (one value and
    nothing but white space around it, nested no deeper than the scanner
    allows). *)
Definition parse (data : string) : option value :=
  match parse_value (2 * String.length data + 2) 0 data with
  | Some (v, rest) => if is_empty (skip_ws rest) then Some v else None
  | None => None
  end.

(** *** Storing a tree into a Go value *)

Definition kind_of (v : value) : string :=
  match v with
  | JNull => "null"
  | JBool _ => "bool"
  | JNumber _ => "number"
  | JString _ => "string"
  | JArray _ => "array"
  | JObject _ => "object"
  end.

(** A decoder stores a tree into a Go value of type [T]: from the value the
    target holds to the value it holds afterwards, with the type error met,
    if any.  Decoding goes on after a type error and the first one is
    reported. *)
Definition decoder (T : Type) : Type := value -> T -> T * option error.

Definition first_error (e1 e2 : option error) : option error :=
  match e1 with
  | Some _ => e1
  | None => e2
  end.

Definition mismatch (v : value) (gotype : string) : error :=
  json_UnmarshalTypeError (kind_of v) gotype.

Definition decode_string : decoder string := fun v t =>
  match v with
  | JString s => (s, None)
  | JNull => (t, None)
  | _ => (t, Some (mismatch v "string"))
  end.

Definition decode_bool : decoder bool := fun v t =>
  match v with
  | JBool b => (b, None)
  | JNull => (t, None)
  | _ => (t, Some (mismatch v "bool"))
  end.

(** [int] is 64 bits wide. *)
Definition decode_int : decoder Z := fun v t =>
  match v with
  | JNumber lit =>
      match strconv.ParseInt lit 64 with
      | Some z => (z, None)
      | None => (t, Some (json_UnmarshalTypeError ("number " +:+ lit) "int"))
      end
  | JNull => (t, None)
  | _ => (t, Some (mismatch v "int"))
  end.

Definition decode_uint32 : decoder Z := fun v t =>
  match v with
  | JNumber lit =>
      match strconv.ParseUint lit 32 with
      | Some z => (z, None)
      | None =>
          (t, Some (json_UnmarshalTypeError ("number " +:+ lit) "uint32"))
      end
  | JNull => (t, None)
  | _ => (t, Some (mismatch v "uint32"))
  end.

(** The elements of an array are decoded in place into the elements the
    slice already holds, and into zero values beyond them.  (What an earlier,
    longer array left in the capacity of the slice is not modelled: every
    slice the client decodes into starts out [nil].) *)
Fixpoint decode_elems {A} (zero : A) (dec : decoder A) (elems : list value)
    (old : list A) : list A * option error :=
  match elems with
  | [] => ([], None)
  | v :: vs =>
      let '(a, e) := dec v (match old with a :: _ => a | [] => zero end) in
      let '(rest, e') := decode_elems zero dec vs (tl old) in
      (a :: rest, first_error e e')
  end.

Definition decode_slice {A} (gotype : string) (zero : A) (dec : decoder A)
    : decoder (option (list A)) := fun v t =>
  match v with
  | JArray elems =>
      let '(l, e) := decode_elems zero dec elems (default [] t) in (Some l, e)
  | JNull => (None, None)
  | _ => (t, Some (mismatch v gotype))
  end.

(** [foldName] on the names that can match an ASCII field name: ASCII
    letters fold to upper case, and so do the two other runes that fold to
    an ASCII letter, U+017F (long s) and U+212A (Kelvin sign). *)
Fixpoint foldName (s : string) : string :=
  match s with
  | EmptyString => EmptyString
  | String c r =>
      match r with
      | String d r' =>
          if (byte_val c =? 0xC5) && (byte_val d =? 0xBF)
          then String "S" (foldName r')
          else
            match r' with
            | String e r'' =>
                if (byte_val c =? 0xE2) && (byte_val d =? 0x84)
                   && (byte_val e =? 0xAA)
                then String "K" (foldName r'')
                else String (to_upper c) (foldName r)
            | EmptyString => String (to_upper c) (foldName r)
            end
      | EmptyString => String (to_upper c) EmptyString
      end
  end.

(** A struct field of the decoder: the name of its [json] tag and how a
    tree is stored into it. *)
Record field (T : Type) : Type := {
  field_name : string;
  field_store : decoder T
}.
Arguments field_name {T} _.
Arguments field_store {T} _.

(** A field reached through its getter and setter. *)
Definition mk_field {T A} (name : string) (get : T -> A) (put : A -> T -> T)
    (dec : decoder A) : field T :=
  {| field_name := name;
     field_store := fun v t => let '(a, e) := dec v (get t) in (put a t, e) |}.

(** The field an object key denotes: the one of that name or, failing
    that, one whose name differs from the key only by case. *)
Definition find_field {T} (fields : list (field T)) (key : string)
    : option (field T) :=
  match List.find (fun f => String.eqb (field_name f) key) fields with
  | Some f => Some f
  | None =>
      List.find
        (fun f => String.eqb (foldName (field_name f)) (foldName key)) fields
  end.

Definition store_member {T} (fields : list (field T))
    (acc : T * option error) (m : string * value) : T * option error :=
  match find_field fields (fst m) with
  | Some f =>
      let '(t, e) := field_store f (snd m) (fst acc) in
      (t, first_error (snd acc) e)
  | None => acc
  end.

(** An object is stored member by member, in order; keys that denote no
    field are skipped; [null] leaves the struct as it is. *)
Definition decode_struct {T} (gotype : string) (fields : list (field T))
    : decoder T := fun v t =>
  match v with
  | JObject members => fold_left (store_member fields) members (t, None)
  | JNull => (t, None)
  | _ => (t, Some (mismatch v gotype))
  end.

(** Types [json.Unmarshal] can decode into, with their zero value. *)
Class Unmarshal (T : Type) : Type := {
  zero : T;
  decode : decoder T
}.

(** [json.Unmarshal(data, &p)] for a pointer [p : *T], which is [None] when
    [nil]: the new value of [p] and the error.  The text is checked first;
    [null] sets the pointer to [nil]; anything else is stored into the value
    pointed to, allocated if need be. *)
Definition Unmarshal_ptr {T} `{Unmarshal T} (data : string) (p : option T)
    : option T * option error :=
  match parse data with
  | None => (p, Some json_SyntaxError)
  | Some JNull => (None, None)
  | Some v => let '(t, e) := decode v (default zero p) in (Some t, e)
  end.

End json.

(** ** [fmt] *)

Module fmt.

(** [fmt.Sprintf] for formats whose verbs are [%s], [%d] and [%v] (and the
    literal [%%]), the operands being given by their printed text, in
    order. *)
Fixpoint Sprintf (format : string) (a : list string) : string :=
  match format with
  | String "%" (String v r) =>
      if Ascii.eqb v "s" || Ascii.eqb v "d" || Ascii.eqb v "v" then
        match a with
        | x :: a' => x +:+ Sprintf r a'
        | [] => "%!" +:+ String v "(MISSING)" +:+ Sprintf r a
        end
      else if Ascii.eqb v "%" then String "%" (Sprintf r a)
      else String "%" (String v (Sprintf r a))
  | String c r => String c (Sprintf r a)
  | EmptyString => EmptyString
  end.

End fmt.

(** ** [context] *)

Module context.

(** A [context.Context] is opaque to the client, which only passes it on. *)
Inductive Context : Type :=
| Background
| WithTimeout (parent : Context) (nanoseconds : Z)
| WithCancel (parent : Context).

End context.

(** ** [net/http] *)

Module http.

Definition MethodGet : string := "GET".
Definition MethodPost : string := "POST".
Definition MethodDelete : string := "DELETE".

(** An [io.ReadCloser] holding a response body: the bytes it delivers and
    the errors its [Read] and [Close] report. *)
Record ReadCloser : Type := {
  data : string;
  read_error : option error;
  close_error : option error
}.

Record Response : Type := {
  StatusCode : Z;
  Body : ReadCloser
}.

(** [http.Request].  [Request_Response] is the field [Response]: the
    redirect response that caused the request to be created, populated only
    during client redirects and [nil] on requests a server receives. *)
Record Request : Type := {
  Method : string;
  URL : url.URL;
  Header : gmap string (list string);
  Request_Body : string;
  Request_ctx : context.Context;
  Request_Response : option Response
}.

Definition isTokenByte (c : ascii) : bool :=
  is_alpha c || is_digit c || url.mem_byte c "!#$%&'*+-.^_`|~".

Definition validMethod (method : string) : bool :=
  negb (is_empty method) && string_forallb isTokenByte method.

Fixpoint canonical (upper : bool) (s : string) : string :=
  match s with
  | EmptyString => EmptyString
  | String c r =>
      let c' := if upper then to_upper c else to_lower c in
      String c' (canonical (Ascii.eqb c' "-") r)
  end.

(** [textproto.CanonicalMIMEHeaderKey]: first letter and letters after a
    hyphen in upper case, the others in lower case; a key that holds a byte
    no header name can hold is returned as it is. *)
Definition CanonicalMIMEHeaderKey (s : string) : string :=
  if string_forallb isTokenByte s then canonical true s else s.

(** [Header.Add]. *)
Definition Header_Add (key value : string) (h : gmap string (list string))
    : gmap string (list string) :=
  let k := CanonicalMIMEHeaderKey key in
  <[k := (default [] (h !! k) ++ [value])%list]> h.

Definition add_header (key value : string) (req : Request) : Request :=
  {| Method := Method req; URL := URL req;
     Header := Header_Add key value (Header req);
     Request_Body := Request_Body req; Request_ctx := Request_ctx req;
     Request_Response := Request_Response req |}.

Definition set_URL (u : url.URL) (req : Request) : Request :=
  {| Method := Method req; URL := u; Header := Header req;
     Request_Body := Request_Body req; Request_ctx := Request_ctx req;
     Request_Response := Request_Response req |}.

(** [removeEmptyPort]: a host that ends with a colon loses it. *)
Definition removeEmptyPort (host : string) : string :=
  match url.last_byte host with
  | Some c => if Ascii.eqb c ":" then url.drop_last host else host
  | None => host
  end.

(** [http.NewRequestWithContext]; [ctx] is [None] for a [nil] context and
    [body] is the content of the buffer passed as body. *)
Definition NewRequestWithContext (ctx : option context.Context)
    (method0 rawurl body : string) : result Request :=
  let method := if is_empty method0 then "GET" else method0 in
  if negb (validMethod method) then Err (http_InvalidMethod method)
  else
    match ctx with
    | None => Err (errorString "net/http: nil Context")
    | Some cx =>
        match url.Parse rawurl with
        | Err e => Err e
        | Ok u =>
            Ok {| Method := method;
                  URL := {| url.Scheme := url.Scheme u;
                            url.Opaque := url.Opaque u;
                            url.Host := removeEmptyPort (url.Host u);
                            url.Path := url.Path u;
                            url.RawPath := url.RawPath u;
                            url.ForceQuery := url.ForceQuery u;
                            url.RawQuery := url.RawQuery u;
                            url.Fragment := url.Fragment u;
                            url.RawFragment := url.RawFragment u |};
                  Header := ∅;
                  Request_Body := body;
                  Request_ctx := cx;
                  Request_Response := None |}
        end
    end.

(** [http.NewRequest] wraps [NewRequestWithContext] with the background
    context. *)
Definition NewRequest (method rawurl body : string) : result Request :=
  NewRequestWithContext (Some context.Background) method rawurl body.

(** What a round trip yields: a response, an error, or both (the response
    that made [CheckRedirect] fail, its body already closed).  Never
    neither. *)
Inductive reply : Type :=
| Reply (resp : Response)
| Failed (err : error)
| FailedWith (resp : Response) (err : error).

Definition reply_response (r : reply) : option Response :=
  match r with
  | Reply resp | FailedWith resp _ => Some resp
  | Failed _ => None
  end.

Definition reply_error (r : reply) : option error :=
  match r with
  | Reply _ => None
  | Failed err | FailedWith _ err => Some err
  end.

(** The network, seen from the client: what sending a request yields. *)
Record Network : Type := {
  roundtrip : Request -> reply
}.

(** [http.Transport] and [http.Client], as far as [NewClient] sets them. *)
Record Transport : Type := {
  MaxIdleConns : Z;
  IdleConnTimeout : Z;
  DisableCompression : bool
}.

Record Client : Type := {
  Timeout : Z;
  Client_Transport : option Transport
}.

(** An [http.ResponseWriter], as a handler sees it: the header map, what
    has been written to the body so far, and the error its [Write] reports
    when the connection is gone. *)
Record ResponseWriter : Type := {
  rw_Header : gmap string (list string);
  rw_written : string;
  rw_write_error : option error
}.

(** [w.Header().Set(key, value)]. *)
Definition ResponseWriter_Set (key value : string) (w : ResponseWriter)
    : ResponseWriter :=
  {| rw_Header := <[CanonicalMIMEHeaderKey key := [value]]> (rw_Header w);
     rw_written := rw_written w;
     rw_write_error := rw_write_error w |}.

(** [w.Write(text)]: the text is appended unless the writer fails. *)
Definition ResponseWriter_Write (text : string) (w : ResponseWriter)
    : ResponseWriter * option error :=
  match rw_write_error w with
  | Some e => (w, Some e)
  | None =>
      ({| rw_Header := rw_Header w;
          rw_written := rw_written w +:+ text;
          rw_write_error := None |}, None)
  end.

End http.

(** ** The world the client runs in *)

(** What the client does to the outside, in order. *)
Inductive event : Type :=
| Ev_Do (req : http.Request)        (* Client.Do was called with req *)
| Ev_ReadAll (b : http.ReadCloser)  (* ioutil.ReadAll was called on b *)
| Ev_Close (b : http.ReadCloser).   (* b.Close was called *)

(** What was written to [os.Stderr]. *)
Inductive stderr_write : Type :=
| Fprint (s : string)
| Fprintln (s : string)
| Fprintf (format : string) (operands : list (list error)).

(** The store of [url.URL] values that are reached through pointers, the
    standard error stream and the trace of events. *)
Record World : Type := {
  urls : gmap nat url.URL;
  stderr : list stderr_write;
  trace : list event
}.

Definition empty_World : World :=
  {| urls := ∅; stderr := []; trace := [] |}.

Definition set_urls (f : gmap nat url.URL -> gmap nat url.URL) (w : World)
    : World :=
  {| urls := f (urls w); stderr := stderr w; trace := trace w |}.

Definition log_event (e : event) (w : World) : World :=
  {| urls := urls w; stderr := stderr w; trace := (trace w ++ [e])%list |}.

Definition log_stderr (x : stderr_write) (w : World) : World :=
  {| urls := urls w; stderr := (stderr w ++ [x])%list; trace := trace w |}.

(** [p := new(url.URL); *p = v]. *)
Definition new_URL (v : url.URL) : M World nat := fun w =>
  let p := fresh (dom (urls w)) in
  (Returned p, set_urls (insert p v) w).

(** [*p]; a pointer that points to nothing is [nil]. *)
Definition load_URL (p : nat) : M World url.URL := fun w =>
  match urls w !! p with
  | Some v => (Returned v, w)
  | None => (Panicked runtime_nil_dereference, w)
  end.

(** [p.Path = x]. *)
Definition store_Path (p : nat) (x : string) : M World unit := fun w =>
  match urls w !! p with
  | Some v => (Returned tt, set_urls (insert p (url.set_Path x v)) w)
  | None => (Panicked runtime_nil_dereference, w)
  end.

(** [b.Close()]. *)
Definition Body_Close (b : http.ReadCloser) : M World (option error) :=
  modify (log_event (Ev_Close b));; mret (http.close_error b).

(** [ioutil.ReadAll(b)]: the bytes read and the error that stopped the
    reading, if any. *)
Definition ioutil_ReadAll (b : http.ReadCloser)
    : M World (string * option error) :=
  modify (log_event (Ev_ReadAll b));; mret (http.data b, http.read_error b).

(** [urlErrorOp]: the method name in title case, [Get] for an empty one. *)
Definition urlErrorOp (method : string) : string :=
  match method with
  | EmptyString => "Get"
  | String c r => String c (string_map to_lower r)
  end.

(** [Client.Do] over [http.Transport]: the transport refuses a request whose
    scheme is not [http] or [https] or whose host is empty before anything
    is sent; otherwise the network decides. *)
Definition Client_Do (net : http.Network) (req : http.Request)
    : M World http.reply :=
  modify (log_event (Ev_Do req));;
  let refuse (msg : string) :=
    http.Failed (url_Error (urlErrorOp (http.Method req))
                   (url.String_ (http.URL req)) (errorString msg)) in
  let scheme := url.Scheme (http.URL req) in
  if negb (String.eqb scheme "http" || String.eqb scheme "https") then
    mret (refuse "unsupported protocol scheme")
  else if is_empty (url.Host (http.URL req)) then
    mret (refuse "http: no Host in request URL")
  else mret (http.roundtrip net req).

(** [http.Get(link)], on the default client. *)
Definition http_Get (net : http.Network) (link : string)
    : M World http.reply :=
  match http.NewRequest http.MethodGet link "" with
  | Err err => mret (http.Failed err)
  | Ok req => Client_Do net req
  end.

(** ** The client: [pkg/raindrop/client.go] *)

Module raindrop.

Definition apiHost : string := "https://api.raindrop.io".
Definition authHost : string := "https://raindrop.io".

Definition endpointAuthorize : string := "/oauth/authorize".
Definition authorizeUri : string :=
  endpointAuthorize +:+ "?client_id=%s&redirect_uri=%s".
Definition endpointAccessToken : string := "/oauth/access_token".

Definition endpointGetRootCollections : string := "/rest/v1/collections".
Definition endpointGetChildCollections : string :=
  "/rest/v1/collections/childrens".
Definition endpointGetCollection : string := "/rest/v1/collection/".
Definition endpointCreateCollection : string := "/rest/v1/collection".

Definition endpointRaindrop : string := "/rest/v1/raindrop".
Definition endpointRaindrops : string := "/rest/v1/raindrops/".
Definition endpointTags : string := "/rest/v1/tags".

(** [5 * time.Second], in nanoseconds. *)
Definition defaultTimeout : Z := 5 * 1000000000.

(** Client is a raindrop client.  [apiURL] and [authURL] are pointers into
    the store of [url.URL] values. *)
Record Client : Type := {
  apiURL : nat;
  authURL : nat;
  httpClient : http.Client;
  clientId : string;
  clientSecret : string;
  redirectUri : string;
  ClientCode : string
}.

(** [type pleaseParse struct{}] *)
Inductive pleaseParse : Type := Build_pleaseParse.

Definition zero_pleaseParse : pleaseParse := Build_pleaseParse.

#[global] Instance Marshal_pleaseParse : json.Marshal pleaseParse :=
  fun _ => json.JObject [].

Definition decode_pleaseParse : json.decoder pleaseParse :=
  json.decode_struct "raindrop.pleaseParse" [].

(** access represents collections access level and drag possibility *)
Record access : Type := {
  access_Level : Z;  (* int json:"level" *)
  access_Draggable : bool  (* bool json:"draggable" *)
}.

Definition zero_access : access :=
  {| access_Level := 0; access_Draggable := false |}.

Definition set_access_Level (x : Z) (r : access) : access :=
  {| access_Level := x; access_Draggable := access_Draggable r |}.

Definition set_access_Draggable (x : bool) (r : access) : access :=
  {| access_Level := access_Level r; access_Draggable := x |}.

#[global] Instance Marshal_access : json.Marshal access := fun r =>
  json.JObject
    (json.member "level" false
       (json.JNumber (strconv.Itoa (access_Level r)))
     ++ json.member "draggable" false
       (json.JBool (access_Draggable r)))%list.

Definition fields_access : list (json.field access) :=
  [ json.mk_field "level" access_Level set_access_Level
      json.decode_int;
    json.mk_field "draggable" access_Draggable set_access_Draggable
      json.decode_bool ].

Definition decode_access : json.decoder access :=
  json.decode_struct "raindrop.access" fields_access.

#[global] Instance Unmarshal_access : json.Unmarshal access :=
  {| json.zero := zero_access; json.decode := decode_access |}.

(** user represents collection's owner *)
Record user : Type := {
  user_Id : Z  (* int json:"$id" *)
}.

Definition zero_user : user :=
  {| user_Id := 0 |}.

Definition set_user_Id (x : Z) (r : user) : user :=
  {| user_Id := x |}.

#[global] Instance Marshal_user : json.Marshal user := fun r =>
  json.JObject
    (json.member "$id" false
       (json.JNumber (strconv.Itoa (user_Id r))))%list.

Definition fields_user : list (json.field user) :=
  [ json.mk_field "$id" user_Id set_user_Id
      json.decode_int ].

Definition decode_user : json.decoder user :=
  json.decode_struct "raindrop.user" fields_user.

#[global] Instance Unmarshal_user : json.Unmarshal user :=
  {| json.zero := zero_user; json.decode := decode_user |}.

(** media represents cover link *)
Record media : Type := {
  media_Link : string  (* string json:"link" *)
}.

Definition zero_media : media :=
  {| media_Link := "" |}.

Definition set_media_Link (x : string) (r : media) : media :=
  {| media_Link := x |}.

#[global] Instance Marshal_media : json.Marshal media := fun r =>
  json.JObject
    (json.member "link" false
       (json.JString (media_Link r)))%list.

Definition fields_media : list (json.field media) :=
  [ json.mk_field "link" media_Link set_media_Link
      json.decode_string ].

Definition decode_media : json.decoder media :=
  json.decode_struct "raindrop.media" fields_media.

#[global] Instance Unmarshal_media : json.Unmarshal media :=
  {| json.zero := zero_media; json.decode := decode_media |}.

(** createCollectionRequest represents create collection api request item *)
Record createCollectionRequest : Type := {
  createCollectionRequest_View : string;  (* string json:"view,omitempty" *)
  createCollectionRequest_Title : string;  (* string json:"title,omitempty" *)
  createCollectionRequest_Sort : Z;  (* int json:"sort,omitempty" *)
  createCollectionRequest_Public : bool;  (* bool json:"public,omitempty" *)
  createCollectionRequest_ParentId : Z;  (* uint32 json:"parent.$id,omitempty" *)
  createCollectionRequest_Cover : option (list string)  (* []string json:"cover,omitempty" *)
}.

Definition zero_createCollectionRequest : createCollectionRequest :=
  {| createCollectionRequest_View := ""; createCollectionRequest_Title := "";
     createCollectionRequest_Sort := 0;
     createCollectionRequest_Public := false;
     createCollectionRequest_ParentId := 0;
     createCollectionRequest_Cover := None |}.

Definition set_createCollectionRequest_View (x : string) (r : createCollectionRequest) : createCollectionRequest :=
  {| createCollectionRequest_View := x;
     createCollectionRequest_Title := createCollectionRequest_Title r;
     createCollectionRequest_Sort := createCollectionRequest_Sort r;
     createCollectionRequest_Public := createCollectionRequest_Public r;
     createCollectionRequest_ParentId := createCollectionRequest_ParentId r;
     createCollectionRequest_Cover := createCollectionRequest_Cover r |}.

Definition set_createCollectionRequest_Title (x : string) (r : createCollectionRequest) : createCollectionRequest :=
  {| createCollectionRequest_View := createCollectionRequest_View r;
     createCollectionRequest_Title := x;
     createCollectionRequest_Sort := createCollectionRequest_Sort r;
     createCollectionRequest_Public := createCollectionRequest_Public r;
     createCollectionRequest_ParentId := createCollectionRequest_ParentId r;
     createCollectionRequest_Cover := createCollectionRequest_Cover r |}.

Definition set_createCollectionRequest_Sort (x : Z) (r : createCollectionRequest) : createCollectionRequest :=
  {| createCollectionRequest_View := createCollectionRequest_View r;
     createCollectionRequest_Title := createCollectionRequest_Title r;
     createCollectionRequest_Sort := x;
     createCollectionRequest_Public := createCollectionRequest_Public r;
     createCollectionRequest_ParentId := createCollectionRequest_ParentId r;
     createCollectionRequest_Cover := createCollectionRequest_Cover r |}.

Definition set_createCollectionRequest_Public (x : bool) (r : createCollectionRequest) : createCollectionRequest :=
  {| createCollectionRequest_View := createCollectionRequest_View r;
     createCollectionRequest_Title := createCollectionRequest_Title r;
     createCollectionRequest_Sort := createCollectionRequest_Sort r;
     createCollectionRequest_Public := x;
     createCollectionRequest_ParentId := createCollectionRequest_ParentId r;
     createCollectionRequest_Cover := createCollectionRequest_Cover r |}.

Definition set_createCollectionRequest_ParentId (x : Z) (r : createCollectionRequest) : createCollectionRequest :=
  {| createCollectionRequest_View := createCollectionRequest_View r;
     createCollectionRequest_Title := createCollectionRequest_Title r;
     createCollectionRequest_Sort := createCollectionRequest_Sort r;
     createCollectionRequest_Public := createCollectionRequest_Public r;
     createCollectionRequest_ParentId := x;
     createCollectionRequest_Cover := createCollectionRequest_Cover r |}.

Definition set_createCollectionRequest_Cover (x : option (list string)) (r : createCollectionRequest) : createCollectionRequest :=
  {| createCollectionRequest_View := createCollectionRequest_View r;
     createCollectionRequest_Title := createCollectionRequest_Title r;
     createCollectionRequest_Sort := createCollectionRequest_Sort r;
     createCollectionRequest_Public := createCollectionRequest_Public r;
     createCollectionRequest_ParentId := createCollectionRequest_ParentId r;
     createCollectionRequest_Cover := x |}.

#[global] Instance Marshal_createCollectionRequest : json.Marshal createCollectionRequest := fun r =>
  json.JObject
    (json.member "view" (is_empty (createCollectionRequest_View r))
       (json.JString (createCollectionRequest_View r))
     ++ json.member "title" (is_empty (createCollectionRequest_Title r))
       (json.JString (createCollectionRequest_Title r))
     ++ json.member "sort" (createCollectionRequest_Sort r =? 0)
       (json.JNumber (strconv.Itoa (createCollectionRequest_Sort r)))
     ++ json.member "public" (negb (createCollectionRequest_Public r))
       (json.JBool (createCollectionRequest_Public r))
     ++ json.member "parent.$id" (createCollectionRequest_ParentId r =? 0)
       (json.JNumber (strconv.Itoa (createCollectionRequest_ParentId r)))
     ++ json.member "cover" (json.empty_slice (createCollectionRequest_Cover r))
       (json.marshal (createCollectionRequest_Cover r)))%list.

Definition fields_createCollectionRequest : list (json.field createCollectionRequest) :=
  [ json.mk_field "view" createCollectionRequest_View set_createCollectionRequest_View
      json.decode_string;
    json.mk_field "title" createCollectionRequest_Title set_createCollectionRequest_Title
      json.decode_string;
    json.mk_field "sort" createCollectionRequest_Sort set_createCollectionRequest_Sort
      json.decode_int;
    json.mk_field "public" createCollectionRequest_Public set_createCollectionRequest_Public
      json.decode_bool;
    json.mk_field "parent.$id" createCollectionRequest_ParentId set_createCollectionRequest_ParentId
      json.decode_uint32;
    json.mk_field "cover" createCollectionRequest_Cover set_createCollectionRequest_Cover
      (json.decode_slice "[]string" "" json.decode_string) ].

Definition decode_createCollectionRequest : json.decoder createCollectionRequest :=
  json.decode_struct "raindrop.createCollectionRequest" fields_createCollectionRequest.

#[global] Instance Unmarshal_createCollectionRequest : json.Unmarshal createCollectionRequest :=
  {| json.zero := zero_createCollectionRequest; json.decode := decode_createCollectionRequest |}.

(** CreateCollectionResponse represents create collection api response item *)
Record CreateCollectionResponse : Type := {
  CreateCollectionResponse_Result : bool;  (* bool json:"result" *)
  CreateCollectionResponse_Item : createCollectionRequest;  (* createCollectionRequest json:"item,omitempty" *)
  CreateCollectionResponse_Error : string;  (* string json:"error,omitempty" *)
  CreateCollectionResponse_ErrorMessage : string  (* string json:"errorMessage,omitempty" *)
}.

Definition zero_CreateCollectionResponse : CreateCollectionResponse :=
  {| CreateCollectionResponse_Result := false;
     CreateCollectionResponse_Item := zero_createCollectionRequest;
     CreateCollectionResponse_Error := "";
     CreateCollectionResponse_ErrorMessage := "" |}.

Definition set_CreateCollectionResponse_Result (x : bool) (r : CreateCollectionResponse) : CreateCollectionResponse :=
  {| CreateCollectionResponse_Result := x;
     CreateCollectionResponse_Item := CreateCollectionResponse_Item r;
     CreateCollectionResponse_Error := CreateCollectionResponse_Error r;
     CreateCollectionResponse_ErrorMessage := CreateCollectionResponse_ErrorMessage r |}.

Definition set_CreateCollectionResponse_Item (x : createCollectionRequest) (r : CreateCollectionResponse) : CreateCollectionResponse :=
  {| CreateCollectionResponse_Result := CreateCollectionResponse_Result r;
     CreateCollectionResponse_Item := x;
     CreateCollectionResponse_Error := CreateCollectionResponse_Error r;
     CreateCollectionResponse_ErrorMessage := CreateCollectionResponse_ErrorMessage r |}.

Definition set_CreateCollectionResponse_Error (x : string) (r : CreateCollectionResponse) : CreateCollectionResponse :=
  {| CreateCollectionResponse_Result := CreateCollectionResponse_Result r;
     CreateCollectionResponse_Item := CreateCollectionResponse_Item r;
     CreateCollectionResponse_Error := x;
     CreateCollectionResponse_ErrorMessage := CreateCollectionResponse_ErrorMessage r |}.

Definition set_CreateCollectionResponse_ErrorMessage (x : string) (r : CreateCollectionResponse) : CreateCollectionResponse :=
  {| CreateCollectionResponse_Result := CreateCollectionResponse_Result r;
     CreateCollectionResponse_Item := CreateCollectionResponse_Item r;
     CreateCollectionResponse_Error := CreateCollectionResponse_Error r;
     CreateCollectionResponse_ErrorMessage := x |}.

Definition fields_CreateCollectionResponse : list (json.field CreateCollectionResponse) :=
  [ json.mk_field "result" CreateCollectionResponse_Result set_CreateCollectionResponse_Result
      json.decode_bool;
    json.mk_field "item" CreateCollectionResponse_Item set_CreateCollectionResponse_Item
      decode_createCollectionRequest;
    json.mk_field "error" CreateCollectionResponse_Error set_CreateCollectionResponse_Error
      json.decode_string;
    json.mk_field "errorMessage" CreateCollectionResponse_ErrorMessage set_CreateCollectionResponse_ErrorMessage
      json.decode_string ].

Definition decode_CreateCollectionResponse : json.decoder CreateCollectionResponse :=
  json.decode_struct "raindrop.CreateCollectionResponse" fields_CreateCollectionResponse.

#[global] Instance Unmarshal_CreateCollectionResponse : json.Unmarshal CreateCollectionResponse :=
  {| json.zero := zero_CreateCollectionResponse; json.decode := decode_CreateCollectionResponse |}.

Record deleteTagsRequest : Type := {
  deleteTagsRequest_Tags : option (list string)  (* []string json:"tags" *)
}.

Definition zero_deleteTagsRequest : deleteTagsRequest :=
  {| deleteTagsRequest_Tags := None |}.

#[global] Instance Marshal_deleteTagsRequest : json.Marshal deleteTagsRequest := fun r =>
  json.JObject
    (json.member "tags" false
       (json.marshal (deleteTagsRequest_Tags r)))%list.

Record DeleteTagsResponse : Type := {
  DeleteTagsResponse_Result : bool  (* bool json:"result" *)
}.

Definition zero_DeleteTagsResponse : DeleteTagsResponse :=
  {| DeleteTagsResponse_Result := false |}.

Definition set_DeleteTagsResponse_Result (x : bool) (r : DeleteTagsResponse) : DeleteTagsResponse :=
  {| DeleteTagsResponse_Result := x |}.

Definition fields_DeleteTagsResponse : list (json.field DeleteTagsResponse) :=
  [ json.mk_field "result" DeleteTagsResponse_Result set_DeleteTagsResponse_Result
      json.decode_bool ].

Definition decode_DeleteTagsResponse : json.decoder DeleteTagsResponse :=
  json.decode_struct "raindrop.DeleteTagsResponse" fields_DeleteTagsResponse.

#[global] Instance Unmarshal_DeleteTagsResponse : json.Unmarshal DeleteTagsResponse :=
  {| json.zero := zero_DeleteTagsResponse; json.decode := decode_DeleteTagsResponse |}.

(** Collection represents Raindrop.io collection type *)
Record Collection : Type := {
  Collection_ID : Z;  (* uint32 json:"_id" *)
  Collection_Access : access;  (* access json:"access" *)
  Collection_Color : string;  (* string json:"color" *)
  Collection_Count : Z;  (* uint32 json:"count" *)
  Collection_Cover : option (list string);  (* []string json:"cover" *)
  Collection_Created : string;  (* string json:"created" *)
  Collection_LastUpdate : string;  (* string json:"lastUpdate" *)
  Collection_ParentId : Z;  (* int json:"parent_id,omitempty" *)
  Collection_Expanded : bool;  (* bool json:"expanded" *)
  Collection_Public : bool;  (* bool json:"public" *)
  Collection_Title : string;  (* string json:"title" *)
  Collection_User : user;  (* user json:"user" *)
  Collection_View : string  (* string json:"view" *)
}.

Definition zero_Collection : Collection :=
  {| Collection_ID := 0; Collection_Access := zero_access;
     Collection_Color := ""; Collection_Count := 0; Collection_Cover := None;
     Collection_Created := ""; Collection_LastUpdate := "";
     Collection_ParentId := 0; Collection_Expanded := false;
     Collection_Public := false; Collection_Title := "";
     Collection_User := zero_user; Collection_View := "" |}.

Definition set_Collection_ID (x : Z) (r : Collection) : Collection :=
  {| Collection_ID := x; Collection_Access := Collection_Access r;
     Collection_Color := Collection_Color r;
     Collection_Count := Collection_Count r;
     Collection_Cover := Collection_Cover r;
     Collection_Created := Collection_Created r;
     Collection_LastUpdate := Collection_LastUpdate r;
     Collection_ParentId := Collection_ParentId r;
     Collection_Expanded := Collection_Expanded r;
     Collection_Public := Collection_Public r;
     Collection_Title := Collection_Title r;
     Collection_User := Collection_User r;
     Collection_View := Collection_View r |}.

Definition set_Collection_Access (x : access) (r : Collection) : Collection :=
  {| Collection_ID := Collection_ID r; Collection_Access := x;
     Collection_Color := Collection_Color r;
     Collection_Count := Collection_Count r;
     Collection_Cover := Collection_Cover r;
     Collection_Created := Collection_Created r;
     Collection_LastUpdate := Collection_LastUpdate r;
     Collection_ParentId := Collection_ParentId r;
     Collection_Expanded := Collection_Expanded r;
     Collection_Public := Collection_Public r;
     Collection_Title := Collection_Title r;
     Collection_User := Collection_User r;
     Collection_View := Collection_View r |}.

Definition set_Collection_Color (x : string) (r : Collection) : Collection :=
  {| Collection_ID := Collection_ID r;
     Collection_Access := Collection_Access r; Collection_Color := x;
     Collection_Count := Collection_Count r;
     Collection_Cover := Collection_Cover r;
     Collection_Created := Collection_Created r;
     Collection_LastUpdate := Collection_LastUpdate r;
     Collection_ParentId := Collection_ParentId r;
     Collection_Expanded := Collection_Expanded r;
     Collection_Public := Collection_Public r;
     Collection_Title := Collection_Title r;
     Collection_User := Collection_User r;
     Collection_View := Collection_View r |}.

Definition set_Collection_Count (x : Z) (r : Collection) : Collection :=
  {| Collection_ID := Collection_ID r;
     Collection_Access := Collection_Access r;
     Collection_Color := Collection_Color r; Collection_Count := x;
     Collection_Cover := Collection_Cover r;
     Collection_Created := Collection_Created r;
     Collection_LastUpdate := Collection_LastUpdate r;
     Collection_ParentId := Collection_ParentId r;
     Collection_Expanded := Collection_Expanded r;
     Collection_Public := Collection_Public r;
     Collection_Title := Collection_Title r;
     Collection_User := Collection_User r;
     Collection_View := Collection_View r |}.

Definition set_Collection_Cover (x : option (list string)) (r : Collection) : Collection :=
  {| Collection_ID := Collection_ID r;
     Collection_Access := Collection_Access r;
     Collection_Color := Collection_Color r;
     Collection_Count := Collection_Count r; Collection_Cover := x;
     Collection_Created := Collection_Created r;
     Collection_LastUpdate := Collection_LastUpdate r;
     Collection_ParentId := Collection_ParentId r;
     Collection_Expanded := Collection_Expanded r;
     Collection_Public := Collection_Public r;
     Collection_Title := Collection_Title r;
     Collection_User := Collection_User r;
     Collection_View := Collection_View r |}.

Definition set_Collection_Created (x : string) (r : Collection) : Collection :=
  {| Collection_ID := Collection_ID r;
     Collection_Access := Collection_Access r;
     Collection_Color := Collection_Color r;
     Collection_Count := Collection_Count r;
     Collection_Cover := Collection_Cover r; Collection_Created := x;
     Collection_LastUpdate := Collection_LastUpdate r;
     Collection_ParentId := Collection_ParentId r;
     Collection_Expanded := Collection_Expanded r;
     Collection_Public := Collection_Public r;
     Collection_Title := Collection_Title r;
     Collection_User := Collection_User r;
     Collection_View := Collection_View r |}.

Definition set_Collection_LastUpdate (x : string) (r : Collection) : Collection :=
  {| Collection_ID := Collection_ID r;
     Collection_Access := Collection_Access r;
     Collection_Color := Collection_Color r;
     Collection_Count := Collection_Count r;
     Collection_Cover := Collection_Cover r;
     Collection_Created := Collection_Created r; Collection_LastUpdate := x;
     Collection_ParentId := Collection_ParentId r;
     Collection_Expanded := Collection_Expanded r;
     Collection_Public := Collection_Public r;
     Collection_Title := Collection_Title r;
     Collection_User := Collection_User r;
     Collection_View := Collection_View r |}.

Definition set_Collection_ParentId (x : Z) (r : Collection) : Collection :=
  {| Collection_ID := Collection_ID r;
     Collection_Access := Collection_Access r;
     Collection_Color := Collection_Color r;
     Collection_Count := Collection_Count r;
     Collection_Cover := Collection_Cover r;
     Collection_Created := Collection_Created r;
     Collection_LastUpdate := Collection_LastUpdate r;
     Collection_ParentId := x; Collection_Expanded := Collection_Expanded r;
     Collection_Public := Collection_Public r;
     Collection_Title := Collection_Title r;
     Collection_User := Collection_User r;
     Collection_View := Collection_View r |}.

Definition set_Collection_Expanded (x : bool) (r : Collection) : Collection :=
  {| Collection_ID := Collection_ID r;
     Collection_Access := Collection_Access r;
     Collection_Color := Collection_Color r;
     Collection_Count := Collection_Count r;
     Collection_Cover := Collection_Cover r;
     Collection_Created := Collection_Created r;
     Collection_LastUpdate := Collection_LastUpdate r;
     Collection_ParentId := Collection_ParentId r; Collection_Expanded := x;
     Collection_Public := Collection_Public r;
     Collection_Title := Collection_Title r;
     Collection_User := Collection_User r;
     Collection_View := Collection_View r |}.

Definition set_Collection_Public (x : bool) (r : Collection) : Collection :=
  {| Collection_ID := Collection_ID r;
     Collection_Access := Collection_Access r;
     Collection_Color := Collection_Color r;
     Collection_Count := Collection_Count r;
     Collection_Cover := Collection_Cover r;
     Collection_Created := Collection_Created r;
     Collection_LastUpdate := Collection_LastUpdate r;
     Collection_ParentId := Collection_ParentId r;
     Collection_Expanded := Collection_Expanded r; Collection_Public := x;
     Collection_Title := Collection_Title r;
     Collection_User := Collection_User r;
     Collection_View := Collection_View r |}.

Definition set_Collection_Title (x : string) (r : Collection) : Collection :=
  {| Collection_ID := Collection_ID r;
     Collection_Access := Collection_Access r;
     Collection_Color := Collection_Color r;
     Collection_Count := Collection_Count r;
     Collection_Cover := Collection_Cover r;
     Collection_Created := Collection_Created r;
     Collection_LastUpdate := Collection_LastUpdate r;
     Collection_ParentId := Collection_ParentId r;
     Collection_Expanded := Collection_Expanded r;
     Collection_Public := Collection_Public r; Collection_Title := x;
     Collection_User := Collection_User r;
     Collection_View := Collection_View r |}.

Definition set_Collection_User (x : user) (r : Collection) : Collection :=
  {| Collection_ID := Collection_ID r;
     Collection_Access := Collection_Access r;
     Collection_Color := Collection_Color r;
     Collection_Count := Collection_Count r;
     Collection_Cover := Collection_Cover r;
     Collection_Created := Collection_Created r;
     Collection_LastUpdate := Collection_LastUpdate r;
     Collection_ParentId := Collection_ParentId r;
     Collection_Expanded := Collection_Expanded r;
     Collection_Public := Collection_Public r;
     Collection_Title := Collection_Title r; Collection_User := x;
     Collection_View := Collection_View r |}.

Definition set_Collection_View (x : string) (r : Collection) : Collection :=
  {| Collection_ID := Collection_ID r;
     Collection_Access := Collection_Access r;
     Collection_Color := Collection_Color r;
     Collection_Count := Collection_Count r;
     Collection_Cover := Collection_Cover r;
     Collection_Created := Collection_Created r;
     Collection_LastUpdate := Collection_LastUpdate r;
     Collection_ParentId := Collection_ParentId r;
     Collection_Expanded := Collection_Expanded r;
     Collection_Public := Collection_Public r;
     Collection_Title := Collection_Title r;
     Collection_User := Collection_User r; Collection_View := x |}.

#[global] Instance Marshal_Collection : json.Marshal Collection := fun r =>
  json.JObject
    (json.member "_id" false
       (json.JNumber (strconv.Itoa (Collection_ID r)))
     ++ json.member "access" false
       (json.marshal (Collection_Access r))
     ++ json.member "color" false
       (json.JString (Collection_Color r))
     ++ json.member "count" false
       (json.JNumber (strconv.Itoa (Collection_Count r)))
     ++ json.member "cover" false
       (json.marshal (Collection_Cover r))
     ++ json.member "created" false
       (json.JString (Collection_Created r))
     ++ json.member "lastUpdate" false
       (json.JString (Collection_LastUpdate r))
     ++ json.member "parent_id" (Collection_ParentId r =? 0)
       (json.JNumber (strconv.Itoa (Collection_ParentId r)))
     ++ json.member "expanded" false
       (json.JBool (Collection_Expanded r))
     ++ json.member "public" false
       (json.JBool (Collection_Public r))
     ++ json.member "title" false
       (json.JString (Collection_Title r))
     ++ json.member "user" false
       (json.marshal (Collection_User r))
     ++ json.member "view" false
       (json.JString (Collection_View r)))%list.

Definition fields_Collection : list (json.field Collection) :=
  [ json.mk_field "_id" Collection_ID set_Collection_ID
      json.decode_uint32;
    json.mk_field "access" Collection_Access set_Collection_Access
      decode_access;
    json.mk_field "color" Collection_Color set_Collection_Color
      json.decode_string;
    json.mk_field "count" Collection_Count set_Collection_Count
      json.decode_uint32;
    json.mk_field "cover" Collection_Cover set_Collection_Cover
      (json.decode_slice "[]string" "" json.decode_string);
    json.mk_field "created" Collection_Created set_Collection_Created
      json.decode_string;
    json.mk_field "lastUpdate" Collection_LastUpdate set_Collection_LastUpdate
      json.decode_string;
    json.mk_field "parent_id" Collection_ParentId set_Collection_ParentId
      json.decode_int;
    json.mk_field "expanded" Collection_Expanded set_Collection_Expanded
      json.decode_bool;
    json.mk_field "public" Collection_Public set_Collection_Public
      json.decode_bool;
    json.mk_field "title" Collection_Title set_Collection_Title
      json.decode_string;
    json.mk_field "user" Collection_User set_Collection_User
      decode_user;
    json.mk_field "view" Collection_View set_Collection_View
      json.decode_string ].

Definition decode_Collection : json.decoder Collection :=
  json.decode_struct "raindrop.Collection" fields_Collection.

#[global] Instance Unmarshal_Collection : json.Unmarshal Collection :=
  {| json.zero := zero_Collection; json.decode := decode_Collection |}.

(** Raindrop represents get raindrops api response item *)
Record Raindrop : Type := {
  Raindrop_PleaseParse : pleaseParse;  (* pleaseParse json:"pleaseParse" *)
  Raindrop_Created : string;  (* string json:"created,omitempty" *)
  Raindrop_LastUpdate : string;  (* string json:"lastUpdate,omitempty" *)
  Raindrop_Order : Z;  (* int json:"order,omitempty" *)
  Raindrop_Tags : option (list string);  (* []string json:"tags,omitempty" *)
  Raindrop_Media : option (list media);  (* []media json:"media,omitempty" *)
  Raindrop_Cover : string;  (* string json:"cover,omitempty" *)
  Raindrop_Collection : Collection;  (* Collection json:"collection,omitempty" *)
  Raindrop_Type : string;  (* string json:"type,omitempty" *)
  Raindrop_HTML : string;  (* string json:"html,omitempty" *)
  Raindrop_Excerpt : string;  (* string json:"excerpt,omitempty" *)
  Raindrop_Title : string;  (* string json:"title,omitempty" *)
  Raindrop_Link : string  (* string json:"link" *)
}.

Definition zero_Raindrop : Raindrop :=
  {| Raindrop_PleaseParse := zero_pleaseParse; Raindrop_Created := "";
     Raindrop_LastUpdate := ""; Raindrop_Order := 0; Raindrop_Tags := None;
     Raindrop_Media := None; Raindrop_Cover := "";
     Raindrop_Collection := zero_Collection; Raindrop_Type := "";
     Raindrop_HTML := ""; Raindrop_Excerpt := ""; Raindrop_Title := "";
     Raindrop_Link := "" |}.

Definition set_Raindrop_PleaseParse (x : pleaseParse) (r : Raindrop) : Raindrop :=
  {| Raindrop_PleaseParse := x; Raindrop_Created := Raindrop_Created r;
     Raindrop_LastUpdate := Raindrop_LastUpdate r;
     Raindrop_Order := Raindrop_Order r; Raindrop_Tags := Raindrop_Tags r;
     Raindrop_Media := Raindrop_Media r; Raindrop_Cover := Raindrop_Cover r;
     Raindrop_Collection := Raindrop_Collection r;
     Raindrop_Type := Raindrop_Type r; Raindrop_HTML := Raindrop_HTML r;
     Raindrop_Excerpt := Raindrop_Excerpt r;
     Raindrop_Title := Raindrop_Title r; Raindrop_Link := Raindrop_Link r |}.

Definition set_Raindrop_Created (x : string) (r : Raindrop) : Raindrop :=
  {| Raindrop_PleaseParse := Raindrop_PleaseParse r; Raindrop_Created := x;
     Raindrop_LastUpdate := Raindrop_LastUpdate r;
     Raindrop_Order := Raindrop_Order r; Raindrop_Tags := Raindrop_Tags r;
     Raindrop_Media := Raindrop_Media r; Raindrop_Cover := Raindrop_Cover r;
     Raindrop_Collection := Raindrop_Collection r;
     Raindrop_Type := Raindrop_Type r; Raindrop_HTML := Raindrop_HTML r;
     Raindrop_Excerpt := Raindrop_Excerpt r;
     Raindrop_Title := Raindrop_Title r; Raindrop_Link := Raindrop_Link r |}.

Definition set_Raindrop_LastUpdate (x : string) (r : Raindrop) : Raindrop :=
  {| Raindrop_PleaseParse := Raindrop_PleaseParse r;
     Raindrop_Created := Raindrop_Created r; Raindrop_LastUpdate := x;
     Raindrop_Order := Raindrop_Order r; Raindrop_Tags := Raindrop_Tags r;
     Raindrop_Media := Raindrop_Media r; Raindrop_Cover := Raindrop_Cover r;
     Raindrop_Collection := Raindrop_Collection r;
     Raindrop_Type := Raindrop_Type r; Raindrop_HTML := Raindrop_HTML r;
     Raindrop_Excerpt := Raindrop_Excerpt r;
     Raindrop_Title := Raindrop_Title r; Raindrop_Link := Raindrop_Link r |}.

Definition set_Raindrop_Order (x : Z) (r : Raindrop) : Raindrop :=
  {| Raindrop_PleaseParse := Raindrop_PleaseParse r;
     Raindrop_Created := Raindrop_Created r;
     Raindrop_LastUpdate := Raindrop_LastUpdate r; Raindrop_Order := x;
     Raindrop_Tags := Raindrop_Tags r; Raindrop_Media := Raindrop_Media r;
     Raindrop_Cover := Raindrop_Cover r;
     Raindrop_Collection := Raindrop_Collection r;
     Raindrop_Type := Raindrop_Type r; Raindrop_HTML := Raindrop_HTML r;
     Raindrop_Excerpt := Raindrop_Excerpt r;
     Raindrop_Title := Raindrop_Title r; Raindrop_Link := Raindrop_Link r |}.

Definition set_Raindrop_Tags (x : option (list string)) (r : Raindrop) : Raindrop :=
  {| Raindrop_PleaseParse := Raindrop_PleaseParse r;
     Raindrop_Created := Raindrop_Created r;
     Raindrop_LastUpdate := Raindrop_LastUpdate r;
     Raindrop_Order := Raindrop_Order r; Raindrop_Tags := x;
     Raindrop_Media := Raindrop_Media r; Raindrop_Cover := Raindrop_Cover r;
     Raindrop_Collection := Raindrop_Collection r;
     Raindrop_Type := Raindrop_Type r; Raindrop_HTML := Raindrop_HTML r;
     Raindrop_Excerpt := Raindrop_Excerpt r;
     Raindrop_Title := Raindrop_Title r; Raindrop_Link := Raindrop_Link r |}.

Definition set_Raindrop_Media (x : option (list media)) (r : Raindrop) : Raindrop :=
  {| Raindrop_PleaseParse := Raindrop_PleaseParse r;
     Raindrop_Created := Raindrop_Created r;
     Raindrop_LastUpdate := Raindrop_LastUpdate r;
     Raindrop_Order := Raindrop_Order r; Raindrop_Tags := Raindrop_Tags r;
     Raindrop_Media := x; Raindrop_Cover := Raindrop_Cover r;
     Raindrop_Collection := Raindrop_Collection r;
     Raindrop_Type := Raindrop_Type r; Raindrop_HTML := Raindrop_HTML r;
     Raindrop_Excerpt := Raindrop_Excerpt r;
     Raindrop_Title := Raindrop_Title r; Raindrop_Link := Raindrop_Link r |}.

Definition set_Raindrop_Cover (x : string) (r : Raindrop) : Raindrop :=
  {| Raindrop_PleaseParse := Raindrop_PleaseParse r;
     Raindrop_Created := Raindrop_Created r;
     Raindrop_LastUpdate := Raindrop_LastUpdate r;
     Raindrop_Order := Raindrop_Order r; Raindrop_Tags := Raindrop_Tags r;
     Raindrop_Media := Raindrop_Media r; Raindrop_Cover := x;
     Raindrop_Collection := Raindrop_Collection r;
     Raindrop_Type := Raindrop_Type r; Raindrop_HTML := Raindrop_HTML r;
     Raindrop_Excerpt := Raindrop_Excerpt r;
     Raindrop_Title := Raindrop_Title r; Raindrop_Link := Raindrop_Link r |}.

Definition set_Raindrop_Collection (x : Collection) (r : Raindrop) : Raindrop :=
  {| Raindrop_PleaseParse := Raindrop_PleaseParse r;
     Raindrop_Created := Raindrop_Created r;
     Raindrop_LastUpdate := Raindrop_LastUpdate r;
     Raindrop_Order := Raindrop_Order r; Raindrop_Tags := Raindrop_Tags r;
     Raindrop_Media := Raindrop_Media r; Raindrop_Cover := Raindrop_Cover r;
     Raindrop_Collection := x; Raindrop_Type := Raindrop_Type r;
     Raindrop_HTML := Raindrop_HTML r;
     Raindrop_Excerpt := Raindrop_Excerpt r;
     Raindrop_Title := Raindrop_Title r; Raindrop_Link := Raindrop_Link r |}.

Definition set_Raindrop_Type (x : string) (r : Raindrop) : Raindrop :=
  {| Raindrop_PleaseParse := Raindrop_PleaseParse r;
     Raindrop_Created := Raindrop_Created r;
     Raindrop_LastUpdate := Raindrop_LastUpdate r;
     Raindrop_Order := Raindrop_Order r; Raindrop_Tags := Raindrop_Tags r;
     Raindrop_Media := Raindrop_Media r; Raindrop_Cover := Raindrop_Cover r;
     Raindrop_Collection := Raindrop_Collection r; Raindrop_Type := x;
     Raindrop_HTML := Raindrop_HTML r;
     Raindrop_Excerpt := Raindrop_Excerpt r;
     Raindrop_Title := Raindrop_Title r; Raindrop_Link := Raindrop_Link r |}.

Definition set_Raindrop_HTML (x : string) (r : Raindrop) : Raindrop :=
  {| Raindrop_PleaseParse := Raindrop_PleaseParse r;
     Raindrop_Created := Raindrop_Created r;
     Raindrop_LastUpdate := Raindrop_LastUpdate r;
     Raindrop_Order := Raindrop_Order r; Raindrop_Tags := Raindrop_Tags r;
     Raindrop_Media := Raindrop_Media r; Raindrop_Cover := Raindrop_Cover r;
     Raindrop_Collection := Raindrop_Collection r;
     Raindrop_Type := Raindrop_Type r; Raindrop_HTML := x;
     Raindrop_Excerpt := Raindrop_Excerpt r;
     Raindrop_Title := Raindrop_Title r; Raindrop_Link := Raindrop_Link r |}.

Definition set_Raindrop_Excerpt (x : string) (r : Raindrop) : Raindrop :=
  {| Raindrop_PleaseParse := Raindrop_PleaseParse r;
     Raindrop_Created := Raindrop_Created r;
     Raindrop_LastUpdate := Raindrop_LastUpdate r;
     Raindrop_Order := Raindrop_Order r; Raindrop_Tags := Raindrop_Tags r;
     Raindrop_Media := Raindrop_Media r; Raindrop_Cover := Raindrop_Cover r;
     Raindrop_Collection := Raindrop_Collection r;
     Raindrop_Type := Raindrop_Type r; Raindrop_HTML := Raindrop_HTML r;
     Raindrop_Excerpt := x; Raindrop_Title := Raindrop_Title r;
     Raindrop_Link := Raindrop_Link r |}.

Definition set_Raindrop_Title (x : string) (r : Raindrop) : Raindrop :=
  {| Raindrop_PleaseParse := Raindrop_PleaseParse r;
     Raindrop_Created := Raindrop_Created r;
     Raindrop_LastUpdate := Raindrop_LastUpdate r;
     Raindrop_Order := Raindrop_Order r; Raindrop_Tags := Raindrop_Tags r;
     Raindrop_Media := Raindrop_Media r; Raindrop_Cover := Raindrop_Cover r;
     Raindrop_Collection := Raindrop_Collection r;
     Raindrop_Type := Raindrop_Type r; Raindrop_HTML := Raindrop_HTML r;
     Raindrop_Excerpt := Raindrop_Excerpt r; Raindrop_Title := x;
     Raindrop_Link := Raindrop_Link r |}.

Definition set_Raindrop_Link (x : string) (r : Raindrop) : Raindrop :=
  {| Raindrop_PleaseParse := Raindrop_PleaseParse r;
     Raindrop_Created := Raindrop_Created r;
     Raindrop_LastUpdate := Raindrop_LastUpdate r;
     Raindrop_Order := Raindrop_Order r; Raindrop_Tags := Raindrop_Tags r;
     Raindrop_Media := Raindrop_Media r; Raindrop_Cover := Raindrop_Cover r;
     Raindrop_Collection := Raindrop_Collection r;
     Raindrop_Type := Raindrop_Type r; Raindrop_HTML := Raindrop_HTML r;
     Raindrop_Excerpt := Raindrop_Excerpt r;
     Raindrop_Title := Raindrop_Title r; Raindrop_Link := x |}.

#[global] Instance Marshal_Raindrop : json.Marshal Raindrop := fun r =>
  json.JObject
    (json.member "pleaseParse" false
       (json.marshal (Raindrop_PleaseParse r))
     ++ json.member "created" (is_empty (Raindrop_Created r))
       (json.JString (Raindrop_Created r))
     ++ json.member "lastUpdate" (is_empty (Raindrop_LastUpdate r))
       (json.JString (Raindrop_LastUpdate r))
     ++ json.member "order" (Raindrop_Order r =? 0)
       (json.JNumber (strconv.Itoa (Raindrop_Order r)))
     ++ json.member "tags" (json.empty_slice (Raindrop_Tags r))
       (json.marshal (Raindrop_Tags r))
     ++ json.member "media" (json.empty_slice (Raindrop_Media r))
       (json.marshal (Raindrop_Media r))
     ++ json.member "cover" (is_empty (Raindrop_Cover r))
       (json.JString (Raindrop_Cover r))
     ++ json.member "collection" false
       (json.marshal (Raindrop_Collection r))
     ++ json.member "type" (is_empty (Raindrop_Type r))
       (json.JString (Raindrop_Type r))
     ++ json.member "html" (is_empty (Raindrop_HTML r))
       (json.JString (Raindrop_HTML r))
     ++ json.member "excerpt" (is_empty (Raindrop_Excerpt r))
       (json.JString (Raindrop_Excerpt r))
     ++ json.member "title" (is_empty (Raindrop_Title r))
       (json.JString (Raindrop_Title r))
     ++ json.member "link" false
       (json.JString (Raindrop_Link r)))%list.

Definition fields_Raindrop : list (json.field Raindrop) :=
  [ json.mk_field "pleaseParse" Raindrop_PleaseParse set_Raindrop_PleaseParse
      decode_pleaseParse;
    json.mk_field "created" Raindrop_Created set_Raindrop_Created
      json.decode_string;
    json.mk_field "lastUpdate" Raindrop_LastUpdate set_Raindrop_LastUpdate
      json.decode_string;
    json.mk_field "order" Raindrop_Order set_Raindrop_Order
      json.decode_int;
    json.mk_field "tags" Raindrop_Tags set_Raindrop_Tags
      (json.decode_slice "[]string" "" json.decode_string);
    json.mk_field "media" Raindrop_Media set_Raindrop_Media
      (json.decode_slice "[]raindrop.media" zero_media decode_media);
    json.mk_field "cover" Raindrop_Cover set_Raindrop_Cover
      json.decode_string;
    json.mk_field "collection" Raindrop_Collection set_Raindrop_Collection
      decode_Collection;
    json.mk_field "type" Raindrop_Type set_Raindrop_Type
      json.decode_string;
    json.mk_field "html" Raindrop_HTML set_Raindrop_HTML
      json.decode_string;
    json.mk_field "excerpt" Raindrop_Excerpt set_Raindrop_Excerpt
      json.decode_string;
    json.mk_field "title" Raindrop_Title set_Raindrop_Title
      json.decode_string;
    json.mk_field "link" Raindrop_Link set_Raindrop_Link
      json.decode_string ].

Definition decode_Raindrop : json.decoder Raindrop :=
  json.decode_struct "raindrop.Raindrop" fields_Raindrop.

#[global] Instance Unmarshal_Raindrop : json.Unmarshal Raindrop :=
  {| json.zero := zero_Raindrop; json.decode := decode_Raindrop |}.

(** SingleRaindropResponse represent single raindrop api response *)
Record SingleRaindropResponse : Type := {
  SingleRaindropResponse_Result : bool;  (* bool json:"result" *)
  SingleRaindropResponse_Items : Raindrop  (* Raindrop json:"item" *)
}.

Definition zero_SingleRaindropResponse : SingleRaindropResponse :=
  {| SingleRaindropResponse_Result := false;
     SingleRaindropResponse_Items := zero_Raindrop |}.

Definition set_SingleRaindropResponse_Result (x : bool) (r : SingleRaindropResponse) : SingleRaindropResponse :=
  {| SingleRaindropResponse_Result := x;
     SingleRaindropResponse_Items := SingleRaindropResponse_Items r |}.

Definition set_SingleRaindropResponse_Items (x : Raindrop) (r : SingleRaindropResponse) : SingleRaindropResponse :=
  {| SingleRaindropResponse_Result := SingleRaindropResponse_Result r;
     SingleRaindropResponse_Items := x |}.

Definition fields_SingleRaindropResponse : list (json.field SingleRaindropResponse) :=
  [ json.mk_field "result" SingleRaindropResponse_Result set_SingleRaindropResponse_Result
      json.decode_bool;
    json.mk_field "item" SingleRaindropResponse_Items set_SingleRaindropResponse_Items
      decode_Raindrop ].

Definition decode_SingleRaindropResponse : json.decoder SingleRaindropResponse :=
  json.decode_struct "raindrop.SingleRaindropResponse" fields_SingleRaindropResponse.

#[global] Instance Unmarshal_SingleRaindropResponse : json.Unmarshal SingleRaindropResponse :=
  {| json.zero := zero_SingleRaindropResponse; json.decode := decode_SingleRaindropResponse |}.

(** MultiRaindropsResponse represents get multiple raindrops api response *)
Record MultiRaindropsResponse : Type := {
  MultiRaindropsResponse_Result : bool;  (* bool json:"result" *)
  MultiRaindropsResponse_Items : option (list Raindrop)  (* []Raindrop json:"items" *)
}.

Definition zero_MultiRaindropsResponse : MultiRaindropsResponse :=
  {| MultiRaindropsResponse_Result := false;
     MultiRaindropsResponse_Items := None |}.

Definition set_MultiRaindropsResponse_Result (x : bool) (r : MultiRaindropsResponse) : MultiRaindropsResponse :=
  {| MultiRaindropsResponse_Result := x;
     MultiRaindropsResponse_Items := MultiRaindropsResponse_Items r |}.

Definition set_MultiRaindropsResponse_Items (x : option (list Raindrop)) (r : MultiRaindropsResponse) : MultiRaindropsResponse :=
  {| MultiRaindropsResponse_Result := MultiRaindropsResponse_Result r;
     MultiRaindropsResponse_Items := x |}.

Definition fields_MultiRaindropsResponse : list (json.field MultiRaindropsResponse) :=
  [ json.mk_field "result" MultiRaindropsResponse_Result set_MultiRaindropsResponse_Result
      json.decode_bool;
    json.mk_field "items" MultiRaindropsResponse_Items set_MultiRaindropsResponse_Items
      (json.decode_slice "[]raindrop.Raindrop" zero_Raindrop decode_Raindrop) ].

Definition decode_MultiRaindropsResponse : json.decoder MultiRaindropsResponse :=
  json.decode_struct "raindrop.MultiRaindropsResponse" fields_MultiRaindropsResponse.

#[global] Instance Unmarshal_MultiRaindropsResponse : json.Unmarshal MultiRaindropsResponse :=
  {| json.zero := zero_MultiRaindropsResponse; json.decode := decode_MultiRaindropsResponse |}.

(** AccessTokenResponse represents the token exchange api response item *)
Record AccessTokenResponse : Type := {
  AccessTokenResponse_AccessToken : string;  (* string json:"access_token,omitempty" *)
  AccessTokenResponse_RefreshToken : string;  (* string json:"refresh_token,omitempty" *)
  AccessTokenResponse_Expires : Z;  (* int json:"expires,omitempty" *)
  AccessTokenResponse_ExpiresIn : Z;  (* int json:"expires_in,omitempty" *)
  AccessTokenResponse_TokenType : string;  (* string json:"token_type,omitempty" *)
  AccessTokenResponse_Error : string  (* string json:"error,omitempty" *)
}.

Definition zero_AccessTokenResponse : AccessTokenResponse :=
  {| AccessTokenResponse_AccessToken := "";
     AccessTokenResponse_RefreshToken := "";
     AccessTokenResponse_Expires := 0; AccessTokenResponse_ExpiresIn := 0;
     AccessTokenResponse_TokenType := ""; AccessTokenResponse_Error := "" |}.

Definition set_AccessTokenResponse_AccessToken (x : string) (r : AccessTokenResponse) : AccessTokenResponse :=
  {| AccessTokenResponse_AccessToken := x;
     AccessTokenResponse_RefreshToken := AccessTokenResponse_RefreshToken r;
     AccessTokenResponse_Expires := AccessTokenResponse_Expires r;
     AccessTokenResponse_ExpiresIn := AccessTokenResponse_ExpiresIn r;
     AccessTokenResponse_TokenType := AccessTokenResponse_TokenType r;
     AccessTokenResponse_Error := AccessTokenResponse_Error r |}.

Definition set_AccessTokenResponse_RefreshToken (x : string) (r : AccessTokenResponse) : AccessTokenResponse :=
  {| AccessTokenResponse_AccessToken := AccessTokenResponse_AccessToken r;
     AccessTokenResponse_RefreshToken := x;
     AccessTokenResponse_Expires := AccessTokenResponse_Expires r;
     AccessTokenResponse_ExpiresIn := AccessTokenResponse_ExpiresIn r;
     AccessTokenResponse_TokenType := AccessTokenResponse_TokenType r;
     AccessTokenResponse_Error := AccessTokenResponse_Error r |}.

Definition set_AccessTokenResponse_Expires (x : Z) (r : AccessTokenResponse) : AccessTokenResponse :=
  {| AccessTokenResponse_AccessToken := AccessTokenResponse_AccessToken r;
     AccessTokenResponse_RefreshToken := AccessTokenResponse_RefreshToken r;
     AccessTokenResponse_Expires := x;
     AccessTokenResponse_ExpiresIn := AccessTokenResponse_ExpiresIn r;
     AccessTokenResponse_TokenType := AccessTokenResponse_TokenType r;
     AccessTokenResponse_Error := AccessTokenResponse_Error r |}.

Definition set_AccessTokenResponse_ExpiresIn (x : Z) (r : AccessTokenResponse) : AccessTokenResponse :=
  {| AccessTokenResponse_AccessToken := AccessTokenResponse_AccessToken r;
     AccessTokenResponse_RefreshToken := AccessTokenResponse_RefreshToken r;
     AccessTokenResponse_Expires := AccessTokenResponse_Expires r;
     AccessTokenResponse_ExpiresIn := x;
     AccessTokenResponse_TokenType := AccessTokenResponse_TokenType r;
     AccessTokenResponse_Error := AccessTokenResponse_Error r |}.

Definition set_AccessTokenResponse_TokenType (x : string) (r : AccessTokenResponse) : AccessTokenResponse :=
  {| AccessTokenResponse_AccessToken := AccessTokenResponse_AccessToken r;
     AccessTokenResponse_RefreshToken := AccessTokenResponse_RefreshToken r;
     AccessTokenResponse_Expires := AccessTokenResponse_Expires r;
     AccessTokenResponse_ExpiresIn := AccessTokenResponse_ExpiresIn r;
     AccessTokenResponse_TokenType := x;
     AccessTokenResponse_Error := AccessTokenResponse_Error r |}.

Definition set_AccessTokenResponse_Error (x : string) (r : AccessTokenResponse) : AccessTokenResponse :=
  {| AccessTokenResponse_AccessToken := AccessTokenResponse_AccessToken r;
     AccessTokenResponse_RefreshToken := AccessTokenResponse_RefreshToken r;
     AccessTokenResponse_Expires := AccessTokenResponse_Expires r;
     AccessTokenResponse_ExpiresIn := AccessTokenResponse_ExpiresIn r;
     AccessTokenResponse_TokenType := AccessTokenResponse_TokenType r;
     AccessTokenResponse_Error := x |}.

Definition fields_AccessTokenResponse : list (json.field AccessTokenResponse) :=
  [ json.mk_field "access_token" AccessTokenResponse_AccessToken set_AccessTokenResponse_AccessToken
      json.decode_string;
    json.mk_field "refresh_token" AccessTokenResponse_RefreshToken set_AccessTokenResponse_RefreshToken
      json.decode_string;
    json.mk_field "expires" AccessTokenResponse_Expires set_AccessTokenResponse_Expires
      json.decode_int;
    json.mk_field "expires_in" AccessTokenResponse_ExpiresIn set_AccessTokenResponse_ExpiresIn
      json.decode_int;
    json.mk_field "token_type" AccessTokenResponse_TokenType set_AccessTokenResponse_TokenType
      json.decode_string;
    json.mk_field "error" AccessTokenResponse_Error set_AccessTokenResponse_Error
      json.decode_string ].

Definition decode_AccessTokenResponse : json.decoder AccessTokenResponse :=
  json.decode_struct "raindrop.AccessTokenResponse" fields_AccessTokenResponse.

#[global] Instance Unmarshal_AccessTokenResponse : json.Unmarshal AccessTokenResponse :=
  {| json.zero := zero_AccessTokenResponse; json.decode := decode_AccessTokenResponse |}.

(** accessTokenRequest represents the token exchange api request item *)
Record accessTokenRequest : Type := {
  accessTokenRequest_Code : string;  (* string json:"code" *)
  accessTokenRequest_ClientID : string;  (* string json:"client_id" *)
  accessTokenRequest_ClientSecret : string;  (* string json:"client_secret" *)
  accessTokenRequest_RedirectUri : string;  (* string json:"redirect_uri" *)
  accessTokenRequest_GrantType : string  (* string json:"grant_type" *)
}.

Definition zero_accessTokenRequest : accessTokenRequest :=
  {| accessTokenRequest_Code := ""; accessTokenRequest_ClientID := "";
     accessTokenRequest_ClientSecret := "";
     accessTokenRequest_RedirectUri := ""; accessTokenRequest_GrantType := "" |}.

#[global] Instance Marshal_accessTokenRequest : json.Marshal accessTokenRequest := fun r =>
  json.JObject
    (json.member "code" false
       (json.JString (accessTokenRequest_Code r))
     ++ json.member "client_id" false
       (json.JString (accessTokenRequest_ClientID r))
     ++ json.member "client_secret" false
       (json.JString (accessTokenRequest_ClientSecret r))
     ++ json.member "redirect_uri" false
       (json.JString (accessTokenRequest_RedirectUri r))
     ++ json.member "grant_type" false
       (json.JString (accessTokenRequest_GrantType r)))%list.

(** refreshTokenRequest represents the token refresh api request item *)
Record refreshTokenRequest : Type := {
  refreshTokenRequest_ClientId : string;  (* string json:"client_id" *)
  refreshTokenRequest_ClientSecret : string;  (* string json:"client_secret" *)
  refreshTokenRequest_GrantType : string;  (* string json:"grant_type" *)
  refreshTokenRequest_RefreshToken : string  (* string json:"refresh_token" *)
}.

Definition zero_refreshTokenRequest : refreshTokenRequest :=
  {| refreshTokenRequest_ClientId := "";
     refreshTokenRequest_ClientSecret := "";
     refreshTokenRequest_GrantType := "";
     refreshTokenRequest_RefreshToken := "" |}.

#[global] Instance Marshal_refreshTokenRequest : json.Marshal refreshTokenRequest := fun r =>
  json.JObject
    (json.member "client_id" false
       (json.JString (refreshTokenRequest_ClientId r))
     ++ json.member "client_secret" false
       (json.JString (refreshTokenRequest_ClientSecret r))
     ++ json.member "grant_type" false
       (json.JString (refreshTokenRequest_GrantType r))
     ++ json.member "refresh_token" false
       (json.JString (refreshTokenRequest_RefreshToken r)))%list.

(** GetCollectionsResponse represents get root and child collections api response *)
Record GetCollectionsResponse : Type := {
  GetCollectionsResponse_Result : bool;  (* bool json:"result" *)
  GetCollectionsResponse_Items : option (list Collection)  (* []Collection json:"items" *)
}.

Definition zero_GetCollectionsResponse : GetCollectionsResponse :=
  {| GetCollectionsResponse_Result := false;
     GetCollectionsResponse_Items := None |}.

Definition set_GetCollectionsResponse_Result (x : bool) (r : GetCollectionsResponse) : GetCollectionsResponse :=
  {| GetCollectionsResponse_Result := x;
     GetCollectionsResponse_Items := GetCollectionsResponse_Items r |}.

Definition set_GetCollectionsResponse_Items (x : option (list Collection)) (r : GetCollectionsResponse) : GetCollectionsResponse :=
  {| GetCollectionsResponse_Result := GetCollectionsResponse_Result r;
     GetCollectionsResponse_Items := x |}.

Definition fields_GetCollectionsResponse : list (json.field GetCollectionsResponse) :=
  [ json.mk_field "result" GetCollectionsResponse_Result set_GetCollectionsResponse_Result
      json.decode_bool;
    json.mk_field "items" GetCollectionsResponse_Items set_GetCollectionsResponse_Items
      (json.decode_slice "[]raindrop.Collection" zero_Collection decode_Collection) ].

Definition decode_GetCollectionsResponse : json.decoder GetCollectionsResponse :=
  json.decode_struct "raindrop.GetCollectionsResponse" fields_GetCollectionsResponse.

#[global] Instance Unmarshal_GetCollectionsResponse : json.Unmarshal GetCollectionsResponse :=
  {| json.zero := zero_GetCollectionsResponse; json.decode := decode_GetCollectionsResponse |}.

(** GetCollectionResponse represents get collection by id api response *)
Record GetCollectionResponse : Type := {
  GetCollectionResponse_Result : bool;  (* bool json:"result" *)
  GetCollectionResponse_Item : Collection  (* Collection json:"item" *)
}.

Definition zero_GetCollectionResponse : GetCollectionResponse :=
  {| GetCollectionResponse_Result := false;
     GetCollectionResponse_Item := zero_Collection |}.

Definition set_GetCollectionResponse_Result (x : bool) (r : GetCollectionResponse) : GetCollectionResponse :=
  {| GetCollectionResponse_Result := x;
     GetCollectionResponse_Item := GetCollectionResponse_Item r |}.

Definition set_GetCollectionResponse_Item (x : Collection) (r : GetCollectionResponse) : GetCollectionResponse :=
  {| GetCollectionResponse_Result := GetCollectionResponse_Result r;
     GetCollectionResponse_Item := x |}.

Definition fields_GetCollectionResponse : list (json.field GetCollectionResponse) :=
  [ json.mk_field "result" GetCollectionResponse_Result set_GetCollectionResponse_Result
      json.decode_bool;
    json.mk_field "item" GetCollectionResponse_Item set_GetCollectionResponse_Item
      decode_Collection ].

Definition decode_GetCollectionResponse : json.decoder GetCollectionResponse :=
  json.decode_struct "raindrop.GetCollectionResponse" fields_GetCollectionResponse.

#[global] Instance Unmarshal_GetCollectionResponse : json.Unmarshal GetCollectionResponse :=
  {| json.zero := zero_GetCollectionResponse; json.decode := decode_GetCollectionResponse |}.

(** Tag represents get tags api response item *)
Record Tag : Type := {
  Tag_ID : string;  (* string json:"_id" *)
  Tag_Count : Z  (* int json:"count" *)
}.

Definition zero_Tag : Tag :=
  {| Tag_ID := ""; Tag_Count := 0 |}.

Definition set_Tag_ID (x : string) (r : Tag) : Tag :=
  {| Tag_ID := x; Tag_Count := Tag_Count r |}.

Definition set_Tag_Count (x : Z) (r : Tag) : Tag :=
  {| Tag_ID := Tag_ID r; Tag_Count := x |}.

Definition fields_Tag : list (json.field Tag) :=
  [ json.mk_field "_id" Tag_ID set_Tag_ID
      json.decode_string;
    json.mk_field "count" Tag_Count set_Tag_Count
      json.decode_int ].

Definition decode_Tag : json.decoder Tag :=
  json.decode_struct "raindrop.Tag" fields_Tag.

#[global] Instance Unmarshal_Tag : json.Unmarshal Tag :=
  {| json.zero := zero_Tag; json.decode := decode_Tag |}.

(** Tags represents get tags api response *)
Record Tags : Type := {
  Tags_Result : bool;  (* bool json:"result" *)
  Tags_Items : option (list Tag)  (* []Tag json:"items" *)
}.

Definition zero_Tags : Tags :=
  {| Tags_Result := false; Tags_Items := None |}.

Definition set_Tags_Result (x : bool) (r : Tags) : Tags :=
  {| Tags_Result := x; Tags_Items := Tags_Items r |}.

Definition set_Tags_Items (x : option (list Tag)) (r : Tags) : Tags :=
  {| Tags_Result := Tags_Result r; Tags_Items := x |}.

Definition fields_Tags : list (json.field Tags) :=
  [ json.mk_field "result" Tags_Result set_Tags_Result
      json.decode_bool;
    json.mk_field "items" Tags_Items set_Tags_Items
      (json.decode_slice "[]raindrop.Tag" zero_Tag decode_Tag) ].

Definition decode_Tags : json.decoder Tags :=
  json.decode_struct "raindrop.Tags" fields_Tags.

#[global] Instance Unmarshal_Tags : json.Unmarshal Tags :=
  {| json.zero := zero_Tags; json.decode := decode_Tags |}.

(** A value of type [interface{}] that is passed as a request body: a value
    of some type that the JSON encoder can encode. *)
Inductive any : Type :=
| Any {A : Type} `{json.Marshal A} (a : A).

Definition newline : string := String (byte_of 10) EmptyString.

(** [ePrintf] hands its variadic operands [a] to [fmt.Fprintf] as one
    operand, the slice itself. *)
Definition ePrintf (f : string) (a : list error) : M World unit :=
  modify (log_stderr (Fprint "[raindrop-io-api-client] "));;
  modify (log_stderr (Fprintf f [a])).

Definition ePrintln (s : string) : M World unit :=
  modify (log_stderr (Fprint "[raindrop-io-api-client] "));;
  modify (log_stderr (Fprintln s)).

(** NewClient creates Raindrop.io client *)
Definition NewClient (clientId clientSecret redirectUri : string)
    : M World (option Client * option error) :=
  match url.Parse authHost with
  | Err err => mret (None, Some err)
  | Ok auth_value =>
      auth ← new_URL auth_value;
      match url.Parse apiHost with
      | Err err => mret (None, Some err)
      | Ok api_value =>
          api ← new_URL api_value;
          let tr := {| http.MaxIdleConns := 10;
                       http.IdleConnTimeout := 30 * 1000000000;
                       http.DisableCompression := true |} in
          let client :=
            {| apiURL := api;
               authURL := auth;
               httpClient := {| http.Timeout := defaultTimeout;
                                http.Client_Transport := Some tr |};
               clientId := clientId;
               clientSecret := clientSecret;
               redirectUri := redirectUri;
               ClientCode := "" |} in
          mret (Some client, None)
      end
  end.

Definition createSingleSearchParameter (k v : string) : string :=
  fmt.Sprintf
    ("[{" +:+ String dquote "key" +:+ String dquote ":"
     +:+ String dquote "%s" +:+ String dquote ","
     +:+ String dquote "val" +:+ String dquote ":"
     +:+ String dquote "%s" +:+ String dquote "}]")
    [k; v].

Definition newRequest (c : Client) (accessToken httpMethod : string)
    (fullUrl : url.URL) (body : option any) (ctx : option context.Context)
    : result http.Request :=
  match url.QueryUnescape (url.String_ fullUrl) with
  | Err err => Err err
  | Ok u =>
      match match body with
            | Some (Any a) => json.Encode a
            | None => Ok ""
            end with
      | Err err => Err err
      | Ok b =>
          match match ctx with
                | Some _ => http.NewRequestWithContext ctx httpMethod u b
                | None => http.NewRequest httpMethod u b
                end with
          | Err err => Err err
          | Ok req =>
              let req := http.add_header "Content-Type" "application/json" req in
              let req :=
                if negb (is_empty accessToken) then
                  let bearerToken := fmt.Sprintf "Bearer %s" [accessToken] in
                  http.add_header "Authorization" bearerToken req
                else req in
              Ok req
          end
      end
  end.

(** [parseResponse(response, expectedStatus, &p)] for a pointer [p : *T],
    given as [clazz]: the value of [p] afterwards and the error returned. *)
Definition parseResponse {T} `{json.Unmarshal T} (response : http.Response)
    (expectedStatus : Z) (clazz : option T)
    : M World (option T * option error) :=
  with_defer
    (_ ← Body_Close (http.Body response); mret tt)
    (if negb (http.StatusCode response =? expectedStatus)
        && negb (http.StatusCode response =? 400)
     then
       let err :=
         errorString
           (fmt.Sprintf "unexpected Status Code: %d"
              [strconv.Itoa (http.StatusCode response)]) in
       ePrintf ("Can't parse response: %s" +:+ newline) [err];;
       mret (clazz, Some err)
     else
       '(body, err) ← ioutil_ReadAll (http.Body response);
       match err with
       | Some e => panic e
       | None => mret (json.Unmarshal_ptr body clazz)
       end).

(** GetAuthorizationCode returns authorization code or an error from
    raindrop's redirect request *)
Definition GetAuthorizationCode (c : Client) (r : http.Request)
    : outcome (string * option error) :=
  let code := url.Values_Get (url.Query (http.URL r)) "code" in
  let authErr := url.Values_Get (url.Query (http.URL r)) "error" in
  if is_empty code && negb (is_empty authErr) then
    Returned ("", Some (fundamental
                          ("Can't get authorization code: " +:+ authErr)))
  else if is_empty code then
    match http.Request_Response r with
    | None => Panicked runtime_nil_dereference
    | Some response =>
        Returned ("", Some (fundamental
                              ("Can't get authorization code: "
                               +:+ strconv.Itoa (http.StatusCode response))))
    end
  else Returned (code, None).

(** GetAuthorizationURL returns URL for user to authorize app *)
Definition GetAuthorizationURL (c : Client)
    : M World (url.URL * option error) :=
  let u := authURL c in
  let uri := fmt.Sprintf authorizeUri [clientId c; redirectUri c] in
  store_Path u (path.Join [uri]);;
  v ← load_URL u;
  mret (v, None).

(** [err.Error()] for the errors whose text the client prints: those it
    makes itself and those that come from outside. *)
Definition Error (e : error) : string :=
  match e with
  | errorString s | fundamental s | external s | unmodelled s => s
  | url_EscapeError s => "invalid URL escape " +:+ s
  | url_InvalidHostError s => "invalid character " +:+ s +:+ " in host name"
  | url_Error op u _ => op +:+ " " +:+ u
  | json_SyntaxError => "invalid character in JSON input"
  | json_UnmarshalTypeError v t =>
      "json: cannot unmarshal " +:+ v +:+ " into Go value of type " +:+ t
  | http_InvalidMethod m => "net/http: invalid method " +:+ m
  | runtime_nil_dereference =>
      "runtime error: invalid memory address or nil pointer dereference"
  end.

Definition set_ClientCode (code : string) (c : Client) : Client :=
  {| apiURL := apiURL c; authURL := authURL c; httpClient := httpClient c;
     clientId := clientId c; clientSecret := clientSecret c;
     redirectUri := redirectUri c; ClientCode := code |}.

(** GetAuthorizationCodeHandler handles redirect request from raindrop's
    authorization page.  The client it returns is the receiver after the
    call, the writer is [w] after the call; both are lost when the call
    panics. *)
Definition GetAuthorizationCodeHandler (c : Client) (w : http.ResponseWriter)
    (r : http.Request) : M World (Client * http.ResponseWriter) :=
  let w := http.ResponseWriter_Set "Content-Type" "text/html" w in
  match GetAuthorizationCode c r with
  | Panicked v => panic v
  | Returned (code, err) =>
      match err with
      | Some err => ePrintln (Error err)
      | None => mret tt
      end;;
      let '(w, err) :=
        http.ResponseWriter_Write
          (fmt.Sprintf "<h1>You've been authorized</h1><p>%s</p>" [code]) w in
      match err with
      | Some err => ePrintln (Error err)
      | None => mret tt
      end;;
      mret (set_ClientCode code c, w)
  end.

Section Operations.

(** The network the requests go to. *)
Variable net : http.Network.

(** Modelled from the spec: [GetHtmlTitle], a function of this package that
    [client.go] calls and does not define.  It consumes the HTML byte stream
    of a body and produces a title and whether one was found.  Nothing else
    is assumed about it: it is a parameter of the operation. *)
Variable GetHtmlTitle : http.ReadCloser -> string * bool.

(** CreateCollection creates new Collection *)
Definition CreateCollection (c : Client) (accessToken : string)
    (isRoot : bool) (view title : string) (sort : Z) (public : bool)
    (parentId : Z) (cover : option (list string))
    (ctx : option context.Context)
    : M World (option CreateCollectionResponse * option error) :=
  fullUrl ← load_URL (apiURL c);
  let fullUrl := url.set_Path (path.Join [endpointCreateCollection]) fullUrl in
  let collection :=
    if isRoot then
      {| createCollectionRequest_View := view;
         createCollectionRequest_Title := title;
         createCollectionRequest_Sort := sort;
         createCollectionRequest_Public := public;
         createCollectionRequest_ParentId := 0;
         createCollectionRequest_Cover := cover |}
    else
      {| createCollectionRequest_View := view;
         createCollectionRequest_Title := title;
         createCollectionRequest_Sort := sort;
         createCollectionRequest_Public := public;
         createCollectionRequest_ParentId := parentId;
         createCollectionRequest_Cover := cover |} in
  match newRequest c accessToken http.MethodPost fullUrl
          (Some (Any collection)) ctx with
  | Err err => mret (None, Some err)
  | Ok request =>
      rep ← Client_Do net request;
      match rep with
      | http.Failed err | http.FailedWith _ err => mret (None, Some err)
      | http.Reply response =>
          '(result, err) ←
            parseResponse response 200 (Some zero_CreateCollectionResponse);
          match err with
          | Some err => mret (None, Some err)
          | None => mret (result, None)
          end
      end
  end.

(** CreateSimpleRaindrop creates new simple unsorted Raindrop *)
Definition CreateSimpleRaindrop (c : Client) (accessToken link : string)
    (ctx : option context.Context)
    : M World (option SingleRaindropResponse * option error) :=
  fullUrl ← load_URL (apiURL c);
  let fullUrl := url.set_Path (path.Join [endpointRaindrop]) fullUrl in
  got ← http_Get net link;
  let resp := http.reply_response got in
  with_defer
    (match resp with
     | None => panic runtime_nil_dereference
     | Some r =>
         err ← Body_Close (http.Body r);
         match err with
         | Some err =>
             ePrintf
               ("Can't close response's Body in CreateSimpleRaindrop: %v"
                +:+ newline) [err]
         | None => mret tt
         end
     end)
    (body ← match resp with
            | None => panic runtime_nil_dereference
            | Some r => mret (http.Body r)
            end;
     let title :=
       let '(val, ok) := GetHtmlTitle body in
       if ok then val else "Fail to get HTML title" in
     let raindrop :=
       {| Raindrop_PleaseParse := Build_pleaseParse;
          Raindrop_Created := "";
          Raindrop_LastUpdate := "";
          Raindrop_Order := 0;
          Raindrop_Tags := None;
          Raindrop_Media := None;
          Raindrop_Cover := "";
          Raindrop_Collection := zero_Collection;
          Raindrop_Type := "";
          Raindrop_HTML := "";
          Raindrop_Excerpt := "";
          Raindrop_Title := title;
          Raindrop_Link := link |} in
     match newRequest c accessToken http.MethodPost fullUrl
             (Some (Any raindrop)) ctx with
     | Err err => mret (None, Some err)
     | Ok request =>
         rep ← Client_Do net request;
         match rep with
         | http.Failed err | http.FailedWith _ err => mret (None, Some err)
         | http.Reply response =>
             '(result, err) ←
               parseResponse response 200 (Some zero_SingleRaindropResponse);
             match err with
             | Some err => mret (None, Some err)
             | None => mret (result, None)
             end
         end
     end).

(** DeleteTags calls Delete tags API. *)
Definition DeleteTags (c : Client) (accessToken : string)
    (ctx : option context.Context) (tagIDs : option (list string))
    : M World (option error) :=
  u ← load_URL (apiURL c);
  base ← load_URL (apiURL c);
  let u := url.set_Path (path.Join [url.Path base; endpointTags]) u in
  let body := {| deleteTagsRequest_Tags := tagIDs |} in
  match newRequest c accessToken http.MethodDelete u (Some (Any body)) ctx with
  | Err err => mret (Some err)
  | Ok request =>
      rep ← Client_Do net request;
      match rep with
      | http.Failed err | http.FailedWith _ err => mret (Some err)
      | http.Reply response =>
          '(r, err) ←
            parseResponse response 200 (Some zero_DeleteTagsResponse);
          match err with
          | Some err => mret (Some err)
          | None => mret None
          end
      end
  end.

(** GetTaggedRaindrops finds raindrops with exact tags.  This function
    calls Get raindrops API with collectionID=0 and specify given tag as a
    search parameter. *)
Definition GetTaggedRaindrops (c : Client) (accessToken tag : string)
    (ctx : option context.Context)
    : M World (option MultiRaindropsResponse * option error) :=
  u ← load_URL (apiURL c);
  base ← load_URL (apiURL c);
  let u :=
    url.set_Path (path.Join [url.Path base; endpointRaindrops +:+ "0"]) u in
  match newRequest c accessToken http.MethodGet u None ctx with
  | Err err => mret (None, Some err)
  | Ok request =>
      let params := url.Query (http.URL request) in
      let searchParameter := createSingleSearchParameter "tag" tag in
      let params := url.Values_Add params "search" searchParameter in
      let request :=
        http.set_URL
          (url.set_RawQuery (url.Values_Encode params) (http.URL request))
          request in
      rep ← Client_Do net request;
      match rep with
      | http.Failed err | http.FailedWith _ err => mret (None, Some err)
      | http.Reply response =>
          '(r, err) ←
            parseResponse response 200 (Some zero_MultiRaindropsResponse);
          match err with
          | Some err => mret (None, Some err)
          | None => mret (r, None)
          end
      end
  end.

(** GetRootCollections call Get root collections API. *)
Definition GetRootCollections (c : Client) (accessToken : string)
    (ctx : option context.Context)
    : M World (option GetCollectionsResponse * option error) :=
  u ← load_URL (apiURL c);
  base ← load_URL (apiURL c);
  let u := url.set_Path (path.Join [url.Path base; endpointGetRootCollections]) u in
  match newRequest c accessToken http.MethodGet u None ctx with
  | Err err => mret (None, Some err)
  | Ok req =>
      rep ← Client_Do net req;
      match rep with
      | http.Failed err | http.FailedWith _ err => mret (None, Some err)
      | http.Reply response =>
          '(r, err) ← parseResponse response 200 (Some zero_GetCollectionsResponse);
          match err with
          | Some err => mret (None, Some err)
          | None => mret (r, None)
          end
      end
  end.

(** GetChildCollections call Get child collections API. *)
Definition GetChildCollections (c : Client) (accessToken : string)
    (ctx : option context.Context)
    : M World (option GetCollectionsResponse * option error) :=
  u ← load_URL (apiURL c);
  base ← load_URL (apiURL c);
  let u := url.set_Path (path.Join [url.Path base; endpointGetChildCollections]) u in
  match newRequest c accessToken http.MethodGet u None ctx with
  | Err err => mret (None, Some err)
  | Ok req =>
      rep ← Client_Do net req;
      match rep with
      | http.Failed err | http.FailedWith _ err => mret (None, Some err)
      | http.Reply response =>
          '(r, err) ← parseResponse response 200 (Some zero_GetCollectionsResponse);
          match err with
          | Some err => mret (None, Some err)
          | None => mret (r, None)
          end
      end
  end.

(** GetCollection call Get collection API. *)
Definition GetCollection (c : Client) (accessToken : string) (id : Z)
    (ctx : option context.Context)
    : M World (option GetCollectionResponse * option error) :=
  u ← load_URL (apiURL c);
  base ← load_URL (apiURL c);
  let u := url.set_Path (path.Join [url.Path base; endpointGetCollection +:+ strconv.Itoa id]) u in
  match newRequest c accessToken http.MethodGet u None ctx with
  | Err err => mret (None, Some err)
  | Ok req =>
      rep ← Client_Do net req;
      match rep with
      | http.Failed err | http.FailedWith _ err => mret (None, Some err)
      | http.Reply response =>
          '(r, err) ← parseResponse response 200 (Some zero_GetCollectionResponse);
          match err with
          | Some err => mret (None, Some err)
          | None => mret (r, None)
          end
      end
  end.

(** GetRaindrops call get raindrops API. *)
Definition GetRaindrops (c : Client) (accessToken collectionID : string)
    (perpage : Z) (ctx : option context.Context)
    : M World (option MultiRaindropsResponse * option error) :=
  u ← load_URL (apiURL c);
  base ← load_URL (apiURL c);
  let u :=
    url.set_Path (path.Join [url.Path base; endpointRaindrops; collectionID])
      u in
  match newRequest c accessToken http.MethodGet u None ctx with
  | Err err => mret (None, Some err)
  | Ok req =>
      let query := url.Query (http.URL req) in
      let query := url.Values_Add query "perpage" (strconv.Itoa perpage) in
      let req :=
        http.set_URL
          (url.set_RawQuery (url.Values_Encode query) (http.URL req)) req in
      rep ← Client_Do net req;
      match rep with
      | http.Failed err | http.FailedWith _ err => mret (None, Some err)
      | http.Reply response =>
          '(r, err) ←
            parseResponse response 200 (Some zero_MultiRaindropsResponse);
          match err with
          | Some err => mret (None, Some err)
          | None => mret (r, None)
          end
      end
  end.

(** GetTags calls Get tags API. *)
Definition GetTags (c : Client) (accessToken : string)
    (ctx : option context.Context)
    : M World (option Tags * option error) :=
  u ← load_URL (apiURL c);
  base ← load_URL (apiURL c);
  let u := url.set_Path (path.Join [url.Path base; endpointTags]) u in
  match newRequest c accessToken http.MethodGet u None ctx with
  | Err err => mret (None, Some err)
  | Ok req =>
      rep ← Client_Do net req;
      match rep with
      | http.Failed err | http.FailedWith _ err => mret (None, Some err)
      | http.Reply response =>
          '(r, err) ← parseResponse response 200 (Some zero_Tags);
          match err with
          | Some err => mret (None, Some err)
          | None => mret (r, None)
          end
      end
  end.

(** GetAccessToken exchanges user's authorization code to access token *)
Definition GetAccessToken (c : Client) (userCode : string)
    (ctx : option context.Context)
    : M World (option AccessTokenResponse * option error) :=
  fullUrl ← load_URL (authURL c);
  let fullUrl := url.set_Path (path.Join [endpointAccessToken]) fullUrl in
  let body :=
    {| accessTokenRequest_Code := userCode;
       accessTokenRequest_ClientID := clientId c;
       accessTokenRequest_ClientSecret := clientSecret c;
       accessTokenRequest_RedirectUri := redirectUri c;
       accessTokenRequest_GrantType := "authorization_code" |} in
  match newRequest c "" http.MethodPost fullUrl (Some (Any body)) ctx with
  | Err err => mret (None, Some err)
  | Ok request =>
      rep ← Client_Do net request;
      match rep with
      | http.Failed err | http.FailedWith _ err => mret (None, Some err)
      | http.Reply response =>
          '(result, err) ←
            parseResponse response 200 (Some zero_AccessTokenResponse);
          match err with
          | Some err => mret (None, Some err)
          | None => mret (result, None)
          end
      end
  end.

(** RefreshAccessToken refreshes expired token *)
Definition RefreshAccessToken (c : Client) (refreshToken : string)
    (ctx : option context.Context)
    : M World (option AccessTokenResponse * option error) :=
  fullUrl ← load_URL (authURL c);
  let fullUrl := url.set_Path (path.Join [endpointAccessToken]) fullUrl in
  let body :=
    {| refreshTokenRequest_ClientId := clientId c;
       refreshTokenRequest_ClientSecret := clientSecret c;
       refreshTokenRequest_GrantType := "authorization_code";
       refreshTokenRequest_RefreshToken := refreshToken |} in
  match newRequest c "" http.MethodPost fullUrl (Some (Any body)) ctx with
  | Err err => mret (None, Some err)
  | Ok request =>
      rep ← Client_Do net request;
      match rep with
      | http.Failed err | http.FailedWith _ err => mret (None, Some err)
      | http.Reply response =>
          '(result, err) ←
            parseResponse response 200 (Some zero_AccessTokenResponse);
          match err with
          | Some err => mret (None, Some err)
          | None => mret (result, None)
          end
      end
  end.

End Operations.

End raindrop.

(** ** Vocabulary of the statements *)

Import raindrop.

(** The requests handed to [Client.Do], in order. *)
Definition requests (w : World) : list http.Request :=
  omap (fun e => match e with Ev_Do req => Some req | _ => None end) (trace w).

(** A status code [parseResponse] accepts. *)
Definition accepted (response : http.Response) (expectedStatus : Z) : Prop :=
  http.StatusCode response = expectedStatus \/ http.StatusCode response = 400.

(** The error [parseResponse] makes of an unexpected status code. *)
Definition status_mismatch (code : Z) : error :=
  errorString ("unexpected Status Code: " +:+ strconv.Itoa code).

Definition is_status_mismatch (e : error) : Prop :=
  exists code, e = status_mismatch code.

(** [s] between double quotes. *)
Definition quoted (s : string) : string :=
  String dquote (s +:+ String dquote EmptyString).

(** A text is the JSON encoding of a tree. *)
Definition encodes (body : string) (v : json.value) : Prop :=
  body = json.render v +:+ newline.

(** The members of an object that carry a given name. *)
Definition members_named (name : string) (v : json.value)
    : list json.value :=
  match v with
  | json.JObject ms =>
      map snd (filter (fun m => String.eqb (fst m) name) ms)
  | _ => []
  end.

(** The URL value that [url.Parse] makes of a constant. *)
Definition parsed (rawURL : string) : url.URL :=
  match url.Parse rawURL with
  | Ok u => u
  | Err _ => url.empty_URL
  end.

(** The client's API endpoint is the one [NewClient] stored. *)
Definition api_configured (c : Client) (w : World) : Prop :=
  urls w !! apiURL c = Some (parsed apiHost).

(** A computation that leaves the stored URLs as they are, whatever it
    returns and whether it panics or not. *)
Definition preserves_urls {A} (m : M World A) : Prop :=
  forall w, urls (snd (m w)) = urls w.


Definition is_jbool (v : json.value) : bool :=
  match v with json.JBool _ => true | _ => false end.
Definition is_jnull (v : json.value) : bool :=
  match v with json.JNull => true | _ => false end.





(** A tree that has the shape of a [DeleteTagsResponse]: [null], or an
    object whose members denoting [result] carry a boolean or [null]. *)
Definition DeleteTagsResponse_shaped (v : json.value) : bool :=
  match v with
  | json.JNull => true
  | json.JObject ms =>
      forallb
        (fun m =>
           match json.find_field fields_DeleteTagsResponse (fst m) with
           | None => true
           | Some _ => is_jbool (snd m) || is_jnull (snd m)
           end) ms
  | _ => false
  end.

(** A byte that [newRequest] leaves as it is in the path of a URL: one that
    [URL.String] does not escape and that the unescaping of the whole URL
    does not touch (so neither [%] nor [+]). *)
Definition path_safe (c : ascii) : bool :=
  negb (url.shouldEscape c url.encodePath) && negb (Ascii.eqb c "+").

(** An element that [path.Clean] leaves where it is or, when it is empty,
    drops: no slash in it, and neither [.] nor [..]. *)
Definition path_element (e : string) : bool :=
  negb (String.eqb e ".") && negb (String.eqb e "..")
  && negb (url.mem_byte "/" e).

(** Whether a text has two slashes in a row. *)
Fixpoint double_slash (s : string) : bool :=
  match s with
  | EmptyString => false
  | String c r =>
      (Ascii.eqb c "/"
       && match r with
          | String d _ => Ascii.eqb d "/"
          | EmptyString => false
          end)
      || double_slash r
  end.

(** What the unescaping of a whole URL makes of a byte of [path_safe]
    bytes and plus signs. *)
Definition plus_to_space (c : ascii) : ascii :=
  if Ascii.eqb c "+" then " "%char else c.

(** The bytes of a decimal number as [strconv.Itoa] prints it. *)
Definition decimal_byte (c : ascii) : bool := is_digit c || Ascii.eqb c "-".

(** The client's auth endpoint is the one [NewClient] stored, up to its
    path. *)
Definition auth_configured (c : Client) (w : World) : Prop :=
  exists p, urls w !! authURL c = Some (url.set_Path p (parsed authHost)).

(** Both endpoints of the client are in place. *)
Definition configured (c : Client) (w : World) : Prop :=
  api_configured c w /\ auth_configured c w.

(** The text [newRequest] makes of a body: the JSON encoding and a newline,
    or nothing for a [nil] body. *)
Definition body_text (body : option any) : string :=
  match body with
  | Some (Any a) => json.render (json.marshal a) +:+ newline
  | None => ""
  end.

(** The request that reaches the transport for a token, a method, a URL, a
    body text and a context: the two headers, and the background context
    for a [nil] one. *)
Definition request_for (accessToken method : string) (u : url.URL)
    (body : string) (ctx : option context.Context) : http.Request :=
  {| http.Method := method;
     http.URL := u;
     http.Header :=
       (if is_empty accessToken then id
        else http.Header_Add "Authorization" ("Bearer " +:+ accessToken))
         (http.Header_Add "Content-Type" "application/json" ∅);
     http.Request_Body := body;
     http.Request_ctx := default context.Background ctx;
     http.Request_Response := None |}.

(** The exchange the operations end with: the request goes to the
    transport, and what comes back to [parseResponse] with 200 as the
    expected status. *)
Definition send_and_parse {T} `{json.Unmarshal T} (net : http.Network)
    (req : http.Request) (clazz : option T)
    : M World (option T * option error) :=
  rep ← Client_Do net req;
  match rep with
  | http.Failed err | http.FailedWith _ err => mret (None, Some err)
  | http.Reply response =>
      '(r, err) ← parseResponse response 200 clazz;
      match err with
      | Some err => mret (None, Some err)
      | None => mret (r, None)
      end
  end.


(** The events of a world that concern response bodies. *)
Definition body_events (w : World) : list event :=
  List.filter (fun e => match e with Ev_Do _ => false | _ => true end)
    (trace w).

(** [m], started in [w], returns [r] and leaves the events [evs] on
    response bodies behind, in this order, after those of [w]. *)
Definition returns_with {A} (m : M World A) (w : World) (r : A)
    (evs : list event) : Prop :=
  fst (m w) = Returned r
  /\ body_events (snd (m w)) = (body_events w ++ evs)%list.

(** An outcome that is not a value together with an error. *)
Definition value_or_error {A} (o : outcome (option A * option error))
    : Prop :=
  match o with
  | Returned (Some _, Some _) => False
  | _ => True
  end.

(** [n] arrays inside one another, the innermost one empty. *)
Definition nested_arrays (n : N) : string :=
  N.iter n (fun s => "[" +:+ s) "" +:+ N.iter n (fun s => "]" +:+ s) "".

(** A text of ASCII bytes. *)
Definition ascii_text (s : string) : bool :=
  string_forallb (fun c => byte_val c <? 0x80) s.

(** What may follow a value inside an array or an object. *)
Definition closes_value (rest : string) : bool :=
  match rest with
  | String c _ => Ascii.eqb c "," || Ascii.eqb c "}" || Ascii.eqb c "]"
  | EmptyString => false
  end.

(** The parser reads the tree [v] back from its compact text, where the
    text stands inside an array or an object at nesting depth [depth] and
    [n] units of fuel are at hand. *)
Definition reads_back (n : nat) (depth : Z) (v : json.value) : Prop :=
  forall (f : nat) (rest : string),
    (n <= f)%nat -> closes_value rest = true ->
    json.parse_value f depth (json.render v +:+ rest) = Some (v, rest).

(** The text of a member of an object. *)
Definition member_text (m : string * json.value) : string :=
  json.quote (fst m) +:+ ":" +:+ json.render (snd m).

(** A member of a JSON object that may be missing. *)
Definition optional_member {A} (name : string) (tree : A -> json.value)
    (x : option A) : list (string * json.value) :=
  match x with
  | Some a => [(name, tree a)]
  | None => []
  end.

(** One tag as the service lists it. *)
Definition tag_object (t : Tag) : json.value :=
  json.JObject
    [("_id", json.JString (Tag_ID t));
     ("count", json.JNumber (strconv.Itoa (Tag_Count t)))].

(** ** Concrete clients, networks and requests *)

Definition readable (s : string) : http.ReadCloser :=
  {| http.data := s; http.read_error := None; http.close_error := None |}.

(** A body whose reading is cut short by the peer. *)
Definition broken_body : http.ReadCloser :=
  {| http.data := "{";
     http.read_error := Some (external "unexpected EOF");
     http.close_error := None |}.

(** A network that answers every request with the same response. *)
Definition answering (response : http.Response) : http.Network :=
  {| http.roundtrip := fun _ => http.Reply response |}.

(** A network on which nothing can be reached. *)
Definition offline : http.Network :=
  {| http.roundtrip := fun _ =>
       http.Failed (external "dial tcp: lookup failed: no such host") |}.

(** A stand-in for [GetHtmlTitle] on pages that have no title. *)
Definition no_title : http.ReadCloser -> string * bool := fun _ => ("", false).

(** The client and the world that
    [NewClient("id", "secret", "http://localhost/cb")] leaves behind when it
    starts from the empty world. *)
Definition example_client : Client :=
  {| apiURL := 1%nat;
     authURL := 0%nat;
     httpClient :=
       {| http.Timeout := defaultTimeout;
          http.Client_Transport :=
            Some {| http.MaxIdleConns := 10;
                    http.IdleConnTimeout := 30 * 1000000000;
                    http.DisableCompression := true |} |};
     clientId := "id";
     clientSecret := "secret";
     redirectUri := "http://localhost/cb";
     ClientCode := "" |}.

Definition example_world : World :=
  {| urls := <[1%nat := parsed apiHost]> (<[0%nat := parsed authHost]> ∅);
     stderr := [];
     trace := [] |}.

(** The request a server hands to its handler for a request target in
    origin form, such as [/callback?code=x]: the URL is parsed from the
    target and the [Response] field is [nil]. *)
Definition inbound_request (target : string) : http.Request :=
  {| http.Method := "GET";
     http.URL := parsed target;
     http.Header := ∅;
     http.Request_Body := "";
     http.Request_ctx := context.Background;
     http.Request_Response := None |}.

(** The same request with a redirect response attached, as the client side
    of a redirect builds it. *)
Definition redirected_request (target : string) (status : Z) : http.Request :=
  {| http.Method := "GET";
     http.URL := parsed target;
     http.Header := ∅;
     http.Request_Body := "";
     http.Request_ctx := context.Background;
     http.Request_Response :=
       Some {| http.StatusCode := status; http.Body := readable "" |} |}.

(** * Theorems *)

(** ** Strings *)

Lemma append_empty_r (s : string) : s +:+ "" = s.
Proof.
  induction s as [|c s IH]; [reflexivity |].
  change (String c (s +:+ "") = String c s). now rewrite IH.
Qed.

Lemma is_empty_false (s : string) : is_empty s = false <-> s <> "".
Proof. destruct s; simpl; split; intros H; congruence. Qed.

Lemma Sprintf_Bearer (tok : string) :
  fmt.Sprintf "Bearer %s" [tok] = "Bearer " +:+ tok.
Proof. simpl. now rewrite append_empty_r. Qed.

Lemma Sprintf_status (code : Z) :
  errorString
    (fmt.Sprintf "unexpected Status Code: %d" [strconv.Itoa code])
  = status_mismatch code.
Proof. unfold status_mismatch. simpl. now rewrite append_empty_r. Qed.

(** ** The trace of requests *)

Lemma requests_Do (req : http.Request) (w : World) :
  requests (log_event (Ev_Do req) w) = (requests w ++ [req])%list.
Proof. unfold requests, log_event; simpl. now rewrite omap_app. Qed.

Lemma requests_ReadAll (b : http.ReadCloser) (w : World) :
  requests (log_event (Ev_ReadAll b) w) = requests w.
Proof.
  unfold requests, log_event; simpl. rewrite omap_app; simpl.
  apply app_nil_r.
Qed.

Lemma requests_Close (b : http.ReadCloser) (w : World) :
  requests (log_event (Ev_Close b) w) = requests w.
Proof.
  unfold requests, log_event; simpl. rewrite omap_app; simpl.
  apply app_nil_r.
Qed.

Lemma requests_stderr (x : stderr_write) (w : World) :
  requests (log_stderr x w) = requests w.
Proof. reflexivity. Qed.

(** ** [parseResponse] *)

Section ParseResponse.
Context {T : Type} `{json.Unmarshal T}.

(** An unexpected status: the body is closed and nothing else is done to
    it. *)
Lemma parseResponse_unexpected (response : http.Response)
    (expectedStatus : Z) (clazz : option T) (w : World) :
  http.StatusCode response <> expectedStatus ->
  http.StatusCode response <> 400 ->
  parseResponse response expectedStatus clazz w =
  (Returned (clazz, Some (status_mismatch (http.StatusCode response))),
   log_event (Ev_Close (http.Body response))
     (log_stderr
        (Fprintf ("Can't parse response: %s" +:+ newline)
           [[status_mismatch (http.StatusCode response)]])
        (log_stderr (Fprint "[raindrop-io-api-client] ") w))).
Proof.
  intros He H400. unfold parseResponse. rewrite Sprintf_status.
  unfold with_defer. apply Z.eqb_neq in He, H400. rewrite He, H400.
  reflexivity.
Qed.

(** An accepted status: the body is read, then closed; a read error is a
    panic, and otherwise the JSON decoder decides. *)
Lemma parseResponse_accepted (response : http.Response)
    (expectedStatus : Z) (clazz : option T) (w : World) :
  accepted response expectedStatus ->
  parseResponse response expectedStatus clazz w =
  (match http.read_error (http.Body response) with
   | Some e => Panicked e
   | None =>
       Returned (json.Unmarshal_ptr (http.data (http.Body response)) clazz)
   end,
   log_event (Ev_Close (http.Body response))
     (log_event (Ev_ReadAll (http.Body response)) w)).
Proof.
  intros Hacc. unfold parseResponse, with_defer.
  assert ((negb (http.StatusCode response =? expectedStatus)
           && negb (http.StatusCode response =? 400)) = false) as ->.
  { destruct Hacc as [-> | ->]; rewrite Z.eqb_refl; simpl;
      [reflexivity | apply andb_false_r]. }
  cbv [ioutil_ReadAll Body_Close mbind M_bind bind mret M_ret ret modify
       panic].
  destruct (http.read_error (http.Body response)); reflexivity.
Qed.

Lemma parseResponse_requests (response : http.Response)
    (expectedStatus : Z) (clazz : option T) (w : World) :
  requests (snd (parseResponse response expectedStatus clazz w)) = requests w.
Proof.
  destruct (Z.eq_dec (http.StatusCode response) expectedStatus) as [He | He].
  - rewrite parseResponse_accepted by (left; assumption). simpl.
    now rewrite requests_Close, requests_ReadAll.
  - destruct (Z.eq_dec (http.StatusCode response) 400) as [H4 | H4].
    + rewrite parseResponse_accepted by (right; assumption). simpl.
      now rewrite requests_Close, requests_ReadAll.
    + rewrite parseResponse_unexpected by assumption. simpl.
      now rewrite requests_Close, !requests_stderr.
Qed.

End ParseResponse.

(** C6.  A response whose status code is neither the expected one nor 400
    makes [parseResponse] return the status-mismatch error that carries the
    observed code.  Nothing is decoded: the target keeps its value, and the
    only thing done to the body is to close it (it is never read). *)
Theorem parseResponse_status_mismatch {T : Type} `{json.Unmarshal T}
    (response : http.Response) (expectedStatus : Z) (clazz : option T)
    (w : World) :
  http.StatusCode response <> expectedStatus ->
  http.StatusCode response <> 400 ->
  exists w',
    parseResponse response expectedStatus clazz w =
      (Returned (clazz, Some (status_mismatch (http.StatusCode response))), w')
    /\ trace w' = (trace w ++ [Ev_Close (http.Body response)])%list
    /\ is_status_mismatch (status_mismatch (http.StatusCode response)).
Proof.
  intros He H400. eexists. split; [|split].
  - apply parseResponse_unexpected; assumption.
  - reflexivity.
  - now exists (http.StatusCode response).
Qed.

Lemma parseResponse_status_mismatch_witness :
  exists w',
    parseResponse
      {| http.StatusCode := 404; http.Body := readable "Not Found" |} 200
      (Some zero_DeleteTagsResponse) empty_World =
      (Returned (Some zero_DeleteTagsResponse,
                 Some (errorString "unexpected Status Code: 404")), w')
    /\ trace w' = [Ev_Close (readable "Not Found")].
Proof.
  destruct (parseResponse_status_mismatch
              {| http.StatusCode := 404; http.Body := readable "Not Found" |}
              200 (Some zero_DeleteTagsResponse) empty_World)
    as (w' & Hrun & Htr & _); [simpl; lia | simpl; lia |].
  exists w'. split; [exact Hrun | exact Htr].
Defined.

(** C3, as the code has it.  When the status code is accepted, a failure to
    read the body makes [parseResponse] panic with the read error: no error
    value is returned.  A body that is read and is not valid JSON makes it
    return an error, the decoder's syntax error, which is not a
    status-mismatch error; the target keeps its value. *)
Theorem parseResponse_hard_failures {T : Type} `{json.Unmarshal T}
    (response : http.Response) (expectedStatus : Z) (clazz : option T)
    (w : World) :
  accepted response expectedStatus ->
  match http.read_error (http.Body response) with
  | Some e =>
      fst (parseResponse response expectedStatus clazz w) = Panicked e
  | None =>
      json.parse (http.data (http.Body response)) = None ->
      fst (parseResponse response expectedStatus clazz w)
        = Returned (clazz, Some json_SyntaxError)
      /\ ~ is_status_mismatch json_SyntaxError
  end.
Proof.
  intros Hacc. rewrite parseResponse_accepted by assumption. simpl.
  destruct (http.read_error (http.Body response)) as [e|]; [reflexivity |].
  intros Hbad. split.
  - unfold json.Unmarshal_ptr. now rewrite Hbad.
  - intros [code Hcode]. discriminate Hcode.
Qed.

Lemma parseResponse_hard_failures_witness :
  fst (parseResponse {| http.StatusCode := 200; http.Body := broken_body |}
         200 (Some zero_DeleteTagsResponse) empty_World)
    = Panicked (external "unexpected EOF")
  /\ fst (parseResponse
            {| http.StatusCode := 400; http.Body := readable "<html>" |}
            200 (Some zero_DeleteTagsResponse) empty_World)
     = Returned (Some zero_DeleteTagsResponse, Some json_SyntaxError).
Proof.
  split.
  - apply (parseResponse_hard_failures
             {| http.StatusCode := 200; http.Body := broken_body |}
             200 (Some zero_DeleteTagsResponse) empty_World).
    left; reflexivity.
  - apply (parseResponse_hard_failures
             {| http.StatusCode := 400; http.Body := readable "<html>" |}
             200 (Some zero_DeleteTagsResponse) empty_World).
    + right; reflexivity.
    + vm_compute; reflexivity.
Defined.

(** C3, as the claim states it, fails: with the accepted status 200 and a
    body whose reading fails, [parseResponse] returns nothing, so no error is
    returned to the caller; it panics with the read error. *)
Lemma parseResponse_read_failure_panics :
  accepted {| http.StatusCode := 200; http.Body := broken_body |} 200
  /\ http.read_error broken_body = Some (external "unexpected EOF")
  /\ fst (parseResponse
            {| http.StatusCode := 200; http.Body := broken_body |}
            200 (Some zero_DeleteTagsResponse) empty_World)
     = Panicked (external "unexpected EOF").
Proof.
  split; [left; reflexivity |]. split; [reflexivity |].
  rewrite parseResponse_accepted by (left; reflexivity). reflexivity.
Qed.

(** The nesting limit of the scanner: ten thousand arrays inside one
    another are valid JSON, one more is not. *)
Lemma parse_nesting_limit :
  match json.parse (nested_arrays 10000) with
  | Some _ => True
  | None => False
  end
  /\ json.parse (nested_arrays 10001) = None.
Proof. split; [vm_compute; exact I | vm_compute; reflexivity]. Qed.

(** ** [newRequest] *)

Lemma NewRequestWithContext_Header (ctx : option context.Context)
    (method rawurl body : string) (req : http.Request) :
  http.NewRequestWithContext ctx method rawurl body = Ok req ->
  http.Header req = ∅ /\ http.Request_Body req = body.
Proof.
  unfold http.NewRequestWithContext.
  destruct (negb _); [discriminate |].
  destruct ctx; [| discriminate].
  destruct (url.Parse rawurl); [| discriminate].
  intros [= <-]. split; reflexivity.
Qed.

(** What [newRequest] returns is the request of [http.NewRequestWithContext]
    with the two headers added. *)
Lemma newRequest_Ok (c : Client) (accessToken httpMethod : string)
    (fullUrl : url.URL) (body : option any) (ctx : option context.Context)
    (req : http.Request) :
  newRequest c accessToken httpMethod fullUrl body ctx = Ok req ->
  exists u base,
    url.QueryUnescape (url.String_ fullUrl) = Ok u
    /\ http.NewRequestWithContext
         (Some (default context.Background ctx)) httpMethod u
         (match body with
          | Some (Any a) => json.render (json.marshal a) +:+ newline
          | None => ""
          end) = Ok base
    /\ req =
       (if negb (is_empty accessToken)
        then http.add_header "Authorization" ("Bearer " +:+ accessToken)
        else id)
         (http.add_header "Content-Type" "application/json" base).
Proof.
  unfold newRequest. rewrite Sprintf_Bearer.
  destruct (url.QueryUnescape (url.String_ fullUrl)) as [u|]; [| discriminate].
  intros Hrun. exists u.
  assert (match body with
          | Some (Any a) => json.Encode a
          | None => Ok ""
          end
          = Ok (match body with
                | Some (Any a) => json.render (json.marshal a) +:+ newline
                | None => ""
                end)) as Hb by (destruct body as [[A HA a]|]; reflexivity).
  rewrite Hb in Hrun. clear Hb.
  revert Hrun.
  destruct ctx as [cx|]; simpl default;
    [| unfold http.NewRequest];
    (destruct (http.NewRequestWithContext _ httpMethod u _) as [base|];
     [| discriminate]);
    intros [= <-]; exists base; (split; [reflexivity |]);
    (split; [reflexivity |]);
    destruct (negb (is_empty accessToken)); reflexivity.
Qed.

(** And it does return whenever the escaped URL can be unescaped and the
    request can be made of it. *)
Lemma newRequest_returns (c : Client) (accessToken httpMethod : string)
    (fullUrl : url.URL) (body : option any) (ctx : option context.Context)
    (u : string) (base : http.Request) :
  url.QueryUnescape (url.String_ fullUrl) = Ok u ->
  http.NewRequestWithContext
    (Some (default context.Background ctx)) httpMethod u
    (match body with
     | Some (Any a) => json.render (json.marshal a) +:+ newline
     | None => ""
     end) = Ok base ->
  newRequest c accessToken httpMethod fullUrl body ctx =
  Ok ((if negb (is_empty accessToken)
       then http.add_header "Authorization" ("Bearer " +:+ accessToken)
       else id)
        (http.add_header "Content-Type" "application/json" base)).
Proof.
  intros Hu Hbase. unfold newRequest. rewrite Sprintf_Bearer, Hu.
  assert (match body with
          | Some (Any a) => json.Encode a
          | None => Ok ""
          end
          = Ok (match body with
                | Some (Any a) => json.render (json.marshal a) +:+ newline
                | None => ""
                end)) as -> by (destruct body as [[A HA a]|]; reflexivity).
  destruct ctx as [cx|]; simpl default in Hbase;
    [| unfold http.NewRequest]; rewrite Hbase;
    destruct (negb (is_empty accessToken)); reflexivity.
Qed.

Lemma canonical_Content_Type :
  http.CanonicalMIMEHeaderKey "Content-Type" = "Content-Type".
Proof. vm_compute. reflexivity. Qed.

Lemma canonical_Authorization :
  http.CanonicalMIMEHeaderKey "Authorization" = "Authorization".
Proof. vm_compute. reflexivity. Qed.

(** C7.  Whatever the endpoint, the method, the body and the token, the
    request [newRequest] builds has the header [Content-Type:
    application/json], and it has the header [Authorization: Bearer <token>]
    when the token is not empty and no [Authorization] header when it is. *)
Theorem newRequest_headers (c : Client) (accessToken httpMethod : string)
    (fullUrl : url.URL) (body : option any) (ctx : option context.Context)
    (req : http.Request) :
  newRequest c accessToken httpMethod fullUrl body ctx = Ok req ->
  http.Header req !! "Content-Type" = Some ["application/json"]
  /\ http.Header req !! "Authorization" =
     (if is_empty accessToken then None
      else Some ["Bearer " +:+ accessToken]).
Proof.
  intros Hrun.
  destruct (newRequest_Ok _ _ _ _ _ _ _ Hrun) as (u & base & _ & Hbase & ->).
  apply NewRequestWithContext_Header in Hbase as [Hh _].
  destruct (is_empty accessToken); simpl;
    unfold http.Header_Add;
    rewrite ?canonical_Content_Type, ?canonical_Authorization, Hh;
    split.
  - now rewrite lookup_insert_eq.
  - rewrite lookup_insert_ne by discriminate. apply lookup_empty.
  - rewrite lookup_insert_ne by discriminate. now rewrite lookup_insert_eq.
  - rewrite lookup_insert_eq. rewrite lookup_insert_ne by discriminate.
    now rewrite lookup_empty.
Qed.

Lemma newRequest_headers_witness :
  (exists req,
     newRequest example_client "tok1" http.MethodDelete
       (parsed "https://api.raindrop.io/rest/v1/tags")
       (Some (Any {| deleteTagsRequest_Tags := Some ["old"] |})) None = Ok req
     /\ http.Header req !! "Content-Type" = Some ["application/json"]
     /\ http.Header req !! "Authorization" = Some ["Bearer tok1"])
  /\ (exists req,
        newRequest example_client "" http.MethodPost
          (parsed "https://raindrop.io/oauth/access_token") None
          (Some context.Background) = Ok req
        /\ http.Header req !! "Content-Type" = Some ["application/json"]
        /\ http.Header req !! "Authorization" = None).
Proof.
  split.
  - destruct (newRequest example_client "tok1" http.MethodDelete
                (parsed "https://api.raindrop.io/rest/v1/tags")
                (Some (Any {| deleteTagsRequest_Tags := Some ["old"] |}))
                None) as [req | e] eqn:E;
      [| vm_compute in E; discriminate E].
    exists req. split; [reflexivity |].
    exact (newRequest_headers _ _ _ _ _ _ _ E).
  - destruct (newRequest example_client "" http.MethodPost
                (parsed "https://raindrop.io/oauth/access_token") None
                (Some context.Background)) as [req | e] eqn:E;
      [| vm_compute in E; discriminate E].
    exists req. split; [reflexivity |].
    exact (newRequest_headers _ _ _ _ _ _ _ E).
Defined.

(** ** Sending a request *)

Lemma NewRequestWithContext_Ok (cx : context.Context)
    (method rawurl body : string) (u : url.URL) :
  is_empty method = false ->
  http.validMethod method = true ->
  url.Parse rawurl = Ok u ->
  exists base,
    http.NewRequestWithContext (Some cx) method rawurl body = Ok base
    /\ http.Method base = method
    /\ url.Path (http.URL base) = url.Path u
    /\ url.RawQuery (http.URL base) = url.RawQuery u
    /\ http.Request_Body base = body.
Proof.
  intros Hne Hvalid Hparse. unfold http.NewRequestWithContext.
  rewrite Hne, Hvalid, Hparse. simpl. eexists. split; [reflexivity |].
  repeat split.
Qed.

Lemma Client_Do_run (net : http.Network) (req : http.Request) (w : World) :
  exists rep,
    Client_Do net req w = (Returned rep, log_event (Ev_Do req) w).
Proof.
  unfold Client_Do.
  cbv [mbind M_bind bind mret M_ret ret modify].
  destruct (negb _); [eexists; reflexivity |].
  destruct (is_empty _); eexists; reflexivity.
Qed.

(** The tail shared by the operations: the request is handed to the
    transport and the reply, if there is one, to [parseResponse].  Whatever
    comes back, exactly one request has been sent. *)
Lemma send_and_parse_requests {T R : Type} `{json.Unmarshal T}
    (net : http.Network) (request : http.Request) (clazz : option T)
    (failed : error -> M World R)
    (done : option T * option error -> M World R) (w : World) :
  (forall err w0, requests (snd (failed err w0)) = requests w0) ->
  (forall r w0, requests (snd (done r w0)) = requests w0) ->
  requests
    (snd ((rep ← Client_Do net request;
           match rep with
           | http.Failed err | http.FailedWith _ err => failed err
           | http.Reply response =>
               r ← parseResponse response 200 clazz; done r
           end) w))
  = (requests w ++ [request])%list.
Proof.
  intros Hfailed Hdone.
  destruct (Client_Do_run net request w) as [rep Hdo].
  cbv [mbind M_bind bind]. rewrite Hdo.
  destruct rep as [response | err | response err].
  - pose proof (parseResponse_requests response 200 clazz
                  (log_event (Ev_Do request) w)) as Hp.
    destruct (parseResponse response 200 clazz
                (log_event (Ev_Do request) w)) as [[r | v] w2];
      simpl in Hp |- *.
    + now rewrite Hdone, Hp, requests_Do.
    + now rewrite Hp, requests_Do.
  - now rewrite Hfailed, requests_Do.
  - now rewrite Hfailed, requests_Do.
Qed.

(** ** [CreateCollection] *)

(** The [parent.$id] member of an encoded [createCollectionRequest]: the
    [omitempty] tag leaves it out exactly when the identifier is zero. *)
Lemma marshal_createCollectionRequest_parent (r : createCollectionRequest) :
  members_named "parent.$id" (json.marshal r) =
  if createCollectionRequest_ParentId r =? 0 then []
  else [json.JNumber (strconv.Itoa (createCollectionRequest_ParentId r))].
Proof.
  unfold json.marshal, Marshal_createCollectionRequest, json.member,
    members_named.
  destruct (is_empty (createCollectionRequest_View r)),
    (is_empty (createCollectionRequest_Title r)),
    (createCollectionRequest_Sort r =? 0),
    (negb (createCollectionRequest_Public r)),
    (createCollectionRequest_ParentId r =? 0),
    (json.empty_slice (createCollectionRequest_Cover r)); reflexivity.
Qed.

Lemma api_collection_url :
  url.QueryUnescape
    (url.String_
       (url.set_Path (path.Join [endpointCreateCollection]) (parsed apiHost)))
  = Ok "https://api.raindrop.io/rest/v1/collection"
  /\ url.Parse "https://api.raindrop.io/rest/v1/collection"
     = Ok (parsed "https://api.raindrop.io/rest/v1/collection").
Proof. split; vm_compute; reflexivity. Qed.

(** The request [CreateCollection] sends for a client whose API endpoint
    is the one [NewClient] stored: exactly one request, whose body is the
    JSON encoding of the [createCollectionRequest] it built. *)
Lemma CreateCollection_sends (net : http.Network) (c : Client)
    (accessToken : string) (isRoot : bool) (view title : string) (sort : Z)
    (public : bool) (parentId : Z) (cover : option (list string))
    (ctx : option context.Context) (w : World) :
  api_configured c w ->
  exists req,
    requests
      (snd (CreateCollection net c accessToken isRoot view title sort public
              parentId cover ctx w))
    = (requests w ++ [req])%list
    /\ http.Method req = "POST"
    /\ encodes (http.Request_Body req)
         (json.marshal
            {| createCollectionRequest_View := view;
               createCollectionRequest_Title := title;
               createCollectionRequest_Sort := sort;
               createCollectionRequest_Public := public;
               createCollectionRequest_ParentId :=
                 if isRoot then 0 else parentId;
               createCollectionRequest_Cover := cover |}).
Proof.
  intros Hc. unfold CreateCollection.
  set (collection := if isRoot then _ else _).
  assert (collection =
          {| createCollectionRequest_View := view;
             createCollectionRequest_Title := title;
             createCollectionRequest_Sort := sort;
             createCollectionRequest_Public := public;
             createCollectionRequest_ParentId :=
               if isRoot then 0 else parentId;
             createCollectionRequest_Cover := cover |}) as Hcoll
      by (subst collection; destruct isRoot; reflexivity).
  destruct api_collection_url as [Hu Hp].
  destruct (NewRequestWithContext_Ok (default context.Background ctx)
              http.MethodPost "https://api.raindrop.io/rest/v1/collection"
              (json.render (json.marshal collection) +:+ newline) _
              eq_refl eq_refl Hp) as (base & Hbase & Hm & _ & _ & Hbody).
  pose proof (newRequest_returns c accessToken http.MethodPost _
                (Some (Any collection)) ctx _ base Hu Hbase) as Hreq.
  unfold mbind at 1, M_bind, bind at 1, load_URL.
  rewrite Hc, Hreq.
  eexists. split; [apply send_and_parse_requests |].
  - reflexivity.
  - intros [r [e|]] w0; reflexivity.
  - rewrite <- Hcoll. unfold encodes.
    destruct (negb (is_empty accessToken)); simpl; auto.
Qed.

(** C1, as the code has it.  The body of the request [CreateCollection]
    sends is the JSON encoding of the [createCollectionRequest] it built,
    an object that has no [parent.$id] member when [isRoot] is true, and
    also when [isRoot] is false and [parentId] is zero (the field is tagged
    [omitempty]); when [isRoot] is false and [parentId] is not zero, the
    object has exactly one [parent.$id] member, the number [parentId]. *)
Theorem CreateCollection_parent_field (net : http.Network) (c : Client)
    (accessToken : string) (isRoot : bool) (view title : string) (sort : Z)
    (public : bool) (parentId : Z) (cover : option (list string))
    (ctx : option context.Context) (w : World) :
  api_configured c w ->
  exists req v,
    requests
      (snd (CreateCollection net c accessToken isRoot view title sort public
              parentId cover ctx w))
    = (requests w ++ [req])%list
    /\ v = json.marshal
             {| createCollectionRequest_View := view;
                createCollectionRequest_Title := title;
                createCollectionRequest_Sort := sort;
                createCollectionRequest_Public := public;
                createCollectionRequest_ParentId :=
                  if isRoot then 0 else parentId;
                createCollectionRequest_Cover := cover |}
    /\ encodes (http.Request_Body req) v
    /\ members_named "parent.$id" v =
       if isRoot || (parentId =? 0) then []
       else [json.JNumber (strconv.Itoa parentId)].
Proof.
  intros Hc.
  destruct (CreateCollection_sends net c accessToken isRoot view title sort
              public parentId cover ctx w Hc) as (req & Hreqs & _ & Henc).
  exists req. eexists. split; [exact Hreqs |]. split; [reflexivity |].
  split; [exact Henc |].
  rewrite marshal_createCollectionRequest_parent. simpl.
  destruct isRoot; reflexivity.
Qed.

Lemma CreateCollection_parent_field_witness :
  exists req v,
    requests
      (snd (CreateCollection offline example_client "tok" false "list"
              "Recipes" 0 false 7 None None example_world))
    = [req]
    /\ encodes (http.Request_Body req) v
    /\ members_named "parent.$id" v = [json.JNumber "7"].
Proof.
  destruct (CreateCollection_parent_field offline example_client "tok" false
              "list" "Recipes" 0 false 7 None None example_world eq_refl)
    as (req & v & Hreqs & _ & Henc & Hparent).
  exists req, v. split; [exact Hreqs |]. split; [exact Henc | exact Hparent].
Defined.

(** C1, as the claim states it, fails for a parent identifier of zero: the
    one request that [CreateCollection] sends for [isRoot = false] and
    [parentId = 0] has a body that reads as a JSON object with no
    [parent.$id] member at all. *)
Lemma CreateCollection_zero_parent_omitted :
  map (fun req =>
         (http.Request_Body req,
          option_map (members_named "parent.$id")
            (json.parse (http.Request_Body req))))
      (requests
         (snd (CreateCollection offline example_client "tok" false "list"
                 "Recipes" 0 false 0 None None example_world)))
  = [("{" +:+ quoted "view" +:+ ":" +:+ quoted "list" +:+ ","
      +:+ quoted "title" +:+ ":" +:+ quoted "Recipes" +:+ "}" +:+ newline,
      Some [])].
Proof. vm_compute. reflexivity. Qed.

(** ** [NewClient] *)

Lemma NewClient_example :
  NewClient "id" "secret" "http://localhost/cb" empty_World
  = (Returned (Some example_client, None), example_world).
Proof. vm_compute. reflexivity. Qed.

(** [NewClient] always succeeds, and the client it returns points to the
    two parsed endpoints. *)
Lemma NewClient_configured (id secret redirect : string) (w : World) :
  exists c w',
    NewClient id secret redirect w = (Returned (Some c, None), w')
    /\ urls w' !! apiURL c = Some (parsed apiHost)
    /\ urls w' !! authURL c = Some (parsed authHost)
    /\ clientId c = id /\ clientSecret c = secret /\ redirectUri c = redirect.
Proof.
  unfold NewClient.
  change (url.Parse authHost) with (Ok (parsed authHost)).
  change (url.Parse apiHost) with (Ok (parsed apiHost)).
  cbv [mbind M_bind bind mret M_ret ret new_URL].
  eexists. eexists. split; [reflexivity |]. simpl.
  split; [apply lookup_insert_eq |].
  split; [| repeat split].
  rewrite lookup_insert_ne; [apply lookup_insert_eq |].
  intros Heq.
  pose proof (is_fresh (dom (<[fresh (dom (urls w)) := parsed authHost]>
                               (urls w)))) as Hfresh.
  rewrite Heq in Hfresh. apply Hfresh.
  rewrite dom_insert_L. set_solver.
Qed.

(** ** [GetTaggedRaindrops] *)

Lemma api_raindrops_url :
  url.QueryUnescape
    (url.String_
       (url.set_Path
          (path.Join [url.Path (parsed apiHost); endpointRaindrops +:+ "0"])
          (parsed apiHost)))
  = Ok "https://api.raindrop.io/rest/v1/raindrops/0"
  /\ url.Parse "https://api.raindrop.io/rest/v1/raindrops/0"
     = Ok (parsed "https://api.raindrop.io/rest/v1/raindrops/0").
Proof. split; vm_compute; reflexivity. Qed.

(** C9.  For the tag [recipe], and a client whose API endpoint is the one
    [NewClient] stored, [GetTaggedRaindrops] sends exactly one request; its
    path is [/rest/v1/raindrops/0], and its query has the single parameter
    [search], whose value is the one-element JSON array
    [[{"key":"tag","val":"recipe"}]]. *)
Theorem GetTaggedRaindrops_recipe (net : http.Network) (c : Client)
    (accessToken : string) (ctx : option context.Context) (w : World) :
  api_configured c w ->
  exists req,
    requests (snd (GetTaggedRaindrops net c accessToken "recipe" ctx w))
    = (requests w ++ [req])%list
    /\ url.Path (http.URL req) = "/rest/v1/raindrops/0"
    /\ url.Query (http.URL req) =
       {[ "search" :=
            ["[{" +:+ quoted "key" +:+ ":" +:+ quoted "tag" +:+ ","
             +:+ quoted "val" +:+ ":" +:+ quoted "recipe" +:+ "}]"] ]}.
Proof.
  intros Hc. unfold GetTaggedRaindrops.
  destruct api_raindrops_url as [Hu Hp].
  destruct (NewRequestWithContext_Ok (default context.Background ctx)
              http.MethodGet "https://api.raindrop.io/rest/v1/raindrops/0"
              "" _ eq_refl eq_refl Hp)
    as (base & Hbase & _ & Hpath & Hquery & _).
  pose proof (newRequest_returns c accessToken http.MethodGet _ None ctx _
                base Hu Hbase) as Hreq.
  unfold mbind at 1, M_bind, bind at 1, load_URL. rewrite Hc.
  unfold mbind at 1, M_bind, bind at 1. rewrite Hc, Hreq.
  eexists. split; [apply send_and_parse_requests |].
  - reflexivity.
  - intros [r [e|]] w0; reflexivity.
  - assert (forall tok,
              http.URL
                ((if negb (is_empty tok)
                  then http.add_header "Authorization" ("Bearer " +:+ tok)
                  else id)
                   (http.add_header "Content-Type" "application/json" base))
              = http.URL base) as Hurl
        by (intros tok; destruct (negb (is_empty tok)); reflexivity).
    assert (url.Query (http.URL base) = ∅) as Hempty
        by (unfold url.Query; rewrite Hquery; reflexivity).
    simpl http.URL. rewrite Hurl, Hempty.
    split; [exact Hpath |]. vm_compute. reflexivity.
Qed.

Lemma GetTaggedRaindrops_recipe_witness :
  exists req,
    requests
      (snd (GetTaggedRaindrops offline example_client "tok" "recipe" None
              example_world))
    = [req]
    /\ url.Path (http.URL req) = "/rest/v1/raindrops/0"
    /\ url.Values_Get (url.Query (http.URL req)) "search"
       = "[{" +:+ quoted "key" +:+ ":" +:+ quoted "tag" +:+ ","
         +:+ quoted "val" +:+ ":" +:+ quoted "recipe" +:+ "}]".
Proof.
  destruct (GetTaggedRaindrops_recipe offline example_client "tok" None
              example_world eq_refl) as (req & Hreqs & Hpath & Hq).
  exists req. split; [exact Hreqs |]. split; [exact Hpath |].
  rewrite Hq. reflexivity.
Defined.

(** ** Decoding objects into structs *)

Lemma find_field_In {T : Type} (fields : list (json.field T)) (key : string)
    (f : json.field T) :
  json.find_field fields key = Some f -> In f fields.
Proof.
  unfold json.find_field.
  destruct (List.find _ fields) as [g|] eqn:Hexact.
  - intros [= <-]. now apply List.find_some in Hexact.
  - intros Hfold. now apply List.find_some in Hfold.
Qed.

(** An object whose members all store without a type error decodes without
    a type error. *)
Lemma decode_members_no_error {T : Type} (fields : list (json.field T))
    (ms : list (string * json.value)) (t : T) :
  (forall m f t',
     In m ms -> json.find_field fields (fst m) = Some f ->
     snd (json.field_store f (snd m) t') = None) ->
  snd (fold_left (json.store_member fields) ms (t, None)) = None.
Proof.
  revert t. induction ms as [|m ms IH]; intros t Hok; [reflexivity |].
  simpl. unfold json.store_member at 2. simpl.
  destruct (json.find_field fields (fst m)) as [f|] eqn:Hf.
  - pose proof (Hok m f t (or_introl eq_refl) Hf) as Hm.
    destruct (json.field_store f (snd m) t) as [t1 e]. simpl in Hm.
    subst e. simpl. apply IH. intros m' f' t' Hin. apply Hok. now right.
  - apply IH. intros m' f' t' Hin. apply Hok. now right.
Qed.








(** ** [DeleteTags] *)

Lemma decode_DeleteTagsResponse_no_error (v : json.value)
    (t : DeleteTagsResponse) :
  DeleteTagsResponse_shaped v = true ->
  snd (decode_DeleteTagsResponse v t) = None.
Proof.
  destruct v as [| | | | |ms]; try discriminate; [reflexivity |].
  intros Hshape. unfold decode_DeleteTagsResponse, json.decode_struct.
  apply decode_members_no_error. intros [k x] f t' Hin Hf.
  simpl in Hshape. rewrite forallb_forall in Hshape.
  specialize (Hshape _ Hin). simpl in Hf, Hshape |- *. rewrite Hf in Hshape.
  apply find_field_In in Hf. simpl in Hf. destruct Hf as [<- | []].
  destruct x; try discriminate Hshape; reflexivity.
Qed.

Lemma api_tags_url :
  url.QueryUnescape
    (url.String_
       (url.set_Path (path.Join [url.Path (parsed apiHost); endpointTags])
          (parsed apiHost)))
  = Ok "https://api.raindrop.io/rest/v1/tags"
  /\ url.Parse "https://api.raindrop.io/rest/v1/tags"
     = Ok (parsed "https://api.raindrop.io/rest/v1/tags").
Proof. split; vm_compute; reflexivity. Qed.

Lemma NewRequestWithContext_URL (cx : option context.Context)
    (method rawurl body : string) (u : url.URL) (base : http.Request) :
  http.NewRequestWithContext cx method rawurl body = Ok base ->
  url.Parse rawurl = Ok u ->
  url.Scheme (http.URL base) = url.Scheme u
  /\ url.Host (http.URL base) = http.removeEmptyPort (url.Host u).
Proof.
  unfold http.NewRequestWithContext. intros Hrun Hparse.
  destruct (negb _); [discriminate |].
  destruct cx; [| discriminate].
  rewrite Hparse in Hrun. injection Hrun as <-. split; reflexivity.
Qed.

(** A request to an [https] URL with a host passes the transport's checks:
    the network decides. *)
Lemma Client_Do_https (net : http.Network) (req : http.Request) (w : World) :
  url.Scheme (http.URL req) = "https" ->
  is_empty (url.Host (http.URL req)) = false ->
  Client_Do net req w
  = (Returned (http.roundtrip net req), log_event (Ev_Do req) w).
Proof.
  intros Hs Hh. unfold Client_Do.
  cbv [mbind M_bind bind mret M_ret ret modify].
  rewrite Hs, Hh. reflexivity.
Qed.

(** C10, as the code has it.  When the transport hands back a response
    whose status is 200 or 400 and whose body is valid JSON of the shape of
    a [DeleteTagsResponse] ([null], or an object in which [result], where it
    occurs, is a boolean or [null]), [DeleteTags] returns a [nil] error.
    The decoded [Result] flag plays no part: [result: false] and [result:
    true] give the caller the same answer. *)
Theorem DeleteTags_discards_result (net : http.Network) (c : Client)
    (accessToken : string) (ctx : option context.Context)
    (tagIDs : option (list string)) (w : World) (response : http.Response)
    (v : json.value) :
  api_configured c w ->
  (forall req, http.roundtrip net req = http.Reply response) ->
  accepted response 200 ->
  http.read_error (http.Body response) = None ->
  json.parse (http.data (http.Body response)) = Some v ->
  DeleteTagsResponse_shaped v = true ->
  fst (DeleteTags net c accessToken ctx tagIDs w) = Returned None.
Proof.
  intros Hc Hnet Hacc Hread Hparse Hshape. unfold DeleteTags.
  destruct api_tags_url as [Hu Hp].
  destruct (NewRequestWithContext_Ok (default context.Background ctx)
              http.MethodDelete "https://api.raindrop.io/rest/v1/tags"
              (json.render
                 (json.marshal {| deleteTagsRequest_Tags := tagIDs |})
               +:+ newline) _ eq_refl eq_refl Hp)
    as (base & Hbase & _).
  destruct (NewRequestWithContext_URL _ _ _ _ _ _ Hbase Hp) as [Hs Hh].
  pose proof (newRequest_returns c accessToken http.MethodDelete _
                (Some (Any {| deleteTagsRequest_Tags := tagIDs |})) ctx _
                base Hu Hbase) as Hreq.
  unfold mbind at 1, M_bind, bind at 1, load_URL. rewrite Hc.
  unfold mbind at 1, M_bind, bind at 1. rewrite Hc, Hreq.
  unfold mbind at 1, M_bind, bind at 1.
  rewrite Client_Do_https, Hnet;
    [| destruct (negb (is_empty accessToken)); exact Hs
     | destruct (negb (is_empty accessToken)); simpl; rewrite Hh;
       reflexivity ].
  unfold mbind, M_bind, bind.
  rewrite parseResponse_accepted by assumption. rewrite Hread.
  unfold json.Unmarshal_ptr. rewrite Hparse.
  destruct v as [| | | | |ms]; try discriminate Hshape; [reflexivity |].
  pose proof (decode_DeleteTagsResponse_no_error (json.JObject ms)
                zero_DeleteTagsResponse Hshape) as Hdec.
  change (json.decode (json.JObject ms)
            (default json.zero (Some zero_DeleteTagsResponse)))
    with (decode_DeleteTagsResponse (json.JObject ms)
            zero_DeleteTagsResponse).
  destruct (decode_DeleteTagsResponse (json.JObject ms)
              zero_DeleteTagsResponse) as [t e].
  simpl in Hdec. subst e. reflexivity.
Qed.

Lemma DeleteTags_discards_result_witness :
  fst (DeleteTags
         (answering {| http.StatusCode := 200;
                       http.Body :=
                         readable ("{" +:+ quoted "result" +:+ ":false}") |})
         example_client "tok" None (Some ["old"]) example_world)
  = Returned None
  /\ fst (DeleteTags
            (answering {| http.StatusCode := 200;
                          http.Body :=
                            readable ("{" +:+ quoted "result" +:+ ":true}") |})
            example_client "tok" None (Some ["old"]) example_world)
     = Returned None.
Proof.
  split.
  - apply (DeleteTags_discards_result _ example_client "tok" None
             (Some ["old"]) example_world
             {| http.StatusCode := 200;
                http.Body :=
                  readable ("{" +:+ quoted "result" +:+ ":false}") |}
             (json.JObject [("result", json.JBool false)]));
      solve [reflexivity | left; reflexivity | vm_compute; reflexivity].
  - apply (DeleteTags_discards_result _ example_client "tok" None
             (Some ["old"]) example_world
             {| http.StatusCode := 200;
                http.Body :=
                  readable ("{" +:+ quoted "result" +:+ ":true}") |}
             (json.JObject [("result", json.JBool true)]));
      solve [reflexivity | left; reflexivity | vm_compute; reflexivity].
Defined.

(** C10, as the claim states it, fails: a body can be valid JSON and still
    make [DeleteTags] return an error.  With status 200 and the body
    [{"result":1}], which is valid JSON, the decoder reports a type error
    and [DeleteTags] returns it. *)
Lemma DeleteTags_valid_JSON_rejected :
  json.parse ("{" +:+ quoted "result" +:+ ":1}")
  = Some (json.JObject [("result", json.JNumber "1")])
  /\ fst (DeleteTags
            (answering {| http.StatusCode := 200;
                          http.Body :=
                            readable ("{" +:+ quoted "result" +:+ ":1}") |})
            example_client "tok" None (Some ["old"]) example_world)
     = Returned (Some (json_UnmarshalTypeError "number" "bool")).
Proof. split; vm_compute; reflexivity. Qed.

(** Once a type error has been met, it is the one reported. *)
Lemma decode_members_error {T : Type} (fields : list (json.field T))
    (ms : list (string * json.value)) (acc : T * option error) :
  snd acc <> None ->
  snd (fold_left (json.store_member fields) ms acc) <> None.
Proof.
  revert acc. induction ms as [|m ms IH]; intros acc Hacc; [exact Hacc |].
  simpl. apply IH. unfold json.store_member.
  destruct (json.find_field fields (fst m)) as [f|]; [| exact Hacc].
  destruct (json.field_store f (snd m) (fst acc)) as [t e]. simpl.
  destruct (snd acc); [discriminate | contradiction].
Qed.

(** Valid JSON of any other shape is a type error for [DeleteTags]. *)
Lemma decode_DeleteTagsResponse_error (v : json.value)
    (t : DeleteTagsResponse) :
  DeleteTagsResponse_shaped v = false ->
  snd (decode_DeleteTagsResponse v t) <> None.
Proof.
  destruct v as [|b|lit|s|elems|ms]; try discriminate;
    try (intros _; discriminate).
  unfold decode_DeleteTagsResponse, json.decode_struct. simpl.
  generalize (t, @None error) as acc.
  induction ms as [|[k x] ms IH]; intros acc Hbad; [discriminate |].
  simpl in Hbad. apply andb_false_iff in Hbad as [Hhead | Htail].
  - simpl. apply decode_members_error. unfold json.store_member. simpl.
    destruct (json.find_field fields_DeleteTagsResponse k) as [f|] eqn:Hf;
      [| discriminate].
    apply find_field_In in Hf. simpl in Hf. destruct Hf as [<- | []].
    destruct x; try discriminate Hhead; simpl;
      destruct (snd acc); discriminate.
  - simpl. apply IH. exact Htail.
Qed.

(** ** [CreateSimpleRaindrop] *)

(** C2 fails on the code when the GET of the link yields no response.
    [CreateSimpleRaindrop] drops the error of [http.Get] and goes on to use
    the response, which is [nil]: evaluating [resp.Body] panics, the
    deferred call panics on [resp.Body] again, and the operation ends in a
    nil-dereference panic.  No placeholder is substituted and no bookmark is
    posted. *)
Theorem CreateSimpleRaindrop_panics_without_response (net : http.Network)
    (GetHtmlTitle : http.ReadCloser -> string * bool) (c : Client)
    (accessToken link : string) (ctx : option context.Context) (w w1 : World)
    (u : url.URL) (err : error) :
  urls w !! apiURL c = Some u ->
  http_Get net link w = (Returned (http.Failed err), w1) ->
  CreateSimpleRaindrop net GetHtmlTitle c accessToken link ctx w
  = (Panicked runtime_nil_dereference, w1).
Proof.
  intros Hu Hget. unfold CreateSimpleRaindrop.
  unfold mbind at 1, M_bind, bind at 1, load_URL. rewrite Hu.
  unfold mbind at 1, M_bind, bind at 1. rewrite Hget.
  reflexivity.
Qed.

(** The empty link is such an input, whatever the network does: the
    transport refuses a URL without a scheme. *)
Lemma http_Get_empty_link (net : http.Network) (w : World) :
  exists err w1, http_Get net "" w = (Returned (http.Failed err), w1).
Proof. eexists. eexists. reflexivity. Qed.

Lemma CreateSimpleRaindrop_panics_without_response_witness :
  fst (CreateSimpleRaindrop offline no_title example_client "tok"
         "https://unreachable.invalid/" None example_world)
  = Panicked runtime_nil_dereference
  /\ fst (CreateSimpleRaindrop
            (answering {| http.StatusCode := 200; http.Body := readable "" |})
            no_title example_client "tok" "" None example_world)
     = Panicked runtime_nil_dereference.
Proof.
  split.
  - erewrite (CreateSimpleRaindrop_panics_without_response offline no_title
                example_client "tok" "https://unreachable.invalid/" None
                example_world);
      [reflexivity | reflexivity | vm_compute; reflexivity].
  - destruct (http_Get_empty_link
                (answering {| http.StatusCode := 200;
                              http.Body := readable "" |})
                example_world) as (err & w1 & Hget).
    erewrite (CreateSimpleRaindrop_panics_without_response _ no_title
                example_client "tok" "" None example_world w1 _ err);
      [reflexivity | reflexivity | exact Hget].
Defined.

Lemma with_defer_requests {A : Type} (d : M World unit) (body : M World A)
    (w : World) :
  (forall s, requests (snd (d s)) = requests s) ->
  requests (snd (with_defer d body w)) = requests (snd (body w)).
Proof.
  intros Hd. unfold with_defer. destruct (body w) as [r s1].
  specialize (Hd s1). destruct (d s1) as [[[]|v] s2]; exact Hd.
Qed.

Lemma api_raindrop_url :
  url.QueryUnescape
    (url.String_
       (url.set_Path (path.Join [endpointRaindrop]) (parsed apiHost)))
  = Ok "https://api.raindrop.io/rest/v1/raindrop"
  /\ url.Parse "https://api.raindrop.io/rest/v1/raindrop"
     = Ok (parsed "https://api.raindrop.io/rest/v1/raindrop").
Proof. split; vm_compute; reflexivity. Qed.

(** The part of C2 that holds.  When the GET of the link does yield a
    response and no title is found in it, the bookmark is posted all the
    same, with the placeholder as its title: after the GET exactly one more
    request is sent, whose body is the JSON encoding of the bookmark. *)
Lemma CreateSimpleRaindrop_placeholder (net : http.Network)
    (GetHtmlTitle : http.ReadCloser -> string * bool) (c : Client)
    (accessToken link : string) (ctx : option context.Context) (w w1 : World)
    (resp : http.Response) (val : string) :
  api_configured c w ->
  http_Get net link w = (Returned (http.Reply resp), w1) ->
  GetHtmlTitle (http.Body resp) = (val, false) ->
  exists req,
    requests
      (snd (CreateSimpleRaindrop net GetHtmlTitle c accessToken link ctx w))
    = (requests w1 ++ [req])%list
    /\ http.Method req = "POST"
    /\ encodes (http.Request_Body req)
         (json.marshal
            {| Raindrop_PleaseParse := Build_pleaseParse;
               Raindrop_Created := "";
               Raindrop_LastUpdate := "";
               Raindrop_Order := 0;
               Raindrop_Tags := None;
               Raindrop_Media := None;
               Raindrop_Cover := "";
               Raindrop_Collection := zero_Collection;
               Raindrop_Type := "";
               Raindrop_HTML := "";
               Raindrop_Excerpt := "";
               Raindrop_Title := "Fail to get HTML title";
               Raindrop_Link := link |}).
Proof.
  intros Hc Hget Htitle. unfold CreateSimpleRaindrop.
  unfold mbind at 1, M_bind, bind at 1, load_URL. rewrite Hc.
  unfold mbind at 1, M_bind, bind at 1. rewrite Hget.
  cbn [http.reply_response].
  destruct api_raindrop_url as [Hu Hp].
  set (raindrop := {| Raindrop_PleaseParse := Build_pleaseParse;
                      Raindrop_Created := "";
                      Raindrop_LastUpdate := "";
                      Raindrop_Order := 0;
                      Raindrop_Tags := None;
                      Raindrop_Media := None;
                      Raindrop_Cover := "";
                      Raindrop_Collection := zero_Collection;
                      Raindrop_Type := "";
                      Raindrop_HTML := "";
                      Raindrop_Excerpt := "";
                      Raindrop_Title := "Fail to get HTML title";
                      Raindrop_Link := link |}).
  destruct (NewRequestWithContext_Ok (default context.Background ctx)
              http.MethodPost "https://api.raindrop.io/rest/v1/raindrop"
              (json.render (json.marshal raindrop) +:+ newline) _
              eq_refl eq_refl Hp) as (base & Hbase & Hm & _ & _ & Hbody).
  pose proof (newRequest_returns c accessToken http.MethodPost _
                (Some (Any raindrop)) ctx _ base Hu Hbase) as Hreq.
  rewrite with_defer_requests.
  - unfold mbind at 1, M_bind, bind at 1, mret, M_ret, ret.
    rewrite Htitle. fold raindrop. rewrite Hreq.
    eexists. split; [apply send_and_parse_requests |].
    + reflexivity.
    + intros [r [e|]] w0; reflexivity.
    + unfold encodes.
      destruct (negb (is_empty accessToken)); simpl; auto.
  - intros s. unfold Body_Close, ePrintf.
    cbv [mbind M_bind bind mret M_ret ret modify].
    destruct (http.close_error (http.Body resp)); simpl;
      now rewrite ?requests_stderr, requests_Close.
Qed.

(** ** [GetAuthorizationURL] *)

(** [GetAuthorizationURL] copies the pointer [c.authURL], not the URL it
    points to, and assigns to the [Path] behind it: the stored auth endpoint
    changes. *)
Lemma GetAuthorizationURL_run (c : Client) (w : World) (u : url.URL) :
  urls w !! authURL c = Some u ->
  exists w',
    GetAuthorizationURL c w
    = (Returned
         (url.set_Path
            (path.Join
               [fmt.Sprintf authorizeUri [clientId c; redirectUri c]]) u,
          None), w')
    /\ urls w' !! authURL c =
       Some (url.set_Path
               (path.Join
                  [fmt.Sprintf authorizeUri [clientId c; redirectUri c]]) u)
    /\ forall p, p <> authURL c -> urls w' !! p = urls w !! p.
Proof.
  intros Hu. unfold GetAuthorizationURL.
  cbv [mbind M_bind bind mret M_ret ret store_Path load_URL].
  rewrite Hu. simpl. rewrite lookup_insert_eq.
  eexists. split; [reflexivity |]. simpl.
  split; [apply lookup_insert_eq |].
  intros p Hp. now rewrite lookup_insert_ne.
Qed.

(** C4 fails on the code.  On the client that [NewClient] has just made,
    the stored auth endpoint has the empty path; after one call of
    [GetAuthorizationURL] its path is the authorize path with the query
    text in it, so the client's configuration has been mutated. *)
Theorem GetAuthorizationURL_mutates_configuration :
  NewClient "id" "secret" "http://localhost/cb" empty_World
  = (Returned (Some example_client, None), example_world)
  /\ option_map url.Path (urls example_world !! authURL example_client)
     = Some ""
  /\ option_map url.Path
       (urls (snd (GetAuthorizationURL example_client example_world))
          !! authURL example_client)
     = Some "/oauth/authorize?client_id=id&redirect_uri=http:/localhost/cb".
Proof. repeat split; vm_compute; reflexivity. Qed.

(** ** [GetAuthorizationCode] *)

Lemma GetAuthorizationCode_code (c : Client) (r : http.Request) :
  url.Values_Get (url.Query (http.URL r)) "code" <> "" ->
  GetAuthorizationCode c r
  = Returned (url.Values_Get (url.Query (http.URL r)) "code", None).
Proof.
  intros Hcode. unfold GetAuthorizationCode.
  apply is_empty_false in Hcode. rewrite Hcode. reflexivity.
Qed.

Lemma GetAuthorizationCode_error (c : Client) (r : http.Request) :
  url.Values_Get (url.Query (http.URL r)) "code" = "" ->
  url.Values_Get (url.Query (http.URL r)) "error" <> "" ->
  GetAuthorizationCode c r
  = Returned
      ("", Some (fundamental
                   ("Can't get authorization code: "
                    +:+ url.Values_Get (url.Query (http.URL r)) "error"))).
Proof.
  intros Hcode Herr. unfold GetAuthorizationCode.
  apply is_empty_false in Herr. rewrite Hcode, Herr. reflexivity.
Qed.

Lemma GetAuthorizationCode_status (c : Client) (r : http.Request)
    (response : http.Response) :
  url.Values_Get (url.Query (http.URL r)) "code" = "" ->
  url.Values_Get (url.Query (http.URL r)) "error" = "" ->
  http.Request_Response r = Some response ->
  GetAuthorizationCode c r
  = Returned
      ("", Some (fundamental
                   ("Can't get authorization code: "
                    +:+ strconv.Itoa (http.StatusCode response)))).
Proof.
  intros Hcode Herr Hresp. unfold GetAuthorizationCode.
  rewrite Hcode, Herr, Hresp. reflexivity.
Qed.

(** C5 fails on the code for the requests a server receives.  Their
    [Response] field is [nil], so when neither [code] nor [error] is given,
    reading [r.Response.StatusCode] panics: no error carrying a status is
    returned. *)
Theorem GetAuthorizationCode_panics_without_response (c : Client)
    (r : http.Request) :
  url.Values_Get (url.Query (http.URL r)) "code" = "" ->
  url.Values_Get (url.Query (http.URL r)) "error" = "" ->
  http.Request_Response r = None ->
  GetAuthorizationCode c r = Panicked runtime_nil_dereference.
Proof.
  intros Hcode Herr Hresp. unfold GetAuthorizationCode.
  rewrite Hcode, Herr, Hresp. reflexivity.
Qed.

Lemma GetAuthorizationCode_panics_without_response_witness :
  GetAuthorizationCode example_client (inbound_request "/callback")
  = Panicked runtime_nil_dereference.
Proof.
  apply GetAuthorizationCode_panics_without_response;
    vm_compute; reflexivity.
Defined.

(** The two scenarios of the specification that hold. *)
Lemma GetAuthorizationCode_scenarios :
  GetAuthorizationCode example_client
    (inbound_request "/callback?code=abc123")
  = Returned ("abc123", None)
  /\ GetAuthorizationCode example_client
       (inbound_request "/callback?error=access_denied")
     = Returned
         ("", Some (fundamental
                      "Can't get authorization code: access_denied"))
  /\ GetAuthorizationCode example_client
       (redirected_request "/callback" 302)
     = Returned
         ("", Some (fundamental "Can't get authorization code: 302")).
Proof. repeat split; vm_compute; reflexivity. Qed.

(** ** The stored URLs under the other operations *)

Lemma preserves_urls_ret {A} (a : A) : preserves_urls (mret a : M World A).
Proof. intros w. reflexivity. Qed.

Lemma preserves_urls_panic {A} (v : error) :
  preserves_urls (panic v : M World A).
Proof. intros w. reflexivity. Qed.

Lemma preserves_urls_bind {A B} (m : M World A) (k : A -> M World B) :
  preserves_urls m -> (forall a, preserves_urls (k a)) ->
  preserves_urls (m ≫= k).
Proof.
  intros Hm Hk w. unfold mbind, M_bind, bind.
  specialize (Hm w). destruct (m w) as [[a | v] w1]; simpl in Hm |- *.
  - now rewrite Hk.
  - exact Hm.
Qed.

Lemma preserves_urls_with_defer {A} (d : M World unit) (body : M World A) :
  preserves_urls d -> preserves_urls body ->
  preserves_urls (with_defer d body).
Proof.
  intros Hd Hb w. unfold with_defer. specialize (Hb w).
  destruct (body w) as [r w1]. specialize (Hd w1).
  destruct (d w1) as [[[] | v] w2]; simpl in *; congruence.
Qed.

Lemma preserves_urls_log_event (e : event) :
  preserves_urls (modify (log_event e)).
Proof. intros w. reflexivity. Qed.

Lemma preserves_urls_log_stderr (x : stderr_write) :
  preserves_urls (modify (log_stderr x)).
Proof. intros w. reflexivity. Qed.

Lemma preserves_urls_load_URL (p : nat) : preserves_urls (load_URL p).
Proof. intros w. unfold load_URL. destruct (urls w !! p); reflexivity. Qed.

Lemma preserves_urls_ePrintf (f : string) (a : list error) :
  preserves_urls (ePrintf f a).
Proof.
  unfold ePrintf. apply preserves_urls_bind;
    [apply preserves_urls_log_stderr | intros _; apply preserves_urls_log_stderr].
Qed.

Lemma preserves_urls_Body_Close (b : http.ReadCloser) :
  preserves_urls (Body_Close b).
Proof.
  unfold Body_Close. apply preserves_urls_bind;
    [apply preserves_urls_log_event | intros _; apply preserves_urls_ret].
Qed.

Lemma preserves_urls_Client_Do (net : http.Network) (req : http.Request) :
  preserves_urls (Client_Do net req).
Proof.
  unfold Client_Do. apply preserves_urls_bind;
    [apply preserves_urls_log_event |].
  intros _. destruct (negb _); [apply preserves_urls_ret |].
  destruct (is_empty _); apply preserves_urls_ret.
Qed.

Lemma preserves_urls_http_Get (net : http.Network) (link : string) :
  preserves_urls (http_Get net link).
Proof.
  unfold http_Get. destruct (http.NewRequest _ _ _);
    [apply preserves_urls_Client_Do | apply preserves_urls_ret].
Qed.

Lemma preserves_urls_parseResponse {T : Type} `{json.Unmarshal T}
    (response : http.Response) (expectedStatus : Z) (clazz : option T) :
  preserves_urls (parseResponse response expectedStatus clazz).
Proof.
  unfold parseResponse. apply preserves_urls_with_defer.
  - apply preserves_urls_bind;
      [apply preserves_urls_Body_Close | intros _; apply preserves_urls_ret].
  - destruct (_ && _).
    + apply preserves_urls_bind;
        [apply preserves_urls_ePrintf | intros _; apply preserves_urls_ret].
    + apply preserves_urls_bind.
      * unfold ioutil_ReadAll. apply preserves_urls_bind;
          [apply preserves_urls_log_event | intros _; apply preserves_urls_ret].
      * intros [body [e|]];
          [apply preserves_urls_panic | apply preserves_urls_ret].
Qed.

Ltac preserves_urls_step :=
  first
    [ apply preserves_urls_ret
    | apply preserves_urls_panic
    | apply preserves_urls_load_URL
    | apply preserves_urls_Client_Do
    | apply preserves_urls_http_Get
    | apply preserves_urls_parseResponse
    | apply preserves_urls_Body_Close
    | apply preserves_urls_ePrintf
    | apply preserves_urls_with_defer
    | apply preserves_urls_bind; [| intros ?]
    | match goal with
      | |- preserves_urls (match ?x with _ => _ end) => destruct x
      | |- preserves_urls (let '(_, _) := ?x in _) => destruct x
      end ].

(** Every operation but [GetAuthorizationURL] leaves the two stored
    endpoints as [NewClient] made them. *)
Lemma operations_preserve_urls (net : http.Network)
    (GetHtmlTitle : http.ReadCloser -> string * bool) (c : Client)
    (accessToken : string) (ctx : option context.Context) :
  (forall isRoot view title sort public parentId cover,
     preserves_urls
       (CreateCollection net c accessToken isRoot view title sort public
          parentId cover ctx))
  /\ (forall link,
        preserves_urls
          (CreateSimpleRaindrop net GetHtmlTitle c accessToken link ctx))
  /\ (forall tagIDs, preserves_urls (DeleteTags net c accessToken ctx tagIDs))
  /\ (forall tag,
        preserves_urls (GetTaggedRaindrops net c accessToken tag ctx)).
Proof.
  repeat split; intros.
  - unfold CreateCollection. repeat preserves_urls_step.
  - unfold CreateSimpleRaindrop. repeat preserves_urls_step.
  - unfold DeleteTags. repeat preserves_urls_step.
  - unfold GetTaggedRaindrops. repeat preserves_urls_step.
Qed.

(** * Further properties of the client *)

(** ** Strings *)

Lemma string_forallb_app (p : ascii -> bool) (a b : string) :
  string_forallb p (a +:+ b) = string_forallb p a && string_forallb p b.
Proof.
  induction a as [|c a IH]; [reflexivity |].
  change (p c && string_forallb p (a +:+ b)
          = p c && string_forallb p a && string_forallb p b).
  rewrite IH. apply andb_assoc.
Qed.

Lemma mem_byte_false (c : ascii) (s : string) :
  url.mem_byte c s = false <->
  string_forallb (fun d => negb (Ascii.eqb c d)) s = true.
Proof.
  unfold url.mem_byte, string_existsb.
  destruct (string_forallb _ s); simpl; split; congruence.
Qed.

Lemma mem_byte_app (c : ascii) (a b : string) :
  url.mem_byte c (a +:+ b) = url.mem_byte c a || url.mem_byte c b.
Proof.
  unfold url.mem_byte, string_existsb. rewrite string_forallb_app.
  apply negb_andb.
Qed.

Lemma string_forallb_impl (p q : ascii -> bool) (s : string) :
  (forall c, p c = true -> q c = true) ->
  string_forallb p s = true -> string_forallb q s = true.
Proof.
  intros Hpq. induction s as [|c s IH]; [reflexivity |]. simpl.
  intros [Hc Hs]%andb_true_iff. rewrite (Hpq c Hc). now apply IH.
Qed.

Lemma cut_absent (sep : ascii) (s : string) :
  url.mem_byte sep s = false -> cut sep s = (s, "", false).
Proof.
  rewrite mem_byte_false. induction s as [|c s IH]; [reflexivity |].
  simpl. intros [Hc Hs]%andb_true_iff. apply negb_true_iff in Hc.
  rewrite Ascii.eqb_sym, Hc, (IH Hs). reflexivity.
Qed.

Lemma cut_app (sep : ascii) (a b : string) :
  url.mem_byte sep a = false ->
  cut sep (a +:+ String sep b) = (a, b, true).
Proof.
  rewrite mem_byte_false. induction a as [|c a IH].
  - intros _. simpl. now rewrite Ascii.eqb_refl.
  - simpl. intros [Hc Ha]%andb_true_iff. apply negb_true_iff in Hc.
    rewrite Ascii.eqb_sym, Hc, (IH Ha). reflexivity.
Qed.

Lemma split_absent (sep : ascii) (s : string) :
  url.mem_byte sep s = false -> split sep s = [s].
Proof.
  rewrite mem_byte_false. induction s as [|c s IH]; [reflexivity |].
  simpl. intros [Hc Hs]%andb_true_iff. apply negb_true_iff in Hc.
  rewrite Ascii.eqb_sym, Hc, (IH Hs). reflexivity.
Qed.

Lemma substring_all (s : string) : String.substring 0 (String.length s) s = s.
Proof. induction s as [|c s IH]; [reflexivity |]. simpl. now rewrite IH. Qed.

Lemma count_byte_absent (c : ascii) (s : string) :
  url.mem_byte c s = false -> url.count_byte c s = 0%nat.
Proof.
  rewrite mem_byte_false. induction s as [|d s IH]; [reflexivity |].
  simpl. intros [Hd Hs]%andb_true_iff. apply negb_true_iff in Hd.
  now rewrite Hd, (IH Hs).
Qed.

(** ** Escaping *)

Lemma escape_safe (mode : url.encoding) (s : string) :
  string_forallb (fun c => negb (url.shouldEscape c mode)) s = true ->
  url.escape s mode = s.
Proof.
  induction s as [|c s IH]; [reflexivity |]. simpl.
  intros [Hc Hs]%andb_true_iff. apply negb_true_iff in Hc.
  now rewrite Hc, (IH Hs).
Qed.

(** A text without [%] and [+] is its own unescaping. *)
Lemma unescape_plain (mode : url.encoding) (s : string) :
  mode <> url.encodeHost ->
  url.mem_byte "%" s = false -> url.mem_byte "+" s = false ->
  url.unescape s mode = Ok s.
Proof.
  intros Hmode. rewrite !mem_byte_false.
  induction s as [|c s IH]; [reflexivity |].
  cbn [string_forallb]. intros [Hc Hs]%andb_true_iff [Hp Hs']%andb_true_iff.
  apply negb_true_iff in Hc, Hp.
  rewrite Ascii.eqb_sym in Hc. rewrite Ascii.eqb_sym in Hp.
  cbn [url.unescape]. rewrite Hc, Hp, (IH Hs Hs').
  destruct mode; try contradiction; reflexivity.
Qed.

Lemma path_safe_bytes (c : ascii) :
  path_safe c = true ->
  url.shouldEscape c url.encodePath = false
  /\ Ascii.eqb "%" c = false /\ Ascii.eqb "+" c = false
  /\ Ascii.eqb "#" c = false /\ Ascii.eqb "?" c = false
  /\ url.is_CTL c = false.
Proof.
  destruct c as [[] [] [] [] [] [] [] []]; vm_compute; intros H;
    try discriminate H; repeat split.
Qed.

Lemma path_safe_string (p : string) :
  string_forallb path_safe p = true ->
  string_forallb (fun c => negb (url.shouldEscape c url.encodePath)) p = true
  /\ url.mem_byte "%" p = false /\ url.mem_byte "+" p = false
  /\ url.mem_byte "#" p = false /\ url.mem_byte "?" p = false
  /\ string_existsb url.is_CTL p = false.
Proof.
  intros Hp. rewrite !mem_byte_false. unfold string_existsb.
  rewrite negb_false_iff.
  repeat split; revert Hp; apply string_forallb_impl; intros c Hc;
    destruct (path_safe_bytes c Hc) as (H1 & H2 & H3 & H4 & H5 & H6);
    now rewrite ?H1, ?H2, ?H3, ?H4, ?H5, ?H6.
Qed.

(** ** Requests to the API host *)

Lemma parsed_apiHost :
  parsed apiHost
  = {| url.Scheme := "https"; url.Opaque := ""; url.Host := "api.raindrop.io";
       url.Path := ""; url.RawPath := ""; url.ForceQuery := false;
       url.RawQuery := ""; url.Fragment := ""; url.RawFragment := "" |}.
Proof. vm_compute. reflexivity. Qed.

Lemma String_api_path (p : string) :
  string_forallb path_safe p = true ->
  url.String_ (url.set_Path ("/" +:+ p) (parsed apiHost))
  = "https://api.raindrop.io/" +:+ p.
Proof.
  intros Hp. destruct (path_safe_string p Hp) as (Hesc & _).
  rewrite parsed_apiHost.
  unfold url.String_, url.EscapedPath, url.set_Path.
  cbn [url.Scheme url.Opaque url.Host url.Path url.RawPath url.ForceQuery
       url.RawQuery url.Fragment url.RawFragment is_empty negb andb orb].
  change (("/" +:+ p =? "*")%string) with false. cbv iota.
  assert (url.escape ("/" +:+ p) url.encodePath = "/" +:+ p) as ->
      by (apply escape_safe; simpl; exact Hesc).
  simpl. now rewrite !append_empty_r.
Qed.

Lemma QueryUnescape_api_path (p : string) :
  string_forallb path_safe p = true ->
  url.QueryUnescape ("https://api.raindrop.io/" +:+ p)
  = Ok ("https://api.raindrop.io/" +:+ p).
Proof.
  intros Hp. destruct (path_safe_string p Hp) as (_ & H1 & H2 & _).
  apply unescape_plain; [discriminate | |]; rewrite mem_byte_app.
  - now rewrite H1.
  - now rewrite H2.
Qed.

Lemma Parse_api_path (p : string) :
  string_forallb path_safe p = true ->
  url.Parse ("https://api.raindrop.io/" +:+ p)
  = Ok (url.set_Path ("/" +:+ p) (parsed apiHost)).
Proof.
  intros Hp.
  destruct (path_safe_string p Hp) as (Hesc & H1 & H2 & H3 & H4 & H5).
  unfold url.Parse.
  rewrite cut_absent by (rewrite mem_byte_app, H3; reflexivity).
  unfold url.parse.
  assert (string_existsb url.is_CTL ("https://api.raindrop.io/" +:+ p)
          = false) as ->.
  { unfold string_existsb in *. rewrite string_forallb_app.
    apply negb_false_iff in H5. now rewrite H5. }
  change (("https://api.raindrop.io/" +:+ p =? "*")%string) with false.
  change (url.getScheme ("https://api.raindrop.io/" +:+ p))
    with (Ok ("https", "//api.raindrop.io/" +:+ p)).
  cbv iota beta.
  rewrite (count_byte_absent "?" ("//api.raindrop.io/" +:+ p))
    by (rewrite mem_byte_app, H4; reflexivity).
  rewrite andb_false_r.
  rewrite cut_absent by (rewrite mem_byte_app, H4; reflexivity).
  cbv iota beta.
  change (has_prefix ("//api.raindrop.io/" +:+ p) "/") with true.
  change (has_prefix ("//api.raindrop.io/" +:+ p) "///") with false.
  change (has_prefix ("//api.raindrop.io/" +:+ p) "//") with true.
  cbn [negb andb orb is_empty string_map].
  change (String.substring 2
            (String.length ("//api.raindrop.io/" +:+ p) - 2)
            ("//api.raindrop.io/" +:+ p))
    with (String.substring 0 (String.length ("api.raindrop.io/" +:+ p))
            ("api.raindrop.io/" +:+ p)).
  rewrite substring_all.
  change (cut "/" ("api.raindrop.io/" +:+ p))
    with ("api.raindrop.io", p, true).
  cbv iota beta.
  change (url.parseAuthority "api.raindrop.io") with (Ok "api.raindrop.io").
  cbv iota.
  rewrite unescape_plain;
    [| discriminate | rewrite mem_byte_app, H1; reflexivity
     | rewrite mem_byte_app, H2; reflexivity].
  rewrite escape_safe by (simpl; exact Hesc).
  rewrite String.eqb_refl, parsed_apiHost. reflexivity.
Qed.

(** [newRequest] on the API host. *)
Lemma newRequest_api (c : Client) (accessToken method p : string)
    (body : option any) (ctx : option context.Context) :
  http.validMethod method = true ->
  string_forallb path_safe p = true ->
  newRequest c accessToken method
    (url.set_Path ("/" +:+ p) (parsed apiHost)) body ctx
  = Ok (request_for accessToken method
          (url.set_Path ("/" +:+ p) (parsed apiHost)) (body_text body) ctx).
Proof.
  intros Hm Hp.
  assert (is_empty method = false) as Hne.
  { unfold http.validMethod in Hm. apply andb_true_iff in Hm as [Hm _].
    now apply negb_true_iff in Hm. }
  erewrite newRequest_returns;
    [| rewrite String_api_path by exact Hp;
       apply QueryUnescape_api_path; exact Hp
     | unfold http.NewRequestWithContext;
       rewrite Hne, Hm, (Parse_api_path p Hp); reflexivity].
  unfold request_for, body_text. rewrite parsed_apiHost.
  destruct (is_empty accessToken); reflexivity.
Qed.

(** ** Paths *)

Lemma split_cons (sep : ascii) (a b : string) :
  url.mem_byte sep a = false ->
  split sep (a +:+ String sep b) = a :: split sep b.
Proof.
  rewrite mem_byte_false. induction a as [|c a IH].
  - intros _. simpl. now rewrite Ascii.eqb_refl.
  - simpl. intros [Hc Ha]%andb_true_iff. apply negb_true_iff in Hc.
    rewrite Ascii.eqb_sym, Hc, (IH Ha). reflexivity.
Qed.

Lemma split_join (sep : ascii) (elems : list string) :
  elems <> [] ->
  Forall (fun e => url.mem_byte sep e = false) elems ->
  split sep (join (String sep "") elems) = elems.
Proof.
  intros Hne Hall. induction Hall as [|e rest He Hrest IH]; [congruence |].
  destruct rest as [|e' rest].
  - simpl. now apply split_absent.
  - change (join (String sep "") (e :: e' :: rest))
      with (e +:+ String sep "" +:+ join (String sep "") (e' :: rest)).
    change (String sep "" +:+ join (String sep "") (e' :: rest))
      with (String sep (join (String sep "") (e' :: rest))).
    rewrite split_cons by exact He. now rewrite IH.
Qed.

Lemma path_element_spec (e : string) :
  path_element e = true ->
  String.eqb e "." = false /\ String.eqb e ".." = false
  /\ url.mem_byte "/" e = false.
Proof.
  unfold path_element. rewrite !andb_true_iff, !negb_true_iff. tauto.
Qed.

Lemma clean_elems_elements (rooted : bool) (elems stack : list string) :
  Forall (fun e => path_element e = true) elems ->
  path.clean_elems rooted stack elems
  = (rev stack ++ List.filter (fun e => negb (is_empty e)) elems)%list.
Proof.
  intros Hall. revert stack.
  induction Hall as [|e rest He Hrest IH]; intros stack.
  - simpl. now rewrite app_nil_r.
  - destruct (path_element_spec e He) as (H1 & H2 & _).
    cbn [path.clean_elems List.filter]. rewrite H1, H2, orb_false_r.
    destruct e as [|c e].
    + simpl. apply IH.
    + change (String c e =? "")%string with false. cbv iota.
      rewrite IH. simpl. now rewrite <- app_assoc.
Qed.

(** [path.Clean] on a rooted path made of such elements: the empty ones go,
    the others stay. *)
Lemma Clean_rooted (elems : list string) :
  elems <> [] ->
  Forall (fun e => path_element e = true) elems ->
  path.Clean ("/" +:+ join "/" elems)
  = "/" +:+ join "/" (List.filter (fun e => negb (is_empty e)) elems).
Proof.
  intros Hne Hall. unfold path.Clean.
  change ("/" +:+ join "/" elems) with (String "/" (join "/" elems)).
  cbv iota beta. change (Ascii.eqb "/" "/") with true. cbv iota zeta.
  change (String "/" (join "/" elems))
    with ("" +:+ String "/" (join "/" elems)).
  rewrite split_cons by reflexivity.
  rewrite split_join;
    [| exact Hne
     | eapply Forall_impl; [exact Hall |]; intros e He;
       now destruct (path_element_spec e He) as (_ & _ & ?)].
  change (path.clean_elems true [] ("" :: elems))
    with (path.clean_elems true [] elems).
  now rewrite clean_elems_elements.
Qed.

(** ** Decimal numbers *)

Lemma uint_bytes (d : Decimal.uint) :
  string_forallb decimal_byte (NilEmpty.string_of_uint d) = true.
Proof. induction d; simpl; try rewrite IHd; reflexivity. Qed.

(** [strconv.Itoa] prints digits after an optional minus sign, and at least
    one byte. *)
Lemma Itoa_bytes (z : Z) :
  string_forallb decimal_byte (strconv.Itoa z) = true
  /\ is_empty (strconv.Itoa z) = false.
Proof.
  unfold strconv.Itoa.
  assert (forall p, string_forallb decimal_byte
                      (NilZero.string_of_uint (Pos.to_uint p)) = true
                    /\ is_empty (NilZero.string_of_uint (Pos.to_uint p))
                       = false) as Hpos.
  { intros p. pose proof (DecimalPos.Unsigned.to_uint_nonnil p) as Hnil.
    pose proof (uint_bytes (Pos.to_uint p)) as Hb.
    destruct (Pos.to_uint p); try congruence; split; try exact Hb;
      reflexivity. }
  destruct z as [|p|p]; [split; reflexivity | exact (Hpos p) |].
  split; [| reflexivity].
  change (Z.to_int (Z.neg p)) with (Decimal.Neg (Pos.to_uint p)).
  simpl. exact (proj1 (Hpos p)).
Qed.

Lemma decimal_byte_plain (c : ascii) :
  decimal_byte c = true ->
  path_safe c = true
  /\ url.shouldEscape c url.encodeQueryComponent = false
  /\ Ascii.eqb "/" c = false /\ Ascii.eqb c "." = false.
Proof.
  destruct c as [[] [] [] [] [] [] [] []]; vm_compute; intros H;
    try discriminate H; repeat split.
Qed.

Lemma decimal_path_safe (s : string) :
  string_forallb decimal_byte s = true -> string_forallb path_safe s = true.
Proof.
  apply string_forallb_impl. intros c Hc.
  now destruct (decimal_byte_plain c Hc).
Qed.

Lemma decimal_path_element (s : string) :
  string_forallb decimal_byte s = true -> path_element s = true.
Proof.
  intros Hs. unfold path_element.
  assert (url.mem_byte "/" s = false) as ->.
  { apply mem_byte_false. revert Hs. apply string_forallb_impl.
    intros c Hc. destruct (decimal_byte_plain c Hc) as (_ & _ & H & _).
    now rewrite H. }
  destruct s as [|c s]; [reflexivity |].
  simpl in Hs. apply andb_true_iff in Hs as [Hc _].
  destruct (decimal_byte_plain c Hc) as (_ & _ & _ & H).
  simpl. rewrite H. reflexivity.
Qed.

(** ** The exchange with the transport *)

Lemma request_for_https (accessToken method p body : string)
    (ctx : option context.Context) (q : string) :
  let req := request_for accessToken method
               (url.set_RawQuery q (url.set_Path p (parsed apiHost)))
               body ctx in
  url.Scheme (http.URL req) = "https"
  /\ is_empty (url.Host (http.URL req)) = false.
Proof. rewrite parsed_apiHost. split; reflexivity. Qed.

Section Exchange.
Context {T : Type} `{json.Unmarshal T}.
Variables (net : http.Network) (req : http.Request) (clazz : option T).
Hypothesis Hscheme : url.Scheme (http.URL req) = "https".
Hypothesis Hhost : is_empty (url.Host (http.URL req)) = false.


Lemma send_and_parse_unexpected (response : http.Response) (w : World) :
  http.roundtrip net req = http.Reply response ->
  http.StatusCode response <> 200 ->
  http.StatusCode response <> 400 ->
  send_and_parse net req clazz w
  = (Returned (None, Some (status_mismatch (http.StatusCode response))),
     log_event (Ev_Close (http.Body response))
       (log_stderr
          (Fprintf ("Can't parse response: %s" +:+ newline)
             [[status_mismatch (http.StatusCode response)]])
          (log_stderr (Fprint "[raindrop-io-api-client] ")
             (log_event (Ev_Do req) w)))).
Proof.
  intros Hr H2 H4. unfold send_and_parse. cbv [mbind M_bind bind].
  rewrite Client_Do_https by assumption. rewrite Hr.
  rewrite parseResponse_unexpected by assumption. reflexivity.
Qed.

Lemma send_and_parse_accepted (response : http.Response) (w : World) :
  http.roundtrip net req = http.Reply response ->
  accepted response 200 ->
  send_and_parse net req clazz w
  = (match http.read_error (http.Body response) with
     | Some e => Panicked e
     | None =>
         Returned
           (match json.Unmarshal_ptr (http.data (http.Body response)) clazz
            with
            | (_, Some err) => (None, Some err)
            | (r, None) => (r, None)
            end)
     end,
     log_event (Ev_Close (http.Body response))
       (log_event (Ev_ReadAll (http.Body response))
          (log_event (Ev_Do req) w))).
Proof.
  intros Hr Hacc. unfold send_and_parse. cbv [mbind M_bind bind].
  rewrite Client_Do_https by assumption. rewrite Hr.
  rewrite parseResponse_accepted by assumption.
  destruct (http.read_error (http.Body response)); [reflexivity |].
  destruct (json.Unmarshal_ptr _ clazz) as [r [err|]]; reflexivity.
Qed.

End Exchange.

(** ** Query strings *)

Lemma Query_empty (u : url.URL) : url.RawQuery u = "" -> url.Query u = ∅.
Proof. intros Hq. unfold url.Query. rewrite Hq. reflexivity. Qed.

Lemma Values_Add_empty (k v : string) : url.Values_Add ∅ k v = {[ k := [v] ]}.
Proof.
  unfold url.Values_Add. rewrite lookup_empty. simpl.
  now rewrite insert_empty.
Qed.

Lemma Values_Encode_singleton (k v : string) :
  url.Values_Encode {[ k := [v] ]}
  = url.QueryEscape k +:+ "=" +:+ url.QueryEscape v.
Proof.
  unfold url.Values_Encode. rewrite map_to_list_singleton. simpl.
  rewrite lookup_singleton_eq. simpl. reflexivity.
Qed.

(** ** The operations on collections, bookmarks and tags *)

Lemma load_api (c : Client) (w : World) :
  api_configured c w -> load_URL (apiURL c) w = (Returned (parsed apiHost), w).
Proof. intros Hc. unfold load_URL. rewrite Hc. reflexivity. Qed.

Section Listing.
Variable net : http.Network.
Variables (c : Client) (accessToken : string) (ctx : option context.Context).
Variable w : World.
Hypothesis Hc : api_configured c w.

Lemma GetCollection_run (id : Z) :
  GetCollection net c accessToken id ctx w
  = send_and_parse net
      (request_for accessToken "GET"
         (url.set_Path ("/rest/v1/collection/" +:+ strconv.Itoa id)
            (parsed apiHost)) "" ctx)
      (Some zero_GetCollectionResponse) w.
Proof.
  unfold GetCollection. cbv [mbind M_bind bind].
  do 2 (rewrite (load_api c w Hc); cbv beta iota).
  destruct (Itoa_bytes id) as [Hb Hne].
  assert (path.Join [url.Path (parsed apiHost);
                     endpointGetCollection +:+ strconv.Itoa id]
          = "/rest/v1/collection/" +:+ strconv.Itoa id) as ->.
  { rewrite parsed_apiHost.
    change (path.Join _)
      with (path.Clean
              ("/" +:+ join "/" ["rest"; "v1"; "collection";
                                 strconv.Itoa id])).
    rewrite Clean_rooted; [| discriminate |].
    - cbn [List.filter is_empty negb]. rewrite Hne. reflexivity.
    - repeat constructor. now apply decimal_path_element. }
  change (url.set_Path ("/rest/v1/collection/" +:+ strconv.Itoa id)
            (parsed apiHost))
    with (url.set_Path ("/" +:+ ("rest/v1/collection/" +:+ strconv.Itoa id))
            (parsed apiHost)).
  rewrite newRequest_api;
    [reflexivity | reflexivity |].
  rewrite string_forallb_app. simpl.
  now apply decimal_path_safe.
Qed.

Lemma GetRootCollections_run :
  GetRootCollections net c accessToken ctx w
  = send_and_parse net
      (request_for accessToken "GET"
         (url.set_Path "/rest/v1/collections" (parsed apiHost)) "" ctx)
      (Some zero_GetCollectionsResponse) w.
Proof.
  unfold GetRootCollections. cbv [mbind M_bind bind].
  do 2 (rewrite (load_api c w Hc); cbv beta iota).
  change (path.Join _) with ("/" +:+ "rest/v1/collections").
  rewrite newRequest_api; reflexivity.
Qed.

Lemma GetChildCollections_run :
  GetChildCollections net c accessToken ctx w
  = send_and_parse net
      (request_for accessToken "GET"
         (url.set_Path "/rest/v1/collections/childrens" (parsed apiHost))
         "" ctx)
      (Some zero_GetCollectionsResponse) w.
Proof.
  unfold GetChildCollections. cbv [mbind M_bind bind].
  do 2 (rewrite (load_api c w Hc); cbv beta iota).
  change (path.Join _) with ("/" +:+ "rest/v1/collections/childrens").
  rewrite newRequest_api; reflexivity.
Qed.

Lemma GetTags_run :
  GetTags net c accessToken ctx w
  = send_and_parse net
      (request_for accessToken "GET"
         (url.set_Path "/rest/v1/tags" (parsed apiHost)) "" ctx)
      (Some zero_Tags) w.
Proof.
  unfold GetTags. cbv [mbind M_bind bind].
  do 2 (rewrite (load_api c w Hc); cbv beta iota).
  change (path.Join _) with ("/" +:+ "rest/v1/tags").
  rewrite newRequest_api; reflexivity.
Qed.

Lemma GetRaindrops_run (collectionID : string) (perpage : Z) :
  path_element collectionID = true ->
  string_forallb path_safe collectionID = true ->
  GetRaindrops net c accessToken collectionID perpage ctx w
  = send_and_parse net
      (request_for accessToken "GET"
         (url.set_RawQuery ("perpage=" +:+ strconv.Itoa perpage)
            (url.set_Path
               ("/rest/v1/raindrops"
                +:+ (if is_empty collectionID then ""
                     else "/" +:+ collectionID))
               (parsed apiHost))) "" ctx)
      (Some zero_MultiRaindropsResponse) w.
Proof.
  intros Hel Hsafe. unfold GetRaindrops. cbv [mbind M_bind bind].
  do 2 (rewrite (load_api c w Hc); cbv beta iota).
  assert (path.Join [url.Path (parsed apiHost); endpointRaindrops;
                     collectionID]
          = "/" +:+ ("rest/v1/raindrops"
                     +:+ (if is_empty collectionID then ""
                          else "/" +:+ collectionID))) as ->.
  { rewrite parsed_apiHost.
    change (path.Join _)
      with (path.Clean
              ("/" +:+ join "/" ["rest"; "v1"; "raindrops"; "";
                                 collectionID])).
    rewrite Clean_rooted; [| discriminate | repeat constructor; exact Hel].
    cbn [List.filter is_empty negb].
    destruct (is_empty collectionID); reflexivity. }
  rewrite newRequest_api;
    [| reflexivity
     | rewrite string_forallb_app;
       destruct collectionID; [reflexivity | exact Hsafe]].
  cbv iota beta zeta.
  rewrite Query_empty by (rewrite parsed_apiHost; reflexivity).
  rewrite Values_Add_empty, Values_Encode_singleton.
  destruct (Itoa_bytes perpage) as [Hb _].
  assert (url.QueryEscape (strconv.Itoa perpage) = strconv.Itoa perpage)
    as ->.
  { apply escape_safe. revert Hb. apply string_forallb_impl.
    intros b Hbb. destruct (decimal_byte_plain b Hbb) as (_ & -> & _).
    reflexivity. }
  reflexivity.
Qed.

End Listing.

Lemma send_and_parse_sends {T : Type} `{json.Unmarshal T}
    (net : http.Network) (req : http.Request) (clazz : option T)
    (w : World) :
  requests (snd (send_and_parse net req clazz w))
  = (requests w ++ [req])%list.
Proof.
  unfold send_and_parse.
  apply (send_and_parse_requests net req clazz
           (fun err => mret (None, Some err))
           (fun '(r, err) =>
              match err with
              | Some err => mret (None, Some err)
              | None => mret (r, None)
              end)).
  - reflexivity.
  - intros [r [err|]] w0; reflexivity.
Qed.

(** ** What the operations send *)

(** X1.  [newRequest] on the API host: for a valid method and a path whose
    bytes need no escaping, the request that is returned carries the method,
    the URL as it was given (the trip through [URL.String],
    [url.QueryUnescape] and [url.Parse] gives it back), the JSON encoding of
    the body followed by a newline (nothing for a [nil] body), the two
    headers and the context, the background one for a [nil] context. *)
Theorem newRequest_api_request (c : Client) (accessToken method p : string)
    (body : option any) (ctx : option context.Context) :
  http.validMethod method = true ->
  string_forallb path_safe p = true ->
  newRequest c accessToken method
    (url.set_Path ("/" +:+ p) (parsed apiHost)) body ctx
  = Ok (request_for accessToken method
          (url.set_Path ("/" +:+ p) (parsed apiHost)) (body_text body) ctx)
  /\ url.String_ (url.set_Path ("/" +:+ p) (parsed apiHost))
     = "https://api.raindrop.io/" +:+ p.
Proof.
  intros Hm Hp. split; [now apply newRequest_api | now apply String_api_path].
Qed.

Lemma newRequest_api_request_witness :
  newRequest example_client "token" "PUT"
    (url.set_Path ("/" +:+ "rest/v1/collection/7") (parsed apiHost))
    (Some (Any zero_createCollectionRequest)) None
  = Ok (request_for "token" "PUT"
          (url.set_Path ("/" +:+ "rest/v1/collection/7") (parsed apiHost))
          (body_text (Some (Any zero_createCollectionRequest))) None)
  /\ url.String_
       (url.set_Path ("/" +:+ "rest/v1/collection/7") (parsed apiHost))
     = "https://api.raindrop.io/" +:+ "rest/v1/collection/7".
Proof.
  apply (newRequest_api_request example_client "token" "PUT"
           "rest/v1/collection/7"); reflexivity.
Defined.

(** X2.  With the API endpoint as [NewClient] stored it,
    [GetRootCollections], [GetChildCollections] and [GetTags] each hand
    exactly one request to the transport, whatever it answers: a GET of
    [/rest/v1/collections], [/rest/v1/collections/childrens] and
    [/rest/v1/tags] on the API host, without body and without query, with
    the caller's token and context. *)
Theorem listing_requests (net : http.Network) (c : Client)
    (accessToken : string) (ctx : option context.Context) (w : World) :
  api_configured c w ->
  requests (snd (GetRootCollections net c accessToken ctx w))
  = (requests w
     ++ [request_for accessToken "GET"
           (url.set_Path "/rest/v1/collections" (parsed apiHost)) "" ctx])%list
  /\ requests (snd (GetChildCollections net c accessToken ctx w))
     = (requests w
        ++ [request_for accessToken "GET"
              (url.set_Path "/rest/v1/collections/childrens"
                 (parsed apiHost)) "" ctx])%list
  /\ requests (snd (GetTags net c accessToken ctx w))
     = (requests w
        ++ [request_for accessToken "GET"
              (url.set_Path "/rest/v1/tags" (parsed apiHost)) "" ctx])%list.
Proof.
  intros Hc.
  rewrite GetRootCollections_run, GetChildCollections_run, GetTags_run
    by exact Hc.
  now rewrite !send_and_parse_sends.
Qed.

Lemma listing_requests_witness :
  requests (snd (GetRootCollections offline example_client "token" None
                   example_world))
  = [request_for "token" "GET"
       (url.set_Path "/rest/v1/collections" (parsed apiHost)) "" None]
  /\ requests (snd (GetChildCollections offline example_client "token" None
                      example_world))
     = [request_for "token" "GET"
          (url.set_Path "/rest/v1/collections/childrens" (parsed apiHost))
          "" None]
  /\ requests (snd (GetTags offline example_client "token" None
                      example_world))
     = [request_for "token" "GET"
          (url.set_Path "/rest/v1/tags" (parsed apiHost)) "" None].
Proof.
  apply (listing_requests offline example_client "token" None example_world).
  reflexivity.
Defined.

(** X3.  [GetCollection] hands exactly one request to the transport: a GET
    of [/rest/v1/collection/<id>] on the API host, the identifier in
    decimal, without body and without query.  This holds for every
    identifier, zero included. *)
Theorem GetCollection_request (net : http.Network) (c : Client)
    (accessToken : string) (id : Z) (ctx : option context.Context)
    (w : World) :
  api_configured c w ->
  requests (snd (GetCollection net c accessToken id ctx w))
  = (requests w
     ++ [request_for accessToken "GET"
           (url.set_Path ("/rest/v1/collection/" +:+ strconv.Itoa id)
              (parsed apiHost)) "" ctx])%list.
Proof.
  intros Hc. rewrite GetCollection_run by exact Hc.
  apply send_and_parse_sends.
Qed.

Lemma GetCollection_request_witness :
  requests (snd (GetCollection offline example_client "token" 0 None
                   example_world))
  = [request_for "token" "GET"
       (url.set_Path "/rest/v1/collection/0" (parsed apiHost)) "" None].
Proof.
  apply (GetCollection_request offline example_client "token" 0 None
           example_world).
  reflexivity.
Defined.

(** X4.  [GetRaindrops] hands exactly one request to the transport.  For a
    collection identifier that is one path element (no slash, neither [.]
    nor [..]) of bytes that need no escaping, it is a GET of
    [/rest/v1/raindrops/<collectionID>] whose query is [perpage=<perpage>]
    and nothing else; an empty identifier gives [/rest/v1/raindrops].  The
    page size goes out as it is: zero and negative sizes are sent too. *)
Theorem GetRaindrops_request (net : http.Network) (c : Client)
    (accessToken collectionID : string) (perpage : Z)
    (ctx : option context.Context) (w : World) :
  api_configured c w ->
  path_element collectionID = true ->
  string_forallb path_safe collectionID = true ->
  requests (snd (GetRaindrops net c accessToken collectionID perpage ctx w))
  = (requests w
     ++ [request_for accessToken "GET"
           (url.set_RawQuery ("perpage=" +:+ strconv.Itoa perpage)
              (url.set_Path
                 ("/rest/v1/raindrops"
                  +:+ (if is_empty collectionID then ""
                       else "/" +:+ collectionID))
                 (parsed apiHost))) "" ctx])%list.
Proof.
  intros Hc Hel Hsafe. rewrite GetRaindrops_run by assumption.
  apply send_and_parse_sends.
Qed.

Lemma GetRaindrops_request_witness :
  requests (snd (GetRaindrops offline example_client "token" "-1" (-5) None
                   example_world))
  = [request_for "token" "GET"
       (url.set_RawQuery "perpage=-5"
          (url.set_Path "/rest/v1/raindrops/-1" (parsed apiHost))) "" None].
Proof.
  apply (GetRaindrops_request offline example_client "token" "-1" (-5) None
           example_world); reflexivity.
Defined.

(** ** Query escaping *)

Lemma escape_cons (c : ascii) (r : string) (mode : url.encoding) :
  url.escape (String c r) mode
  = url.escape (String c "") mode +:+ url.escape r mode.
Proof.
  cbn [url.escape]. destruct (url.shouldEscape c mode); [| reflexivity].
  destruct (_ && _); reflexivity.
Qed.

Lemma unescape_escape_byte (c : ascii) (t : string) :
  url.unescape (url.escape (String c "") url.encodeQueryComponent +:+ t)
    url.encodeQueryComponent
  = match url.unescape t url.encodeQueryComponent with
    | Ok t' => Ok (String c t')
    | Err e => Err e
    end.
Proof. destruct c as [[] [] [] [] [] [] [] []]; reflexivity. Qed.

(** [url.QueryUnescape] gives back what [url.QueryEscape] was given. *)
Lemma QueryUnescape_QueryEscape (s : string) :
  url.QueryUnescape (url.QueryEscape s) = Ok s.
Proof.
  unfold url.QueryUnescape, url.QueryEscape.
  induction s as [|c s IH]; [reflexivity |].
  rewrite escape_cons, unescape_escape_byte, IH. reflexivity.
Qed.

Lemma escape_byte_separators (c : ascii) :
  url.mem_byte "&" (url.escape (String c "") url.encodeQueryComponent) = false
  /\ url.mem_byte ";" (url.escape (String c "") url.encodeQueryComponent)
     = false
  /\ url.mem_byte "=" (url.escape (String c "") url.encodeQueryComponent)
     = false.
Proof. destruct c as [[] [] [] [] [] [] [] []]; repeat split. Qed.

(** No separator of a query string is left in an escaped text. *)
Lemma QueryEscape_separators (s : string) :
  url.mem_byte "&" (url.QueryEscape s) = false
  /\ url.mem_byte ";" (url.QueryEscape s) = false
  /\ url.mem_byte "=" (url.QueryEscape s) = false.
Proof.
  unfold url.QueryEscape. induction s as [|c s (IH1 & IH2 & IH3)].
  - repeat split.
  - rewrite escape_cons, !mem_byte_app, IH1, IH2, IH3.
    destruct (escape_byte_separators c) as (-> & -> & ->). repeat split.
Qed.

Lemma is_empty_app (a b : string) :
  is_empty (a +:+ b) = is_empty a && is_empty b.
Proof. destruct a; reflexivity. Qed.

(** A query of one escaped pair is read back as that pair. *)
Lemma Query_pair (k v : string) (u : url.URL) :
  url.Query
    (url.set_RawQuery (url.QueryEscape k +:+ "=" +:+ url.QueryEscape v) u)
  = {[ k := [v] ]}.
Proof.
  destruct (QueryEscape_separators k) as (Hk1 & Hk2 & Hk3).
  destruct (QueryEscape_separators v) as (Hv1 & Hv2 & Hv3).
  unfold url.Query. cbn [url.RawQuery url.set_RawQuery].
  rewrite split_absent
    by (rewrite mem_byte_app, Hk1; simpl; exact Hv1).
  cbn [fold_left]. unfold url.parseQuery_step.
  rewrite mem_byte_app, Hk2.
  change (url.mem_byte ";" ("=" +:+ url.QueryEscape v))
    with (url.mem_byte ";" (url.QueryEscape v)).
  rewrite Hv2. cbn [orb]. rewrite is_empty_app, andb_false_r.
  change ("=" +:+ url.QueryEscape v) with (String "=" (url.QueryEscape v)).
  rewrite cut_app by exact Hk3.
  rewrite !QueryUnescape_QueryEscape. apply Values_Add_empty.
Qed.

Lemma append_assoc (a b c : string) : (a +:+ b) +:+ c = a +:+ (b +:+ c).
Proof.
  induction a as [|x a IH]; [reflexivity |].
  change (String x ((a +:+ b) +:+ c) = String x (a +:+ (b +:+ c))).
  now rewrite IH.
Qed.

Lemma quoted_app (s r : string) :
  quoted s +:+ r = String dquote (s +:+ String dquote r).
Proof.
  unfold quoted.
  change (String dquote ((s +:+ String dquote "") +:+ r)
          = String dquote (s +:+ String dquote r)).
  now rewrite append_assoc.
Qed.

Lemma createSingleSearchParameter_text (k v : string) :
  createSingleSearchParameter k v
  = "[{" +:+ quoted "key" +:+ ":" +:+ quoted k +:+ ","
    +:+ quoted "val" +:+ ":" +:+ quoted v +:+ "}]".
Proof.
  rewrite !quoted_app. reflexivity.
Qed.

Lemma GetTaggedRaindrops_run (net : http.Network) (c : Client)
    (accessToken tag : string) (ctx : option context.Context) (w : World) :
  api_configured c w ->
  GetTaggedRaindrops net c accessToken tag ctx w
  = send_and_parse net
      (request_for accessToken "GET"
         (url.set_RawQuery
            ("search="
             +:+ url.QueryEscape (createSingleSearchParameter "tag" tag))
            (url.set_Path "/rest/v1/raindrops/0" (parsed apiHost))) "" ctx)
      (Some zero_MultiRaindropsResponse) w.
Proof.
  intros Hc. unfold GetTaggedRaindrops. cbv [mbind M_bind bind].
  do 2 (rewrite (load_api c w Hc); cbv beta iota).
  change (path.Join _) with ("/" +:+ "rest/v1/raindrops/0").
  rewrite newRequest_api by reflexivity.
  cbv iota beta zeta.
  rewrite Query_empty by (rewrite parsed_apiHost; reflexivity).
  rewrite Values_Add_empty, Values_Encode_singleton.
  reflexivity.
Qed.

(** X5.  [GetTaggedRaindrops] for every tag: exactly one request goes to
    the transport, a GET of [/rest/v1/raindrops/0] on the API host, and its
    query, read back as the server reads it, has the single parameter
    [search] with the single value [[{"key":"tag","val":"<tag>"}]].  The
    tag stands in that value byte for byte: the query escaping is undone by
    the reading, and nothing escapes the tag as a JSON string. *)
Theorem GetTaggedRaindrops_any_tag (net : http.Network) (c : Client)
    (accessToken tag : string) (ctx : option context.Context) (w : World) :
  api_configured c w ->
  exists req,
    requests (snd (GetTaggedRaindrops net c accessToken tag ctx w))
    = (requests w ++ [req])%list
    /\ http.Method req = "GET"
    /\ url.Path (http.URL req) = "/rest/v1/raindrops/0"
    /\ url.Query (http.URL req)
       = {[ "search" :=
              ["[{" +:+ quoted "key" +:+ ":" +:+ quoted "tag" +:+ ","
               +:+ quoted "val" +:+ ":" +:+ quoted tag +:+ "}]"] ]}.
Proof.
  intros Hc. rewrite GetTaggedRaindrops_run by exact Hc.
  eexists. split; [apply send_and_parse_sends |].
  split; [reflexivity |]. split; [reflexivity |].
  cbn [http.URL request_for].
  change ("search=" +:+ url.QueryEscape (createSingleSearchParameter "tag" tag))
    with (url.QueryEscape "search" +:+ "="
          +:+ url.QueryEscape (createSingleSearchParameter "tag" tag)).
  rewrite Query_pair, createSingleSearchParameter_text. reflexivity.
Qed.

Lemma GetTaggedRaindrops_any_tag_witness :
  exists req,
    requests (snd (GetTaggedRaindrops offline example_client "token"
                     "to read & keep" None example_world))
    = [req]
    /\ http.Method req = "GET"
    /\ url.Path (http.URL req) = "/rest/v1/raindrops/0"
    /\ url.Query (http.URL req)
       = {[ "search" :=
              ["[{" +:+ quoted "key" +:+ ":" +:+ quoted "tag" +:+ ","
               +:+ quoted "val" +:+ ":" +:+ quoted "to read & keep"
               +:+ "}]"] ]}.
Proof.
  apply (GetTaggedRaindrops_any_tag offline example_client "token"
           "to read & keep" None example_world).
  reflexivity.
Defined.

(** ** The token operations *)

Lemma parsed_authHost :
  parsed authHost
  = {| url.Scheme := "https"; url.Opaque := ""; url.Host := "raindrop.io";
       url.Path := ""; url.RawPath := ""; url.ForceQuery := false;
       url.RawQuery := ""; url.Fragment := ""; url.RawFragment := "" |}.
Proof. vm_compute. reflexivity. Qed.

Lemma load_auth (c : Client) (w : World) (p : string) :
  urls w !! authURL c = Some (url.set_Path p (parsed authHost)) ->
  load_URL (authURL c) w = (Returned (url.set_Path p (parsed authHost)), w).
Proof. intros Hc. unfold load_URL. rewrite Hc. reflexivity. Qed.

(** [newRequest] for the token endpoint. *)
Lemma newRequest_token (c : Client) (body : option any)
    (ctx : option context.Context) :
  newRequest c "" "POST"
    (url.set_Path "/oauth/access_token" (parsed authHost)) body ctx
  = Ok (request_for "" "POST"
          (url.set_Path "/oauth/access_token" (parsed authHost))
          (body_text body) ctx).
Proof.
  rewrite (newRequest_returns c "" "POST" _ body ctx
             "https://raindrop.io/oauth/access_token"
             {| http.Method := "POST";
                http.URL :=
                  url.set_Path "/oauth/access_token" (parsed authHost);
                http.Header := ∅;
                http.Request_Body := body_text body;
                http.Request_ctx := default context.Background ctx;
                http.Request_Response := None |}).
  - reflexivity.
  - vm_compute. reflexivity.
  - unfold http.NewRequestWithContext.
    change (url.Parse "https://raindrop.io/oauth/access_token")
      with (Ok (url.set_Path "/oauth/access_token" (parsed authHost))).
    rewrite parsed_authHost. destruct body as [[A HA a]|]; reflexivity.
Qed.

Section Tokens.
Variable net : http.Network.
Variables (c : Client) (ctx : option context.Context) (w : World).
Hypothesis Hc : auth_configured c w.

Lemma GetAccessToken_run (userCode : string) :
  GetAccessToken net c userCode ctx w
  = send_and_parse net
      (request_for "" "POST"
         (url.set_Path "/oauth/access_token" (parsed authHost))
         (json.render
            (json.JObject
               [("code", json.JString userCode);
                ("client_id", json.JString (clientId c));
                ("client_secret", json.JString (clientSecret c));
                ("redirect_uri", json.JString (redirectUri c));
                ("grant_type", json.JString "authorization_code")])
          +:+ newline) ctx)
      (Some zero_AccessTokenResponse) w.
Proof.
  destruct Hc as [p Hp].
  unfold GetAccessToken. cbv [mbind M_bind bind].
  rewrite (load_auth c w p Hp). cbv beta iota.
  change (url.set_Path (path.Join [endpointAccessToken])
            (url.set_Path p (parsed authHost)))
    with (url.set_Path "/oauth/access_token" (parsed authHost)).
  rewrite newRequest_token. reflexivity.
Qed.

Lemma RefreshAccessToken_run (refreshToken : string) :
  RefreshAccessToken net c refreshToken ctx w
  = send_and_parse net
      (request_for "" "POST"
         (url.set_Path "/oauth/access_token" (parsed authHost))
         (json.render
            (json.JObject
               [("client_id", json.JString (clientId c));
                ("client_secret", json.JString (clientSecret c));
                ("grant_type", json.JString "authorization_code");
                ("refresh_token", json.JString refreshToken)])
          +:+ newline) ctx)
      (Some zero_AccessTokenResponse) w.
Proof.
  destruct Hc as [p Hp].
  unfold RefreshAccessToken. cbv [mbind M_bind bind].
  rewrite (load_auth c w p Hp). cbv beta iota.
  change (url.set_Path (path.Join [endpointAccessToken])
            (url.set_Path p (parsed authHost)))
    with (url.set_Path "/oauth/access_token" (parsed authHost)).
  rewrite newRequest_token. reflexivity.
Qed.

End Tokens.

(** ** How the operations end *)

Lemma CreateCollection_run (net : http.Network) (c : Client)
    (accessToken : string) (isRoot : bool) (view title : string) (sort : Z)
    (public : bool) (parentId : Z) (cover : option (list string))
    (ctx : option context.Context) (w : World) :
  api_configured c w ->
  CreateCollection net c accessToken isRoot view title sort public parentId
    cover ctx w
  = send_and_parse net
      (request_for accessToken "POST"
         (url.set_Path "/rest/v1/collection" (parsed apiHost))
         (json.render
            (json.marshal
               {| createCollectionRequest_View := view;
                  createCollectionRequest_Title := title;
                  createCollectionRequest_Sort := sort;
                  createCollectionRequest_Public := public;
                  createCollectionRequest_ParentId :=
                    if isRoot then 0 else parentId;
                  createCollectionRequest_Cover := cover |})
          +:+ newline) ctx)
      (Some zero_CreateCollectionResponse) w.
Proof.
  intros Hc. unfold CreateCollection. cbv [mbind M_bind bind].
  rewrite (load_api c w Hc). cbv beta iota zeta.
  change (path.Join [endpointCreateCollection])
    with ("/" +:+ "rest/v1/collection").
  rewrite newRequest_api by reflexivity.
  destruct isRoot; reflexivity.
Qed.

Lemma body_events_Do (req : http.Request) (w : World) :
  body_events (log_event (Ev_Do req) w) = body_events w.
Proof.
  unfold body_events, log_event. simpl. rewrite List.filter_app. simpl.
  apply app_nil_r.
Qed.

Lemma body_events_ReadAll (b : http.ReadCloser) (w : World) :
  body_events (log_event (Ev_ReadAll b) w)
  = (body_events w ++ [Ev_ReadAll b])%list.
Proof.
  unfold body_events, log_event. simpl. now rewrite List.filter_app.
Qed.

Lemma body_events_Close (b : http.ReadCloser) (w : World) :
  body_events (log_event (Ev_Close b) w)
  = (body_events w ++ [Ev_Close b])%list.
Proof.
  unfold body_events, log_event. simpl. now rewrite List.filter_app.
Qed.

Lemma body_events_stderr (x : stderr_write) (w : World) :
  body_events (log_stderr x w) = body_events w.
Proof. reflexivity. Qed.

Section Endings.
Context {T : Type} `{json.Unmarshal T}.
Variables (net : http.Network) (accessToken method body : string).
Variables (u : url.URL) (ctx : option context.Context).
Variables (clazz : T) (w : World).
Hypothesis Hscheme : url.Scheme u = "https".
Hypothesis Hhost : is_empty (url.Host u) = false.


Lemma exchange_unexpected (response : http.Response) :
  (forall req, http.roundtrip net req = http.Reply response) ->
  http.StatusCode response <> 200 ->
  http.StatusCode response <> 400 ->
  returns_with
    (send_and_parse net (request_for accessToken method u body ctx)
       (Some clazz)) w
    (None, Some (status_mismatch (http.StatusCode response)))
    [Ev_Close (http.Body response)].
Proof.
  intros Hnet H2 H4. unfold returns_with.
  rewrite (send_and_parse_unexpected net
             (request_for accessToken method u body ctx)
             (Some clazz) Hscheme Hhost response w)
    by (apply Hnet || assumption).
  split; [reflexivity |]. simpl.
  now rewrite body_events_Close, !body_events_stderr, body_events_Do.
Qed.

Lemma exchange_null (response : http.Response) :
  (forall req, http.roundtrip net req = http.Reply response) ->
  accepted response 200 ->
  http.read_error (http.Body response) = None ->
  json.parse (http.data (http.Body response)) = Some json.JNull ->
  returns_with
    (send_and_parse net (request_for accessToken method u body ctx)
       (Some clazz)) w (None, None)
    [Ev_ReadAll (http.Body response); Ev_Close (http.Body response)].
Proof.
  intros Hnet Hacc Hread Hnull. unfold returns_with.
  rewrite (send_and_parse_accepted net
             (request_for accessToken method u body ctx)
             (Some clazz) Hscheme Hhost response w)
    by (apply Hnet || assumption).
  rewrite Hread. unfold json.Unmarshal_ptr. rewrite Hnull.
  split; [reflexivity |]. simpl.
  rewrite body_events_Close, body_events_ReadAll, body_events_Do.
  now rewrite <- app_assoc.
Qed.

End Endings.

Lemma DeleteTags_exchange (net : http.Network) (c : Client)
    (accessToken : string) (ctx : option context.Context)
    (tagIDs : option (list string)) (w : World) :
  api_configured c w ->
  exists req,
    url.Scheme (http.URL req) = "https"
    /\ is_empty (url.Host (http.URL req)) = false
    /\ DeleteTags net c accessToken ctx tagIDs w
       = (rep ← Client_Do net req;
          match rep with
          | http.Failed err | http.FailedWith _ err => mret (Some err)
          | http.Reply response =>
              '(r, err) ←
                parseResponse response 200 (Some zero_DeleteTagsResponse);
              match err with
              | Some err => mret (Some err)
              | None => mret None
              end
          end) w.
Proof.
  intros Hc. unfold DeleteTags.
  unfold mbind at 1, M_bind, bind at 1. rewrite (load_api c w Hc).
  unfold mbind at 1, M_bind, bind at 1. rewrite (load_api c w Hc).
  cbv beta iota zeta.
  change (path.Join _) with ("/" +:+ "rest/v1/tags").
  rewrite newRequest_api by reflexivity.
  eexists. split; [| split; [| reflexivity]];
    rewrite parsed_apiHost; reflexivity.
Qed.


Lemma DeleteTags_unexpected (net : http.Network) (c : Client)
    (accessToken : string) (ctx : option context.Context)
    (tagIDs : option (list string)) (w : World) (response : http.Response) :
  api_configured c w ->
  (forall req, http.roundtrip net req = http.Reply response) ->
  http.StatusCode response <> 200 ->
  http.StatusCode response <> 400 ->
  returns_with (DeleteTags net c accessToken ctx tagIDs) w
    (Some (status_mismatch (http.StatusCode response)))
    [Ev_Close (http.Body response)].
Proof.
  intros Hc Hnet H2 H4.
  destruct (DeleteTags_exchange net c accessToken ctx tagIDs w Hc)
    as (req & Hs & Hh & Hrun).
  unfold returns_with. rewrite Hrun. cbv [mbind M_bind bind].
  rewrite Client_Do_https by assumption. rewrite Hnet.
  rewrite parseResponse_unexpected by assumption.
  split; [reflexivity |]. simpl.
  now rewrite body_events_Close, !body_events_stderr, body_events_Do.
Qed.

Ltac endpoint_facts :=
  solve [ rewrite ?parsed_apiHost, ?parsed_authHost; reflexivity ].

Ltac split_operations :=
  repeat match goal with |- _ /\ _ => split end.

Ltac run_operation :=
  unfold returns_with;
  first
    [ rewrite GetRootCollections_run by assumption
    | rewrite GetChildCollections_run by assumption
    | rewrite GetCollection_run by assumption
    | rewrite CreateCollection_run by assumption
    | rewrite GetRaindrops_run by assumption
    | rewrite GetTags_run by assumption
    | rewrite GetTaggedRaindrops_run by assumption
    | rewrite GetAccessToken_run by assumption
    | rewrite RefreshAccessToken_run by assumption ].



(** X7.  A response whose status is neither 200 nor 400 ends every
    operation that starts with its own request with a [nil] result and the
    status-mismatch error that carries the code ([DeleteTags], which has no
    result, returns the error); the body of the response is closed and has
    not been read.
    The client's API endpoint is the one [NewClient] stored and its auth
    endpoint is the one [NewClient] stored up to its path; the collection
    identifier of [GetRaindrops] is one path element (no slash, neither [.]
    nor [..]) of bytes that need no escaping (and hold no plus sign); the
    transport answers every request with one and the same response. *)
Theorem operations_report_unexpected_status (net : http.Network) (c : Client)
    (accessToken collectionID tag userCode refreshToken view title : string)
    (id perpage sort parentId : Z) (isRoot public : bool)
    (cover tagIDs : option (list string)) (ctx : option context.Context)
    (w : World) (response : http.Response) :
  api_configured c w ->
  auth_configured c w ->
  path_element collectionID = true ->
  string_forallb path_safe collectionID = true ->
  (forall req, http.roundtrip net req = http.Reply response) ->
  http.StatusCode response <> 200 ->
  http.StatusCode response <> 400 ->
  let err := status_mismatch (http.StatusCode response) in
  let closed := [Ev_Close (http.Body response)] in
  returns_with (GetRootCollections net c accessToken ctx) w
    (None, Some err) closed
  /\ returns_with (GetChildCollections net c accessToken ctx) w
       (None, Some err) closed
  /\ returns_with (GetCollection net c accessToken id ctx) w
       (None, Some err) closed
  /\ returns_with
       (CreateCollection net c accessToken isRoot view title sort public
          parentId cover ctx) w (None, Some err) closed
  /\ returns_with (GetRaindrops net c accessToken collectionID perpage ctx) w
       (None, Some err) closed
  /\ returns_with (GetTags net c accessToken ctx) w (None, Some err) closed
  /\ returns_with (GetTaggedRaindrops net c accessToken tag ctx) w
       (None, Some err) closed
  /\ returns_with (GetAccessToken net c userCode ctx) w
       (None, Some err) closed
  /\ returns_with (RefreshAccessToken net c refreshToken ctx) w
       (None, Some err) closed
  /\ returns_with (DeleteTags net c accessToken ctx tagIDs) w
       (Some err) closed.
Proof.
  intros Hapi Hauth Hel Hsafe Hnet H2 H4 err closed. subst err closed.
  split_operations; try (now apply DeleteTags_unexpected); run_operation;
    apply exchange_unexpected;
    solve [endpoint_facts | exact Hnet | exact H2 | exact H4].
Qed.

Lemma operations_report_unexpected_status_witness :
  returns_with
    (GetTags
       (answering {| http.StatusCode := 401; http.Body := readable "" |})
       example_client "token" None)
    example_world (None, Some (status_mismatch 401))
    [Ev_Close (readable "")].
Proof.
  refine (proj1 (proj2 (proj2 (proj2 (proj2 (proj2
    (operations_report_unexpected_status
       (answering {| http.StatusCode := 401; http.Body := readable "" |})
       example_client "token" "0" "recipe" "code" "refresh" "list" "Books"
       7 50 0 0 true false None None None example_world
       {| http.StatusCode := 401; http.Body := readable "" |}
       _ _ _ _ _ _ _))))))); try reflexivity; try discriminate.
  exists "". reflexivity.
Defined.

(** X8.  A response with status 200 or 400 whose body is the JSON value
    [null] ends every operation that decodes a record with a [nil] result
    and a [nil] error: the caller gets neither a record nor an error.  The
    body has been read and then closed.
    The client's API endpoint is the one [NewClient] stored and its auth
    endpoint is the one [NewClient] stored up to its path; the collection
    identifier of [GetRaindrops] is one path element (no slash, neither [.]
    nor [..]) of bytes that need no escaping (and hold no plus sign); the
    transport answers every request with one and the same response, and reading the
    body of that response does not fail. *)
Theorem operations_null_answer (net : http.Network) (c : Client)
    (accessToken collectionID tag userCode refreshToken view title : string)
    (id perpage sort parentId : Z) (isRoot public : bool)
    (cover : option (list string)) (ctx : option context.Context)
    (w : World) (response : http.Response) :
  api_configured c w ->
  auth_configured c w ->
  path_element collectionID = true ->
  string_forallb path_safe collectionID = true ->
  (forall req, http.roundtrip net req = http.Reply response) ->
  accepted response 200 ->
  http.read_error (http.Body response) = None ->
  json.parse (http.data (http.Body response)) = Some json.JNull ->
  let done :=
    [Ev_ReadAll (http.Body response); Ev_Close (http.Body response)] in
  returns_with (GetRootCollections net c accessToken ctx) w
    (None, None) done
  /\ returns_with (GetChildCollections net c accessToken ctx) w
       (None, None) done
  /\ returns_with (GetCollection net c accessToken id ctx) w
       (None, None) done
  /\ returns_with
       (CreateCollection net c accessToken isRoot view title sort public
          parentId cover ctx) w (None, None) done
  /\ returns_with (GetRaindrops net c accessToken collectionID perpage ctx) w
       (None, None) done
  /\ returns_with (GetTags net c accessToken ctx) w (None, None) done
  /\ returns_with (GetTaggedRaindrops net c accessToken tag ctx) w
       (None, None) done
  /\ returns_with (GetAccessToken net c userCode ctx) w (None, None) done
  /\ returns_with (RefreshAccessToken net c refreshToken ctx) w
       (None, None) done.
Proof.
  intros Hapi Hauth Hel Hsafe Hnet Hacc Hread Hnull done. subst done.
  split_operations; run_operation;
    apply exchange_null;
    solve [endpoint_facts | exact Hnet | exact Hacc | exact Hread
           | exact Hnull].
Qed.

Lemma operations_null_answer_witness :
  returns_with
    (GetAccessToken
       (answering {| http.StatusCode := 400;
                     http.Body := readable " null" |})
       example_client "code" None)
    example_world (None, None)
    [Ev_ReadAll (readable " null"); Ev_Close (readable " null")].
Proof.
  refine (proj1 (proj2 (proj2 (proj2 (proj2 (proj2 (proj2 (proj2
    (operations_null_answer
       (answering {| http.StatusCode := 400;
                     http.Body := readable " null" |})
       example_client "token" "0" "recipe" "code" "refresh" "list" "Books"
       7 50 0 0 true false None None example_world
       {| http.StatusCode := 400; http.Body := readable " null" |}
       _ _ _ _ _ _ _ _))))))))); try reflexivity.
  - exists "". reflexivity.
  - right. reflexivity.
Defined.

(** ** A result or an error, never both *)

Lemma send_and_parse_value_or_error {T : Type} `{json.Unmarshal T}
    (net : http.Network) (req : http.Request) (clazz : option T)
    (w : World) :
  value_or_error (fst (send_and_parse net req clazz w)).
Proof.
  unfold send_and_parse.
  destruct (Client_Do_run net req w) as [rep Hdo].
  cbv [mbind M_bind bind]. rewrite Hdo.
  destruct rep as [response | err | response err]; try exact I.
  destruct (parseResponse response 200 clazz (log_event (Ev_Do req) w))
    as [[[r [e|]] | v] w2]; try exact I.
  destruct r; exact I.
Qed.

Lemma with_defer_value_or_error {A : Type} (d : M World unit)
    (body : M World (option A * option error)) (w : World) :
  value_or_error (fst (body w)) ->
  value_or_error (fst (with_defer d body w)).
Proof.
  unfold with_defer. destruct (body w) as [r w1]. simpl.
  destruct (d w1) as [[[] | v] w2]; [trivial | intros _; exact I].
Qed.

Ltac enter_operation :=
  cbv [mbind M_bind bind load_URL];
  match goal with
  | |- context [urls ?w !! ?p] =>
      let Hload := fresh "Hload" in
      destruct (urls w !! p) eqn:Hload; [| exact I];
      cbv beta iota zeta; rewrite ?Hload; cbv beta iota zeta
  end.

Ltac built_request :=
  match goal with
  | |- context [newRequest ?c ?t ?m ?u ?b ?x] =>
      destruct (newRequest c t m u b x); [| exact I]
  end.

(** X9.  No operation returns a result together with an error: whatever
    the client, the arguments, the stored endpoints and the answers of the
    network, an outcome with a non-[nil] error has a [nil] result (and an
    operation that panics returns nothing). *)
Theorem operations_value_or_error (net : http.Network)
    (GetHtmlTitle : http.ReadCloser -> string * bool) (c : Client)
    (accessToken collectionID tag userCode refreshToken view title link
       id_ secret redirect : string)
    (id perpage sort parentId : Z) (isRoot public : bool)
    (cover : option (list string)) (ctx : option context.Context)
    (w : World) :
  value_or_error (fst (NewClient id_ secret redirect w))
  /\ value_or_error (fst (GetRootCollections net c accessToken ctx w))
  /\ value_or_error (fst (GetChildCollections net c accessToken ctx w))
  /\ value_or_error (fst (GetCollection net c accessToken id ctx w))
  /\ value_or_error
       (fst (CreateCollection net c accessToken isRoot view title sort public
               parentId cover ctx w))
  /\ value_or_error
       (fst (CreateSimpleRaindrop net GetHtmlTitle c accessToken link ctx w))
  /\ value_or_error
       (fst (GetRaindrops net c accessToken collectionID perpage ctx w))
  /\ value_or_error (fst (GetTags net c accessToken ctx w))
  /\ value_or_error (fst (GetTaggedRaindrops net c accessToken tag ctx w))
  /\ value_or_error (fst (GetAccessToken net c userCode ctx w))
  /\ value_or_error (fst (RefreshAccessToken net c refreshToken ctx w)).
Proof.
  split_operations.
  - destruct (NewClient_configured id_ secret redirect w)
      as (c0 & w' & -> & _). exact I.
  - unfold GetRootCollections. enter_operation. built_request.
    apply send_and_parse_value_or_error.
  - unfold GetChildCollections. enter_operation. built_request.
    apply send_and_parse_value_or_error.
  - unfold GetCollection. enter_operation. built_request.
    apply send_and_parse_value_or_error.
  - unfold CreateCollection. enter_operation. built_request.
    apply send_and_parse_value_or_error.
  - unfold CreateSimpleRaindrop. enter_operation.
    destruct (http_Get net link w) as [[got | v] w1]; [| exact I].
    apply with_defer_value_or_error.
    destruct (http.reply_response got) as [r|]; [| exact I].
    cbv [mret M_ret ret]. cbv beta iota.
    built_request. apply send_and_parse_value_or_error.
  - unfold GetRaindrops. enter_operation. built_request.
    apply send_and_parse_value_or_error.
  - unfold GetTags. enter_operation. built_request.
    apply send_and_parse_value_or_error.
  - unfold GetTaggedRaindrops. enter_operation. built_request.
    apply send_and_parse_value_or_error.
  - unfold GetAccessToken. enter_operation. built_request.
    apply send_and_parse_value_or_error.
  - unfold RefreshAccessToken. enter_operation. built_request.
    apply send_and_parse_value_or_error.
Qed.

(** ** [parseResponse] and the body of the response *)

(** X10.  [parseResponse] closes the body of the response exactly once, as
    the last thing it does, on every path: after the status-mismatch error,
    after a decoding that worked or failed, and also when the reading of
    the body fails and the function panics.  The body is read, once, only
    when the status is the expected one or 400.  What [Close] returns plays
    no part in the outcome. *)
Theorem parseResponse_closes_body {T : Type} `{json.Unmarshal T}
    (status expectedStatus : Z) (data : string)
    (read_error close_error : option error) (clazz : option T) (w : World) :
  let body :=
    {| http.data := data; http.read_error := read_error;
       http.close_error := close_error |} in
  let response := {| http.StatusCode := status; http.Body := body |} in
  trace (snd (parseResponse response expectedStatus clazz w))
  = (trace w
     ++ (if (status =? expectedStatus) || (status =? 400)
         then [Ev_ReadAll body; Ev_Close body]
         else [Ev_Close body]))%list
  /\ fst (parseResponse response expectedStatus clazz w)
     = fst (parseResponse
              {| http.StatusCode := status;
                 http.Body :=
                   {| http.data := data; http.read_error := read_error;
                      http.close_error := None |} |}
              expectedStatus clazz w).
Proof.
  intros body response.
  destruct ((status =? expectedStatus) || (status =? 400)) eqn:Hst.
  - assert (forall ce,
              accepted
                {| http.StatusCode := status;
                   http.Body :=
                     {| http.data := data; http.read_error := read_error;
                        http.close_error := ce |} |} expectedStatus)
      as Hacc.
    { intros ce. unfold accepted. simpl.
      apply orb_true_iff in Hst as [Hst | Hst]; apply Z.eqb_eq in Hst; auto. }
    subst response body. rewrite !parseResponse_accepted by apply Hacc.
    simpl. split; [| reflexivity]. now rewrite <- app_assoc.
  - apply orb_false_iff in Hst as [H1 H2].
    apply Z.eqb_neq in H1, H2.
    subst response body.
    rewrite !parseResponse_unexpected by (simpl; assumption).
    split; reflexivity.
Qed.

(** ** The stored endpoints *)

Lemma preserves_urls_ePrintln (s : string) : preserves_urls (ePrintln s).
Proof.
  unfold ePrintln. apply preserves_urls_bind;
    [apply preserves_urls_log_stderr
    | intros _; apply preserves_urls_log_stderr].
Qed.

Lemma further_operations_preserve_urls (net : http.Network) (c : Client)
    (accessToken : string) (ctx : option context.Context) :
  preserves_urls (GetRootCollections net c accessToken ctx)
  /\ preserves_urls (GetChildCollections net c accessToken ctx)
  /\ (forall id, preserves_urls (GetCollection net c accessToken id ctx))
  /\ (forall collectionID perpage,
        preserves_urls
          (GetRaindrops net c accessToken collectionID perpage ctx))
  /\ preserves_urls (GetTags net c accessToken ctx)
  /\ (forall userCode, preserves_urls (GetAccessToken net c userCode ctx))
  /\ (forall refreshToken,
        preserves_urls (RefreshAccessToken net c refreshToken ctx))
  /\ (forall rw r, preserves_urls (GetAuthorizationCodeHandler c rw r)).
Proof.
  repeat split; intros.
  - unfold GetRootCollections. repeat preserves_urls_step.
  - unfold GetChildCollections. repeat preserves_urls_step.
  - unfold GetCollection. repeat preserves_urls_step.
  - unfold GetRaindrops. repeat preserves_urls_step.
  - unfold GetTags. repeat preserves_urls_step.
  - unfold GetAccessToken. repeat preserves_urls_step.
  - unfold RefreshAccessToken. repeat preserves_urls_step.
  - unfold GetAuthorizationCodeHandler.
    destruct (GetAuthorizationCode c r) as [[code [err|]] | v];
      [| | apply preserves_urls_panic];
      destruct (http.ResponseWriter_Write _ _) as [rw' [err'|]];
      repeat first [apply preserves_urls_ePrintln | preserves_urls_step].
Qed.

Lemma configured_preserved {A : Type} (m : M World A) (c : Client)
    (w : World) :
  preserves_urls m -> configured c w -> configured c (snd (m w)).
Proof.
  intros Hm [Hapi [p Hauth]]. unfold configured, api_configured,
    auth_configured. rewrite (Hm w). split; [exact Hapi | now exists p].
Qed.

Lemma configured_distinct (c : Client) (w : World) :
  configured c w -> apiURL c <> authURL c.
Proof.
  intros [Hapi [p Hauth]] Heq. unfold api_configured in Hapi.
  rewrite Heq, Hauth in Hapi.
  rewrite parsed_apiHost, parsed_authHost in Hapi. discriminate Hapi.
Qed.

(** X11.  The two endpoints stay in place.  For a client whose API
    endpoint is [https://api.raindrop.io] and whose auth endpoint is
    [https://raindrop.io] with any path, every operation leaves the API
    endpoint as it is and the auth endpoint as it is up to its path, whatever
    the network answers and whether the operation returns or panics.  That
    includes [GetAuthorizationURL], the one operation that writes to a stored
    URL: it changes nothing but the path of the auth endpoint. *)
Theorem client_stays_configured (net : http.Network)
    (GetHtmlTitle : http.ReadCloser -> string * bool) (c : Client)
    (accessToken collectionID tag userCode refreshToken view title link
       : string)
    (id perpage sort parentId : Z) (isRoot public : bool)
    (cover tagIDs : option (list string)) (ctx : option context.Context)
    (rw : http.ResponseWriter) (r : http.Request) (w : World) :
  configured c w ->
  configured c (snd (GetAuthorizationURL c w))
  /\ configured c (snd (GetRootCollections net c accessToken ctx w))
  /\ configured c (snd (GetChildCollections net c accessToken ctx w))
  /\ configured c (snd (GetCollection net c accessToken id ctx w))
  /\ configured c
       (snd (CreateCollection net c accessToken isRoot view title sort public
               parentId cover ctx w))
  /\ configured c
       (snd (CreateSimpleRaindrop net GetHtmlTitle c accessToken link ctx w))
  /\ configured c
       (snd (GetRaindrops net c accessToken collectionID perpage ctx w))
  /\ configured c (snd (GetTags net c accessToken ctx w))
  /\ configured c (snd (DeleteTags net c accessToken ctx tagIDs w))
  /\ configured c (snd (GetTaggedRaindrops net c accessToken tag ctx w))
  /\ configured c (snd (GetAccessToken net c userCode ctx w))
  /\ configured c (snd (RefreshAccessToken net c refreshToken ctx w))
  /\ configured c (snd (GetAuthorizationCodeHandler c rw r w)).
Proof.
  intros Hc.
  destruct (operations_preserve_urls net GetHtmlTitle c accessToken ctx)
    as (H1 & H2 & H3 & H4).
  destruct (further_operations_preserve_urls net c accessToken ctx)
    as (H5 & H6 & H7 & H8 & H9 & H10 & H11 & H12).
  split_operations;
    try solve [apply configured_preserved; [| exact Hc]; auto].
  pose proof (configured_distinct c w Hc) as Hne.
  destruct Hc as [Hapi [p Hauth]].
  destruct (GetAuthorizationURL_run c w _ Hauth) as (w' & -> & Hnew & Hrest).
  split.
  - unfold api_configured. simpl. rewrite Hrest by exact Hne. exact Hapi.
  - eexists. simpl. rewrite Hnew. reflexivity.
Qed.

Lemma client_stays_configured_witness :
  configured example_client
    (snd (GetAuthorizationURL example_client example_world))
  /\ configured example_client
       (snd (GetAccessToken offline example_client "code" None
               (snd (GetAuthorizationURL example_client example_world)))).
Proof.
  assert (configured example_client example_world) as Hc
      by (split; [reflexivity | exists ""; reflexivity]).
  pose proof (client_stays_configured offline no_title example_client
                "token" "0" "recipe" "code" "refresh" "list" "Books"
                "http://example.com/" 7 50 0 0 true false None None None
                {| http.rw_Header := ∅; http.rw_written := "";
                   http.rw_write_error := None |}
                (inbound_request "/callback?code=x") example_world Hc)
    as Hfirst.
  split; [exact (proj1 Hfirst) |].
  exact (proj1 (proj2 (proj2 (proj2 (proj2 (proj2 (proj2 (proj2 (proj2
    (proj2 (proj2
      (client_stays_configured offline no_title example_client
         "token" "0" "recipe" "code" "refresh" "list" "Books"
         "http://example.com/" 7 50 0 0 true false None None None
         {| http.rw_Header := ∅; http.rw_written := "";
            http.rw_write_error := None |}
         (inbound_request "/callback?code=x")
         (snd (GetAuthorizationURL example_client example_world))
         (proj1 Hfirst))))))))))))).
Defined.

(** X12.  [NewClient] never fails: for every identifier, secret and
    redirect URI, and in every world, it returns a client and a [nil]
    error.  The client holds the three texts as given and an empty
    authorization code, and its two endpoints are in place.  The URLs that
    were stored before are not touched, so clients made earlier keep their
    endpoints; nothing is sent and nothing is printed. *)
Theorem NewClient_makes_client (id secret redirect : string) (w : World) :
  exists c w',
    NewClient id secret redirect w = (Returned (Some c, None), w')
    /\ configured c w'
    /\ clientId c = id /\ clientSecret c = secret
    /\ redirectUri c = redirect /\ ClientCode c = ""
    /\ urls w ⊆ urls w'
    /\ (forall c0, configured c0 w -> configured c0 w')
    /\ trace w' = trace w /\ stderr w' = stderr w.
Proof.
  unfold NewClient.
  change (url.Parse authHost) with (Ok (parsed authHost)).
  change (url.Parse apiHost) with (Ok (parsed apiHost)).
  cbv [mbind M_bind bind mret M_ret ret new_URL].
  set (auth := fresh (dom (urls w))).
  set (api := fresh (dom (<[auth := parsed authHost]> (urls w)))).
  assert (urls w !! auth = None) as Hauth
      by (apply not_elem_of_dom; apply is_fresh).
  assert (api <> auth) as Hne.
  { intros Heq.
    pose proof (is_fresh (dom (<[auth := parsed authHost]> (urls w))))
      as Hfresh.
    fold api in Hfresh. rewrite Heq in Hfresh. apply Hfresh.
    rewrite dom_insert_L. set_solver. }
  assert (urls w !! api = None) as Hapi.
  { apply not_elem_of_dom. intros Hin.
    pose proof (is_fresh (dom (<[auth := parsed authHost]> (urls w))))
      as Hfresh.
    fold api in Hfresh. apply Hfresh. rewrite dom_insert_L. set_solver. }
  assert (urls w
          ⊆ <[api := parsed apiHost]> (<[auth := parsed authHost]> (urls w)))
    as Hsub.
  { etrans; [apply (insert_subseteq _ auth (parsed authHost) Hauth) |].
    apply insert_subseteq. now rewrite lookup_insert_ne. }
  eexists. eexists. split; [reflexivity |]. simpl.
  split.
  { split.
    - unfold api_configured. simpl. apply lookup_insert_eq.
    - exists "". simpl. rewrite lookup_insert_ne by exact Hne.
      rewrite lookup_insert_eq. reflexivity. }
  do 4 (split; [reflexivity |]).
  split; [exact Hsub |].
  split; [| split; reflexivity].
  intros c0 [H0 [p Hp]]. split.
  - unfold api_configured in *. simpl.
    eapply lookup_weaken; [exact H0 | exact Hsub].
  - exists p. simpl. eapply lookup_weaken; [exact Hp | exact Hsub].
Qed.

(** X13.  The token operations.  With the auth endpoint in place, whatever
    its path ([GetAuthorizationURL] may have changed it), [GetAccessToken]
    and [RefreshAccessToken] each hand exactly one request to the transport:
    a POST of [/oauth/access_token] on [https://raindrop.io], without query,
    with the [Content-Type] header and no [Authorization] header.  The body
    of the first is the JSON object with the members [code], [client_id],
    [client_secret], [redirect_uri] and [grant_type], in this order; that of
    the second has [client_id], [client_secret], [grant_type] and
    [refresh_token].  Every member is there even when its text is empty, and
    the grant type is [authorization_code] in both. *)
Theorem token_requests (net : http.Network) (c : Client)
    (userCode refreshToken : string) (ctx : option context.Context)
    (w : World) :
  auth_configured c w ->
  let token_request body :=
    {| http.Method := "POST";
       http.URL := url.set_Path "/oauth/access_token" (parsed authHost);
       http.Header := {[ "Content-Type" := ["application/json"] ]};
       http.Request_Body := json.render (json.JObject body) +:+ newline;
       http.Request_ctx := default context.Background ctx;
       http.Request_Response := None |} in
  requests (snd (GetAccessToken net c userCode ctx w))
  = (requests w
     ++ [token_request
           [("code", json.JString userCode);
            ("client_id", json.JString (clientId c));
            ("client_secret", json.JString (clientSecret c));
            ("redirect_uri", json.JString (redirectUri c));
            ("grant_type", json.JString "authorization_code")]])%list
  /\ requests (snd (RefreshAccessToken net c refreshToken ctx w))
     = (requests w
        ++ [token_request
              [("client_id", json.JString (clientId c));
               ("client_secret", json.JString (clientSecret c));
               ("grant_type", json.JString "authorization_code");
               ("refresh_token", json.JString refreshToken)]])%list.
Proof.
  intros Hc token_request. subst token_request.
  rewrite GetAccessToken_run, RefreshAccessToken_run by exact Hc.
  rewrite !send_and_parse_sends.
  assert (http.Header_Add "Content-Type" "application/json" ∅
          = {[ "Content-Type" := ["application/json"] ]}) as Hh.
  { unfold http.Header_Add. rewrite lookup_empty. simpl.
    now rewrite insert_empty. }
  unfold request_for. cbn [is_empty id]. rewrite Hh.
  split; reflexivity.
Qed.

Lemma token_requests_witness :
  let w := snd (GetAuthorizationURL example_client example_world) in
  exists req,
    requests (snd (GetAccessToken offline example_client "" None w)) = [req]
    /\ url.String_ (http.URL req) = "https://raindrop.io/oauth/access_token"
    /\ http.Header req !! "Authorization" = None
    /\ http.Request_Body req
       = "{" +:+ quoted "code" +:+ ":" +:+ quoted "" +:+ ","
         +:+ quoted "client_id" +:+ ":" +:+ quoted "id" +:+ ","
         +:+ quoted "client_secret" +:+ ":" +:+ quoted "secret" +:+ ","
         +:+ quoted "redirect_uri" +:+ ":" +:+ quoted "http://localhost/cb"
         +:+ ","
         +:+ quoted "grant_type" +:+ ":" +:+ quoted "authorization_code"
         +:+ "}" +:+ newline.
Proof.
  intros w.
  assert (auth_configured example_client w) as Hc.
  { exists "/oauth/authorize?client_id=id&redirect_uri=http:/localhost/cb".
    vm_compute. reflexivity. }
  destruct (token_requests offline example_client "" "refresh" None w Hc)
    as [Hsent _].
  eexists. split; [exact Hsent |].
  split; [vm_compute; reflexivity |].
  split; [vm_compute; reflexivity | vm_compute; reflexivity].
Defined.

(** ** [GetAuthorizationURL] *)

Lemma escape_path_byte (c : ascii) :
  url.mem_byte "?" (url.escape (String c "") url.encodePath) = false.
Proof. destruct c as [[] [] [] [] [] [] [] []]; reflexivity. Qed.

(** No question mark is left in an escaped path. *)
Lemma escape_path_question (s : string) :
  url.mem_byte "?" (url.escape s url.encodePath) = false.
Proof.
  induction s as [|c s IH]; [reflexivity |].
  now rewrite escape_cons, mem_byte_app, escape_path_byte, IH.
Qed.

Lemma Sprintf_authorizeUri (id redirect : string) :
  fmt.Sprintf authorizeUri [id; redirect]
  = "/oauth/authorize?client_id=" +:+ id +:+ "&redirect_uri=" +:+ redirect.
Proof.
  unfold authorizeUri. simpl. now rewrite append_empty_r.
Qed.

(** The printed form of an auth endpoint with a rooted path. *)
Lemma String_auth_path (p : string) :
  url.String_ (url.set_Path ("/" +:+ p) (parsed authHost))
  = "https://raindrop.io" +:+ url.escape ("/" +:+ p) url.encodePath.
Proof.
  rewrite parsed_authHost.
  unfold url.String_, url.EscapedPath, url.set_Path.
  cbn [url.Scheme url.Opaque url.Host url.Path url.RawPath url.ForceQuery
       url.RawQuery url.Fragment url.RawFragment is_empty negb andb orb].
  change (("/" +:+ p =? "*")%string) with false. cbv iota.
  change (url.escape ("/" +:+ p) url.encodePath)
    with (String "/" (url.escape p url.encodePath)).
  simpl. now rewrite !append_empty_r.
Qed.

(** X14.  [GetAuthorizationURL] never fails, and the URL it returns has no
    query: for a client whose auth endpoint is in place it is
    [https://raindrop.io] with the whole text
    [/oauth/authorize?client_id=<id>&redirect_uri=<uri>], cleaned as a
    path, in [Path], and an empty [RawQuery].  So the URL has no query
    parameter at all, and its printed form has no question mark: the one
    of the format is escaped with the rest of the path. *)
Theorem GetAuthorizationURL_without_query (c : Client) (w : World) :
  auth_configured c w ->
  exists u w',
    GetAuthorizationURL c w = (Returned (u, None), w')
    /\ url.Scheme u = "https" /\ url.Host u = "raindrop.io"
    /\ url.Path u
       = path.Clean ("/oauth/authorize?client_id=" +:+ clientId c
                     +:+ "&redirect_uri=" +:+ redirectUri c)
    /\ url.RawQuery u = ""
    /\ url.Query u = ∅
    /\ url.mem_byte "?" (url.String_ u) = false.
Proof.
  intros [p Hp].
  destruct (GetAuthorizationURL_run c w _ Hp) as (w' & Hrun & _).
  rewrite Sprintf_authorizeUri in Hrun.
  change (path.Join
            ["/oauth/authorize?client_id=" +:+ clientId c
             +:+ "&redirect_uri=" +:+ redirectUri c])
    with (path.Clean
            ("/oauth/authorize?client_id=" +:+ clientId c
             +:+ "&redirect_uri=" +:+ redirectUri c)) in Hrun.
  eexists. exists w'. split; [exact Hrun |].
  split; [rewrite parsed_authHost; reflexivity |].
  split; [rewrite parsed_authHost; reflexivity |].
  split; [reflexivity |].
  split; [rewrite parsed_authHost; reflexivity |].
  split; [apply Query_empty; rewrite parsed_authHost; reflexivity |].
  change (url.set_Path ?x (url.set_Path p ?v)) with (url.set_Path x v).
  change (path.Clean
            ("/oauth/authorize?client_id=" +:+ clientId c
             +:+ "&redirect_uri=" +:+ redirectUri c))
    with ("/" +:+ join "/"
                    (path.clean_elems true []
                       (split "/"
                          ("/oauth/authorize?client_id=" +:+ clientId c
                           +:+ "&redirect_uri=" +:+ redirectUri c)))).
  rewrite String_auth_path, mem_byte_app, escape_path_question.
  reflexivity.
Qed.

Lemma GetAuthorizationURL_without_query_witness :
  exists u w',
    GetAuthorizationURL example_client example_world = (Returned (u, None), w')
    /\ url.Scheme u = "https" /\ url.Host u = "raindrop.io"
    /\ url.Path u
       = path.Clean ("/oauth/authorize?client_id=" +:+ "id"
                     +:+ "&redirect_uri=" +:+ "http://localhost/cb")
    /\ url.RawQuery u = ""
    /\ url.Query u = ∅
    /\ url.mem_byte "?" (url.String_ u) = false.
Proof.
  apply (GetAuthorizationURL_without_query example_client example_world).
  exists "". reflexivity.
Defined.

(** X15.  A second call of [GetAuthorizationURL] changes nothing more: it
    returns what the first call returned and leaves the world as the first
    call left it. *)
Theorem GetAuthorizationURL_idempotent (c : Client) (w : World) :
  GetAuthorizationURL c (snd (GetAuthorizationURL c w))
  = GetAuthorizationURL c w.
Proof.
  unfold GetAuthorizationURL.
  set (x := path.Join _).
  cbv [mbind M_bind bind mret M_ret ret store_Path load_URL].
  destruct (urls w !! authURL c) as [u|] eqn:Hu.
  - unfold set_urls. simpl. rewrite !lookup_insert_eq. simpl.
    rewrite !lookup_insert_eq, insert_insert_eq. simpl.
    rewrite lookup_insert_eq. reflexivity.
  - simpl. rewrite Hu. reflexivity.
Qed.

Lemma split_elements (sep : ascii) (s : string) :
  Forall (fun e => url.mem_byte sep e = false) (split sep s).
Proof.
  induction s as [|c s IH]; [repeat constructor |].
  simpl. destruct (Ascii.eqb c sep) eqn:Hc.
  - constructor; [reflexivity | exact IH].
  - destruct (split sep s) as [|x xs]; [repeat constructor |].
    + unfold url.mem_byte, string_existsb. simpl.
      rewrite Ascii.eqb_sym, Hc. reflexivity.
    + inversion IH as [|? ? Hx Hxs]; subst. constructor; [| exact Hxs].
      unfold url.mem_byte, string_existsb in *. simpl.
      rewrite Ascii.eqb_sym, Hc. exact Hx.
Qed.

(** What [path.Clean] keeps of the elements of a path: elements that are
    not empty and have no slash. *)
Lemma clean_elems_elements_kept (rooted : bool) (elems stack : list string) :
  Forall (fun e => url.mem_byte "/" e = false) elems ->
  Forall (fun e => is_empty e = false /\ url.mem_byte "/" e = false) stack ->
  Forall (fun e => is_empty e = false /\ url.mem_byte "/" e = false)
    (path.clean_elems rooted stack elems).
Proof.
  intros Hel. revert stack.
  induction Hel as [|e rest He Hrest IH]; intros stack Hst.
  - simpl. now apply Forall_rev.
  - cbn [path.clean_elems].
    destruct (String.eqb e "" || String.eqb e ".") eqn:H1; [now apply IH |].
    assert (is_empty e = false) as Hne
        by (destruct e; [discriminate | reflexivity]).
    destruct (String.eqb e "..").
    + destruct stack as [|top below].
      * destruct rooted; apply IH; [constructor |].
        constructor; [split; assumption | constructor].
      * inversion Hst as [|? ? Htop Hbelow]; subst.
        destruct (String.eqb top ".."); apply IH; [| exact Hbelow].
        constructor; [split; assumption | exact Hst].
    + apply IH. constructor; [split |]; assumption.
Qed.

Lemma double_slash_app (e r : string) :
  url.mem_byte "/" e = false -> double_slash (e +:+ r) = double_slash r.
Proof.
  rewrite mem_byte_false. induction e as [|c e IH]; [reflexivity |].
  cbn [string_forallb]. intros [Hc He]%andb_true_iff.
  apply negb_true_iff in Hc. rewrite Ascii.eqb_sym in Hc.
  change (double_slash (String c (e +:+ r)) = double_slash r).
  cbn [double_slash]. rewrite Hc. cbn [andb orb]. now apply IH.
Qed.

Lemma double_slash_join (l : list string) :
  Forall (fun e => is_empty e = false /\ url.mem_byte "/" e = false) l ->
  double_slash ("/" +:+ join "/" l) = false.
Proof.
  induction 1 as [|e rest [Hne He] Hrest IH]; [reflexivity |].
  assert (join "/" (e :: rest)
          = e +:+ match rest with
                  | [] => ""
                  | _ => "/" +:+ join "/" rest
                  end) as ->
      by (destruct rest; [symmetry; apply append_empty_r | reflexivity]).
  destruct e as [|c e]; [discriminate Hne |].
  change ("/" +:+ String c e +:+ ?r) with (String "/" (String c (e +:+ r))).
  cbn [double_slash].
  assert (Ascii.eqb c "/" = false) as Hc.
  { apply mem_byte_false in He. simpl in He.
    apply andb_true_iff in He as [Hc _]. apply negb_true_iff in Hc.
    now rewrite Ascii.eqb_sym. }
  rewrite Hc. cbn [andb orb].
  assert (url.mem_byte "/" e = false) as He'.
  { apply mem_byte_false in He. simpl in He.
    apply andb_true_iff in He as [_ He]. now apply mem_byte_false. }
  rewrite andb_false_r. cbn [orb].
  rewrite double_slash_app by exact He'.
  destruct rest; [reflexivity | exact IH].
Qed.

(** A rooted path that [path.Clean] returns has no two slashes in a row. *)
Lemma Clean_double_slash (s : string) :
  double_slash (path.Clean (String "/" s)) = false.
Proof.
  unfold path.Clean. change (Ascii.eqb "/" "/") with true. cbv iota zeta.
  apply double_slash_join, clean_elems_elements_kept;
    [apply split_elements | constructor].
Qed.

(** X16.  The path of the URL that [GetAuthorizationURL] returns has been
    through [path.Join]: it never has two slashes in a row, whatever the
    client identifier and the redirect URI are.  A redirect URI that has
    them, as every [http://] URI does, is not in the result as it was
    given. *)
Theorem GetAuthorizationURL_collapses_slashes (c : Client) (w : World) :
  auth_configured c w ->
  exists u w',
    GetAuthorizationURL c w = (Returned (u, None), w')
    /\ double_slash (url.Path u) = false.
Proof.
  intros [p Hp].
  destruct (GetAuthorizationURL_run c w _ Hp) as (w' & Hrun & _).
  eexists. exists w'. split; [exact Hrun |].
  rewrite Sprintf_authorizeUri. apply Clean_double_slash.
Qed.

Lemma GetAuthorizationURL_collapses_slashes_witness :
  double_slash (redirectUri example_client) = true
  /\ exists u w',
       GetAuthorizationURL example_client example_world
       = (Returned (u, None), w')
       /\ double_slash (url.Path u) = false.
Proof.
  split; [reflexivity |].
  apply (GetAuthorizationURL_collapses_slashes example_client example_world).
  exists "". reflexivity.
Defined.

(** ** [GetAuthorizationCodeHandler] *)

Lemma Sprintf_authorized (code : string) :
  fmt.Sprintf "<h1>You've been authorized</h1><p>%s</p>" [code]
  = "<h1>You've been authorized</h1><p>" +:+ code +:+ "</p>".
Proof. reflexivity. Qed.

Lemma ResponseWriter_page (rw : http.ResponseWriter) (text : string) :
  http.rw_write_error rw = None ->
  http.ResponseWriter_Write text
    (http.ResponseWriter_Set "Content-Type" "text/html" rw)
  = ({| http.rw_Header :=
          <["Content-Type" := ["text/html"]]> (http.rw_Header rw);
        http.rw_written := http.rw_written rw +:+ text;
        http.rw_write_error := None |}, None).
Proof.
  intros Hw. unfold http.ResponseWriter_Write, http.ResponseWriter_Set.
  simpl. rewrite Hw, canonical_Content_Type. reflexivity.
Qed.

(** X17.  The handler of the redirect, for a request whose [code]
    parameter is not empty and a writer that works: the response gets the
    header [Content-Type: text/html] (any earlier value is replaced) and the
    page [<h1>You've been authorized</h1><p>CODE</p>] after what was
    written before, the code standing in it byte for byte, without HTML
    escaping; the client keeps the code in [ClientCode]; nothing is printed
    and nothing is sent. *)
Theorem GetAuthorizationCodeHandler_stores_code (c : Client)
    (rw : http.ResponseWriter) (r : http.Request) (w : World) :
  url.Values_Get (url.Query (http.URL r)) "code" <> "" ->
  http.rw_write_error rw = None ->
  let code := url.Values_Get (url.Query (http.URL r)) "code" in
  GetAuthorizationCodeHandler c rw r w
  = (Returned
       (set_ClientCode code c,
        {| http.rw_Header :=
             <["Content-Type" := ["text/html"]]> (http.rw_Header rw);
           http.rw_written :=
             http.rw_written rw
             +:+ ("<h1>You've been authorized</h1><p>" +:+ code +:+ "</p>");
           http.rw_write_error := None |}), w).
Proof.
  intros Hcode Hw code. subst code. unfold GetAuthorizationCodeHandler.
  rewrite GetAuthorizationCode_code by exact Hcode.
  rewrite ResponseWriter_page by exact Hw. rewrite Sprintf_authorized.
  reflexivity.
Qed.

Lemma GetAuthorizationCodeHandler_stores_code_witness :
  GetAuthorizationCodeHandler example_client
    {| http.rw_Header := ∅; http.rw_written := "";
       http.rw_write_error := None |}
    (inbound_request "/callback?code=%3Cb%3Ex") example_world
  = (Returned
       (set_ClientCode "<b>x" example_client,
        {| http.rw_Header := {[ "Content-Type" := ["text/html"] ]};
           http.rw_written :=
             "<h1>You've been authorized</h1><p><b>x</p>";
           http.rw_write_error := None |}), example_world).
Proof.
  rewrite (GetAuthorizationCodeHandler_stores_code example_client
             {| http.rw_Header := ∅; http.rw_written := "";
                http.rw_write_error := None |}
             (inbound_request "/callback?code=%3Cb%3Ex") example_world);
    [| vm_compute; discriminate | reflexivity].
  vm_compute. reflexivity.
Defined.

(** X18.  The handler of the redirect, for a request without [code] and
    with an [error] parameter, as the service sends when the user refuses:
    the page that is written still says [You've been authorized], with an
    empty paragraph; the client's [ClientCode] becomes empty, whatever it
    held; the error, with the text of the parameter, is printed to the
    standard error stream and goes nowhere else. *)
Theorem GetAuthorizationCodeHandler_on_refusal (c : Client)
    (rw : http.ResponseWriter) (r : http.Request) (w : World) :
  url.Values_Get (url.Query (http.URL r)) "code" = "" ->
  url.Values_Get (url.Query (http.URL r)) "error" <> "" ->
  http.rw_write_error rw = None ->
  GetAuthorizationCodeHandler c rw r w
  = (Returned
       (set_ClientCode "" c,
        {| http.rw_Header :=
             <["Content-Type" := ["text/html"]]> (http.rw_Header rw);
           http.rw_written :=
             http.rw_written rw +:+ "<h1>You've been authorized</h1><p></p>";
           http.rw_write_error := None |}),
     log_stderr
       (Fprintln ("Can't get authorization code: "
                  +:+ url.Values_Get (url.Query (http.URL r)) "error"))
       (log_stderr (Fprint "[raindrop-io-api-client] ") w)).
Proof.
  intros Hcode Herr Hw. unfold GetAuthorizationCodeHandler.
  rewrite GetAuthorizationCode_error by assumption.
  rewrite ResponseWriter_page by exact Hw. reflexivity.
Qed.

Lemma GetAuthorizationCodeHandler_on_refusal_witness :
  GetAuthorizationCodeHandler (set_ClientCode "earlier" example_client)
    {| http.rw_Header := ∅; http.rw_written := "";
       http.rw_write_error := None |}
    (inbound_request "/callback?error=access_denied") example_world
  = (Returned
       (example_client,
        {| http.rw_Header := {[ "Content-Type" := ["text/html"] ]};
           http.rw_written := "<h1>You've been authorized</h1><p></p>";
           http.rw_write_error := None |}),
     log_stderr (Fprintln "Can't get authorization code: access_denied")
       (log_stderr (Fprint "[raindrop-io-api-client] ") example_world)).
Proof.
  rewrite (GetAuthorizationCodeHandler_on_refusal
             (set_ClientCode "earlier" example_client)
             {| http.rw_Header := ∅; http.rw_written := "";
                http.rw_write_error := None |}
             (inbound_request "/callback?error=access_denied")
             example_world);
    [| vm_compute; reflexivity | vm_compute; discriminate | reflexivity].
  vm_compute. reflexivity.
Defined.

(** ** [CreateSimpleRaindrop] *)

(** X19.  [CreateSimpleRaindrop], when the GET of the link yields a
    response: the bookmark is posted to [/rest/v1/raindrop] on the API host
    with the link as given and, as its title, the title found in the page
    or, when none is found, the placeholder [Fail to get HTML title]; the
    outcome is that of this exchange, a panic of it included.  The body of
    the page is closed once, after the exchange, whatever the outcome; when
    closing fails, the error is printed and nothing else happens.  The
    bookmark that is posted is the object with the members [pleaseParse]
    (an empty object), [collection] (the zero collection, never left out),
    [title] (left out when a title was found and is empty) and [link]. *)
Theorem CreateSimpleRaindrop_posts_title (net : http.Network)
    (GetHtmlTitle : http.ReadCloser -> string * bool) (c : Client)
    (accessToken link : string) (ctx : option context.Context) (w w1 : World)
    (got : http.reply) (page : http.Response) (val : string) (ok : bool) :
  api_configured c w ->
  http_Get net link w = (Returned got, w1) ->
  http.reply_response got = Some page ->
  GetHtmlTitle (http.Body page) = (val, ok) ->
  let title := if ok then val else "Fail to get HTML title" in
  let raindrop :=
    {| Raindrop_PleaseParse := Build_pleaseParse;
       Raindrop_Created := "";
       Raindrop_LastUpdate := "";
       Raindrop_Order := 0;
       Raindrop_Tags := None;
       Raindrop_Media := None;
       Raindrop_Cover := "";
       Raindrop_Collection := zero_Collection;
       Raindrop_Type := "";
       Raindrop_HTML := "";
       Raindrop_Excerpt := "";
       Raindrop_Title := title;
       Raindrop_Link := link |} in
  let exchange :=
    send_and_parse net
      (request_for accessToken "POST"
         (url.set_Path "/rest/v1/raindrop" (parsed apiHost))
         (json.render (json.marshal raindrop) +:+ newline) ctx)
      (Some zero_SingleRaindropResponse) w1 in
  let closed := log_event (Ev_Close (http.Body page)) (snd exchange) in
  CreateSimpleRaindrop net GetHtmlTitle c accessToken link ctx w
  = (fst exchange,
     match http.close_error (http.Body page) with
     | None => closed
     | Some err =>
         log_stderr
           (Fprintf
              ("Can't close response's Body in CreateSimpleRaindrop: %v"
               +:+ newline) [[err]])
           (log_stderr (Fprint "[raindrop-io-api-client] ") closed)
     end)
  /\ json.marshal raindrop
     = json.JObject
         ([("pleaseParse", json.JObject []);
           ("collection", json.marshal zero_Collection)]
          ++ (if is_empty title then [] else [("title", json.JString title)])
          ++ [("link", json.JString link)])%list.
Proof.
  intros Hc Hget Hpage Htitle title raindrop exchange closed.
  split; [| subst raindrop; destruct title; reflexivity].
  unfold CreateSimpleRaindrop.
  unfold mbind at 1, M_bind, bind at 1. rewrite (load_api c w Hc).
  unfold mbind at 1, M_bind, bind at 1. rewrite Hget. cbv beta iota zeta.
  rewrite Hpage. unfold with_defer.
  match goal with
  | |- context [(mret ?b ≫= ?k) w1] =>
      change ((mret b ≫= k) w1) with (k b w1)
  end.
  cbv beta. rewrite Htitle.
  change (path.Join [endpointRaindrop]) with ("/" +:+ "rest/v1/raindrop").
  rewrite newRequest_api by reflexivity.
  change (body_text (Some (Any ?r)))
    with (json.render (json.marshal r) +:+ newline).
  match goal with
  | |- (let '(r, s1) := ?e in _) = _ => change e with exchange
  end.
  subst closed. clearbody exchange. destruct exchange as [r s1].
  cbv [Body_Close ePrintf mbind M_bind bind mret M_ret ret modify].
  destruct (http.close_error (http.Body page)); reflexivity.
Qed.

Lemma CreateSimpleRaindrop_posts_title_witness :
  let net :=
    answering {| http.StatusCode := 200; http.Body := readable "null" |} in
  let run :=
    CreateSimpleRaindrop net (fun _ => ("Example Domain", true))
      example_client "token" "https://example.com/" None example_world in
  fst run = Returned (None, None)
  /\ map http.Method (requests (snd run)) = ["GET"; "POST"]
  /\ body_events (snd run)
     = [Ev_ReadAll (readable "null"); Ev_Close (readable "null");
        Ev_Close (readable "null")].
Proof.
  intros net run. subst run.
  destruct (CreateSimpleRaindrop_posts_title net
              (fun _ => ("Example Domain", true)) example_client "token"
              "https://example.com/" None example_world
              (snd (http_Get net "https://example.com/" example_world))
              (http.Reply
                 {| http.StatusCode := 200; http.Body := readable "null" |})
              {| http.StatusCode := 200; http.Body := readable "null" |}
              "Example Domain" true eq_refl eq_refl eq_refl eq_refl)
    as [Hrun _].
  rewrite Hrun. vm_compute. repeat split.
Defined.

(** ** Encoding and decoding *)

(** [strconv.ParseInt] reads back what [strconv.Itoa] printed. *)
Lemma ParseInt_Itoa (z bits : Z) :
  - 2 ^ (bits - 1) <= z < 2 ^ (bits - 1) ->
  strconv.ParseInt (strconv.Itoa z) bits = Some z.
Proof.
  intros [Hlo Hhi]. unfold strconv.ParseInt, strconv.Itoa.
  rewrite NilZero.isi.
  - rewrite DecimalZ.of_to.
    apply Z.leb_le in Hlo. apply Z.ltb_lt in Hhi. now rewrite Hlo, Hhi.
  - destruct z; simpl; intros [= Heq]; try discriminate;
      now apply DecimalPos.Unsigned.to_uint_nonnil in Heq.
  - destruct z; simpl; intros [= Heq]; try discriminate;
      now apply DecimalPos.Unsigned.to_uint_nonnil in Heq.
Qed.

Lemma ParseUint_Itoa (z bits : Z) :
  0 <= z < 2 ^ bits ->
  strconv.ParseUint (strconv.Itoa z) bits = Some z.
Proof.
  intros [Hlo Hhi]. unfold strconv.ParseUint, strconv.Itoa.
  destruct z as [|p|p]; [| | lia].
  - change (NilZero.uint_of_string (NilZero.string_of_int (Z.to_int 0)))
      with (Some (Decimal.D0 Decimal.Nil)).
    cbv iota beta zeta.
    change (Z.of_uint (Decimal.D0 Decimal.Nil)) with 0.
    apply Z.ltb_lt in Hhi. now rewrite Hhi.
  - change (NilZero.string_of_int (Z.to_int (Z.pos p)))
      with (NilZero.string_of_uint (Pos.to_uint p)).
    rewrite NilZero.usu by apply DecimalPos.Unsigned.to_uint_nonnil.
    cbv iota beta zeta.
    unfold Z.of_uint. rewrite DecimalPos.Unsigned.of_to.
    apply Z.ltb_lt in Hhi. change (Z.of_N (N.pos p)) with (Z.pos p).
    now rewrite Hhi.
Qed.

Lemma decode_strings_back (l old : list string) :
  json.decode_elems "" json.decode_string (map json.JString l) old
  = (l, None).
Proof.
  revert old. induction l as [|x l IH]; intros old; [reflexivity |].
  simpl. now rewrite IH.
Qed.

(** Decoding the tree that encoding makes of a [createCollectionRequest]
    into a zero record gives back the same record. *)
Lemma createCollectionRequest_tree_round_trip (r : createCollectionRequest) :
  - 2 ^ 63 <= createCollectionRequest_Sort r < 2 ^ 63 ->
  0 <= createCollectionRequest_ParentId r < 2 ^ 32 ->
  createCollectionRequest_Cover r <> Some [] ->
  decode_createCollectionRequest (json.marshal r) zero_createCollectionRequest
  = (r, None).
Proof.
  destruct r as [view title sort public parent cover].
  cbn [createCollectionRequest_Sort createCollectionRequest_ParentId
       createCollectionRequest_Cover].
  intros Hsort Hparent Hcover.
  pose proof (ParseInt_Itoa sort 64 Hsort) as Hs.
  pose proof (ParseUint_Itoa parent 32 Hparent) as Hp.
  unfold decode_createCollectionRequest, json.decode_struct, json.marshal,
    Marshal_createCollectionRequest, zero_createCollectionRequest.
  cbn [createCollectionRequest_View createCollectionRequest_Title
       createCollectionRequest_Sort createCollectionRequest_Public
       createCollectionRequest_ParentId createCollectionRequest_Cover].
  destruct (Z.eqb_spec sort 0) as [-> | Hs0];
    destruct (Z.eqb_spec parent 0) as [-> | Hp0];
    destruct view as [|v0 view]; destruct title as [|t0 title];
    destruct public;
    destruct cover as [[|x cover]|]; try congruence;
    cbn -[strconv.ParseInt strconv.ParseUint strconv.Itoa
          json.decode_elems];
    rewrite ?Hs, ?Hp; cbn -[json.decode_elems];
    try change (json.marshal x :: map json.marshal cover)
      with (map json.JString (x :: cover));
    rewrite ?decode_strings_back; reflexivity.
Qed.

(** ** Reading back what the encoder wrote *)

Lemma length_app (a b : string) :
  String.length (a +:+ b) = (String.length a + String.length b)%nat.
Proof.
  induction a as [|c a IH]; [reflexivity |].
  change (S (String.length (a +:+ b))
          = S (String.length a + String.length b)).
  now rewrite IH.
Qed.

Lemma quote_body_cons (c : ascii) (r : string) :
  (byte_val c <? 0x80) = true ->
  json.quote_body 0 true (String c r)
  = json.quote_body 0 true (String c "") +:+ json.quote_body 0 true r.
Proof.
  destruct c as [[] [] [] [] [] [] [] []]; intros H;
    try discriminate H; reflexivity.
Qed.

Lemma scan_string_escaped (c : ascii) (t : string) (f : nat) :
  (byte_val c <? 0x80) = true ->
  json.scan_string (S f) (json.quote_body 0 true (String c "") +:+ t)
  = match json.scan_string f t with
    | Some (u, r) => Some (String c u, r)
    | None => None
    end.
Proof.
  destruct c as [[] [] [] [] [] [] [] []]; intros H;
    try discriminate H; reflexivity.
Qed.

Lemma escaped_length (c : ascii) :
  (byte_val c <? 0x80) = true ->
  (1 <= String.length (json.quote_body 0 true (String c "")))%nat.
Proof.
  destruct c as [[] [] [] [] [] [] [] []]; intros H;
    try discriminate H; vm_compute; repeat constructor.
Qed.

Lemma quote_body_length (s : string) :
  ascii_text s = true ->
  (String.length s <= String.length (json.quote_body 0 true s))%nat.
Proof.
  induction s as [|c s IH]; [constructor |].
  cbn [ascii_text string_forallb]. intros [Hc Hs]%andb_true_iff.
  rewrite quote_body_cons, length_app by exact Hc.
  pose proof (escaped_length c Hc). specialize (IH Hs).
  change (String.length (String c s)) with (S (String.length s)). lia.
Qed.

(** The scanner reads the text of a string of ASCII bytes back as the
    string. *)
Lemma scan_string_quoted (s rest : string) (f : nat) :
  ascii_text s = true ->
  (String.length s < f)%nat ->
  json.scan_string f (json.quote_body 0 true s +:+ String dquote rest)
  = Some (s, rest).
Proof.
  revert f. induction s as [|c s IH]; intros f Hs Hf.
  - destruct f as [|f]; [inversion Hf |]. reflexivity.
  - cbn [ascii_text string_forallb] in Hs.
    apply andb_true_iff in Hs as [Hc Hs].
    destruct f as [|f]; [inversion Hf |].
    rewrite quote_body_cons, append_assoc by exact Hc.
    rewrite scan_string_escaped by exact Hc.
    rewrite IH; [reflexivity | exact Hs |].
    change (String.length (String c s)) with (S (String.length s)) in Hf.
    lia.
Qed.

Lemma parse_value_string (s rest : string) (f : nat) (depth : Z) :
  ascii_text s = true ->
  json.parse_value (S f) depth (json.quote s +:+ rest)
  = Some (json.JString s, rest).
Proof.
  intros Hs. unfold json.quote.
  change (String dquote (json.quote_body 0 true s +:+ String dquote "")
          +:+ rest)
    with (String dquote
            ((json.quote_body 0 true s +:+ String dquote "") +:+ rest)).
  rewrite append_assoc.
  change (String dquote "" +:+ rest) with (String dquote rest).
  cbn [json.parse_value json.skip_ws].
  change (json.is_space dquote) with false. cbv iota.
  change (Ascii.eqb dquote "{") with false.
  change (Ascii.eqb dquote "[") with false.
  change (Ascii.eqb dquote dquote) with true. cbv iota.
  rewrite scan_string_quoted; [reflexivity | exact Hs |].
  rewrite length_app. pose proof (quote_body_length s Hs).
  change (String.length (String dquote rest))
    with (S (String.length rest)). lia.
Qed.

Lemma closes_value_cases (rest : string) :
  closes_value rest = true ->
  exists t, rest = String "," t \/ rest = String "}" t \/ rest = String "]" t.
Proof.
  destruct rest as [|c t]; [discriminate |]. simpl.
  intros H. exists t.
  destruct (Ascii.eqb_spec c ","); [left; congruence |].
  destruct (Ascii.eqb_spec c "}"); [right; left; congruence |].
  destruct (Ascii.eqb_spec c "]"); [right; right; congruence |].
  discriminate H.
Qed.

Lemma take_digits_uint (u : Decimal.uint) (rest : string) :
  closes_value rest = true ->
  json.take_digits (NilEmpty.string_of_uint u +:+ rest)
  = (NilEmpty.string_of_uint u, rest).
Proof.
  intros Hrest. induction u; cbn [NilEmpty.string_of_uint];
    try (change (String ?c ?a +:+ rest) with (String c (a +:+ rest));
         cbn [json.take_digits]; rewrite IHu; reflexivity).
  destruct (closes_value_cases rest Hrest) as (t & [-> | [-> | ->]]);
    reflexivity.
Qed.

(** A positive number is printed without a leading zero. *)
Lemma to_uint_head (p : positive) (u : Decimal.uint) :
  Pos.to_uint p <> Decimal.D0 u.
Proof.
  intros Heq.
  pose proof (DecimalPos.Unsigned.to_of (Pos.to_uint p)) as Hnorm.
  rewrite DecimalPos.Unsigned.of_to in Hnorm.
  change (N.to_uint (N.pos p)) with (Pos.to_uint p) in Hnorm.
  rewrite Heq in Hnorm. unfold Decimal.unorm in Hnorm.
  destruct (Decimal.nzhead (Decimal.D0 u)) eqn:Hhead;
    try discriminate Hnorm.
  - injection Hnorm as ->.
    exact (DecimalPos.Unsigned.to_uint_nonzero p Heq).
  - exact (DecimalFacts.nzhead_nonzero _ _ Hhead).
Qed.

(** The scanner reads a printed number back as its literal. *)
Lemma scan_number_Itoa (z : Z) (rest : string) :
  closes_value rest = true ->
  json.scan_number (strconv.Itoa z +:+ rest) = Some (strconv.Itoa z, rest).
Proof.
  intros Hrest.
  assert (forall p sign,
            (sign = "" \/ sign = "-") ->
            json.scan_number
              (sign +:+ NilEmpty.string_of_uint (Pos.to_uint p) +:+ rest)
            = Some (sign +:+ NilEmpty.string_of_uint (Pos.to_uint p), rest))
    as Hpos.
  { intros p sign Hsign.
    pose proof (to_uint_head p) as Hhead.
    pose proof (DecimalPos.Unsigned.to_uint_nonnil p) as Hnil.
    destruct (closes_value_cases rest Hrest) as (t & Ht).
    destruct (Pos.to_uint p) as [|u|u|u|u|u|u|u|u|u|u];
      [congruence | exfalso; exact (Hhead u eq_refl) | ..];
      cbn [NilEmpty.string_of_uint];
      destruct Hsign as [-> | ->];
      unfold json.scan_number;
      change ("" +:+ ?a) with a;
      change ("-" +:+ ?a) with (String "-" a);
      change (String ?c ?a +:+ rest) with (String c (a +:+ rest));
      cbv iota beta;
      cbn [json.take_digits];
      rewrite take_digits_uint by exact Hrest;
      destruct Ht as [-> | [-> | ->]];
      repeat match goal with
             | |- context [is_digit ?c] =>
                 let b := eval vm_compute in (is_digit c) in
                 change (is_digit c) with b
             end;
      cbn -[NilEmpty.string_of_uint];
      rewrite ?append_empty_r; reflexivity. }
  unfold strconv.Itoa.
  destruct z as [|p|p].
  - destruct (closes_value_cases rest Hrest) as (t & [-> | [-> | ->]]);
      reflexivity.
  - change (NilZero.string_of_int (Z.to_int (Z.pos p)))
      with (NilZero.string_of_uint (Pos.to_uint p)).
    pose proof (DecimalPos.Unsigned.to_uint_nonnil p) as Hnil.
    specialize (Hpos p "" (or_introl eq_refl)).
    destruct (Pos.to_uint p); [congruence | ..]; exact Hpos.
  - change (NilZero.string_of_int (Z.to_int (Z.neg p)))
      with (String "-" (NilZero.string_of_uint (Pos.to_uint p))).
    pose proof (DecimalPos.Unsigned.to_uint_nonnil p) as Hnil.
    specialize (Hpos p "-" (or_intror eq_refl)).
    destruct (Pos.to_uint p); [congruence | ..]; exact Hpos.
Qed.

Lemma parse_value_decimal (c : ascii) (t : string) (f : nat) (depth : Z) :
  decimal_byte c = true ->
  json.parse_value (S f) depth (String c t)
  = match json.scan_number (String c t) with
    | Some (lit, r) => Some (json.JNumber lit, r)
    | None => None
    end.
Proof.
  destruct c as [[] [] [] [] [] [] [] []]; intros H;
    try discriminate H; reflexivity.
Qed.

Lemma reads_back_number (z : Z) (depth : Z) :
  reads_back 1 depth (json.JNumber (strconv.Itoa z)).
Proof.
  intros f rest Hf Hrest. destruct f as [|f]; [inversion Hf |].
  cbn [json.render].
  pose proof (scan_number_Itoa z rest Hrest) as Hscan.
  destruct (Itoa_bytes z) as [Hbytes Hne].
  destruct (strconv.Itoa z) as [|c s]; [discriminate Hne |].
  cbn [string_forallb] in Hbytes. apply andb_true_iff in Hbytes as [Hc _].
  change (String c s +:+ rest) with (String c (s +:+ rest)) in *.
  rewrite parse_value_decimal by exact Hc. now rewrite Hscan.
Qed.

Lemma reads_back_string (s : string) (depth : Z) :
  ascii_text s = true -> reads_back 1 depth (json.JString s).
Proof.
  intros Hs f rest Hf _. destruct f as [|f]; [inversion Hf |].
  now apply parse_value_string.
Qed.

Lemma reads_back_true (depth : Z) : reads_back 1 depth (json.JBool true).
Proof.
  intros f rest Hf _. destruct f as [|f]; [inversion Hf |].
  cbn [json.render].
  change ("true" +:+ rest)
    with (String "t" (String "r" (String "u" (String "e" rest)))).
  cbn [json.parse_value json.skip_ws].
  change (json.is_space "t") with false. cbv iota.
  change (Ascii.eqb "t" "{") with false.
  change (Ascii.eqb "t" "[") with false.
  change (Ascii.eqb "t" dquote) with false. cbv iota.
  destruct rest as [|c rest]; [reflexivity |].
  change (has_prefix
            (String "t" (String "r" (String "u" (String "e" (String c rest)))))
            "null") with false.
  change (has_prefix
            (String "t" (String "r" (String "u" (String "e" (String c rest)))))
            "true") with true.
  cbv iota.
  change (String.substring 4
            (String.length
               (String "t"
                  (String "r" (String "u" (String "e" (String c rest))))) - 4)
            (String "t" (String "r" (String "u" (String "e" (String c rest))))))
    with (String c (String.substring 0 (String.length rest) rest)).
  now rewrite substring_all.
Qed.

Lemma reads_back_more (n m : nat) (depth : Z) (v : json.value) :
  (n <= m)%nat -> reads_back n depth v -> reads_back m depth v.
Proof. intros Hnm Hv f rest Hf Hrest. apply Hv; [lia | exact Hrest]. Qed.

(** The elements of an array of strings. *)
Lemma parse_elems_strings (l : list string) (rest : string) (f : nat)
    (depth : Z) :
  l <> [] ->
  Forall (fun s => ascii_text s = true) l ->
  (length l < f)%nat ->
  json.parse_elems f depth
    (join "," (map json.quote l) +:+ String "]" rest)
  = Some (map json.JString l, rest).
Proof.
  intros Hne Hall. revert f.
  induction Hall as [|x l Hx Hl IH]; intros f Hf; [congruence |].
  destruct f as [|f]; [inversion Hf |].
  destruct l as [|y l].
  - cbn [map join json.parse_elems].
    destruct f as [|f]; [simpl in Hf; lia |].
    rewrite parse_value_string by exact Hx. reflexivity.
  - change (join "," (map json.quote (x :: y :: l)))
      with (json.quote x +:+ "," +:+ join "," (map json.quote (y :: l))).
    rewrite !append_assoc.
    cbn [json.parse_elems].
    destruct f as [|f]; [simpl in Hf; lia |].
    rewrite parse_value_string by exact Hx.
    change ("," +:+ ?a) with (String "," a).
    cbn [json.skip_ws]. change (json.is_space ",") with false. cbv iota.
    rewrite IH; [reflexivity | discriminate | simpl in Hf |- *; lia].
Qed.

Lemma render_strings (l : list string) :
  json.render (json.JArray (map json.JString l))
  = "[" +:+ join "," (map json.quote l) +:+ "]".
Proof. cbn [json.render]. now rewrite map_map. Qed.

Lemma reads_back_strings (l : list string) (depth : Z) :
  l <> [] ->
  Forall (fun s => ascii_text s = true) l ->
  depth < json.maxNestingDepth ->
  reads_back (length l + 2) depth (json.JArray (map json.JString l)).
Proof.
  intros Hne Hall Hdepth f rest Hf _.
  destruct f as [|f]; [lia |].
  rewrite render_strings, !append_assoc.
  change ("[" +:+ ?a) with (String "[" a).
  change ("]" +:+ rest) with (String "]" rest).
  cbn [json.parse_value json.skip_ws].
  change (json.is_space "[") with false. cbv iota.
  change (Ascii.eqb "[" "{") with false.
  change (Ascii.eqb "[" "[") with true. cbv iota.
  assert ((json.maxNestingDepth <? depth + 1) = false) as ->
      by (apply Z.ltb_ge; lia).
  rewrite parse_elems_strings by (assumption || lia).
  destruct l as [|x l]; [congruence |].
  destruct l as [|y l]; reflexivity.
Qed.

(** The members of an object. *)
Lemma quote_app (s rest : string) :
  json.quote s +:+ rest
  = String dquote (json.quote_body 0 true s +:+ String dquote rest).
Proof.
  unfold json.quote.
  change (String dquote (json.quote_body 0 true s +:+ String dquote "")
          +:+ rest)
    with (String dquote
            ((json.quote_body 0 true s +:+ String dquote "") +:+ rest)).
  now rewrite append_assoc.
Qed.

Lemma scan_key (s rest : string) :
  ascii_text s = true ->
  json.scan_string
    (S (String.length (json.quote_body 0 true s +:+ String dquote rest)))
    (json.quote_body 0 true s +:+ String dquote rest)
  = Some (s, rest).
Proof.
  intros Hs. apply scan_string_quoted; [exact Hs |].
  rewrite length_app. pose proof (quote_body_length s Hs).
  change (String.length (String dquote rest))
    with (S (String.length rest)). lia.
Qed.

Lemma parse_member (k : string) (v : json.value) (n : nat) (depth : Z)
    (rest : string) (f : nat) :
  ascii_text k = true ->
  reads_back n depth v ->
  (n <= f)%nat ->
  closes_value rest = true ->
  json.parse_members (S f) depth (member_text (k, v) +:+ rest)
  = match json.skip_ws rest with
    | String "," r4 =>
        match json.parse_members f depth r4 with
        | Some (ms, r5) => Some ((k, v) :: ms, r5)
        | None => None
        end
    | String "}" r4 => Some ([(k, v)], r4)
    | _ => None
    end.
Proof.
  intros Hk Hv Hf Hrest.
  unfold member_text. cbn [fst snd].
  rewrite append_assoc, quote_app.
  change (":" +:+ json.render v) with (String ":" (json.render v)).
  change (String ":" (json.render v) +:+ rest)
    with (String ":" (json.render v +:+ rest)).
  cbn [json.parse_members json.skip_ws].
  change (json.is_space dquote) with false. cbv iota.
  rewrite scan_key by exact Hk.
  cbn [json.skip_ws]. change (json.is_space ":") with false. cbv iota.
  rewrite (Hv f rest Hf Hrest). reflexivity.
Qed.

Lemma parse_members_back (ms : list (string * json.value)) (n : nat)
    (depth : Z) (rest : string) :
  ms <> [] ->
  Forall (fun m => ascii_text (fst m) = true /\ reads_back n depth (snd m))
         ms ->
  forall f : nat,
    (n + length ms <= f)%nat ->
    json.parse_members f depth
      (join "," (map member_text ms) +:+ String "}" rest)
    = Some (ms, rest).
Proof.
  intros Hne Hall.
  induction Hall as [|[k v] ms [Hk Hv] Hms IH]; intros f Hf; [congruence |].
  cbn [fst snd] in Hk, Hv.
  destruct f as [|f]; [simpl in Hf; lia |].
  destruct ms as [|m ms].
  - cbn [map join].
    rewrite (parse_member k v n) by (assumption || reflexivity || simpl in Hf; lia).
    reflexivity.
  - change (join "," (map member_text ((k, v) :: m :: ms)))
      with (member_text (k, v) +:+ "," +:+ join "," (map member_text (m :: ms))).
    rewrite !append_assoc.
    change ("," +:+ ?a) with (String "," a).
    rewrite (parse_member k v n)
      by (assumption || reflexivity || simpl in Hf; lia).
    cbn [json.skip_ws]. change (json.is_space ",") with false. cbv iota.
    rewrite IH; [reflexivity | discriminate | simpl in Hf |- *; lia].
Qed.

Lemma member_text_head (m : string * json.value) :
  exists t : string, member_text m = String dquote t.
Proof. unfold member_text. rewrite quote_app. eauto. Qed.

Lemma members_text_head (m : string * json.value)
    (ms : list (string * json.value)) (rest : string) :
  exists t : string,
    join "," (map member_text (m :: ms)) +:+ rest = String dquote t.
Proof.
  destruct (member_text_head m) as [t Ht].
  destruct ms as [|m' ms].
  - cbn [map join]. rewrite Ht. eauto.
  - change (join "," (map member_text (m :: m' :: ms)))
      with (member_text m +:+ "," +:+ join "," (map member_text (m' :: ms))).
    rewrite Ht. eauto.
Qed.

Lemma parse_value_object (ms : list (string * json.value)) (n : nat)
    (depth : Z) (rest : string) (f : nat) :
  Forall (fun m => ascii_text (fst m) = true
                   /\ reads_back n (depth + 1) (snd m)) ms ->
  depth < json.maxNestingDepth ->
  (n + length ms <= f)%nat ->
  json.parse_value (S f) depth (json.render (json.JObject ms) +:+ rest)
  = Some (json.JObject ms, rest).
Proof.
  intros Hall Hdepth Hf.
  cbn [json.render].
  change (map (fun m => json.quote (fst m) +:+ ":" +:+ json.render (snd m)) ms)
    with (map member_text ms).
  rewrite !append_assoc.
  change ("{" +:+ ?a) with (String "{" a).
  change ("}" +:+ rest) with (String "}" rest).
  cbn [json.parse_value json.skip_ws].
  change (json.is_space "{") with false. cbv iota.
  change (Ascii.eqb "{" "{") with true. cbv iota.
  assert ((json.maxNestingDepth <? depth + 1) = false) as ->
      by (apply Z.ltb_ge; lia).
  destruct ms as [|m ms]; [reflexivity |].
  rewrite (parse_members_back (m :: ms) n)
    by (assumption || discriminate).
  destruct (members_text_head m ms (String "}" rest)) as [t ->].
  reflexivity.
Qed.

(** Lengths of texts, for the fuel of [json.parse]. *)
Lemma join_length (l : list string) :
  Forall (fun x => (1 <= String.length x)%nat) l ->
  (length l <= String.length (join "," l))%nat.
Proof.
  induction 1 as [|x l Hx Hl IH]; [constructor |].
  destruct l as [|y l].
  - simpl. lia.
  - change (join "," (x :: y :: l)) with (x +:+ "," +:+ join "," (y :: l)).
    rewrite !length_app. simpl in IH |- *. lia.
Qed.

Lemma join_length_In (x : string) (l : list string) :
  In x l -> (String.length x <= String.length (join "," l))%nat.
Proof.
  induction l as [|y l IH]; [intros [] |].
  intros [-> | Hin].
  - destruct l as [|z l]; [simpl; lia |].
    change (join "," (x :: z :: l)) with (x +:+ "," +:+ join "," (z :: l)).
    rewrite length_app. lia.
  - destruct l as [|z l]; [destruct Hin |].
    change (join "," (y :: z :: l)) with (y +:+ "," +:+ join "," (z :: l)).
    rewrite !length_app. specialize (IH Hin). lia.
Qed.

Lemma quote_length (s : string) : (1 <= String.length (json.quote s))%nat.
Proof. unfold json.quote. simpl. lia. Qed.

Lemma members_length (ms : list (string * json.value)) :
  (length ms <= String.length (join "," (map member_text ms)))%nat.
Proof.
  rewrite <- (List.length_map member_text ms). apply join_length.
  apply List.Forall_forall. intros x Hx. apply in_map_iff in Hx as [m [<- _]].
  unfold member_text. rewrite length_app. pose proof (quote_length (fst m)).
  lia.
Qed.

Lemma strings_length (l : list string) :
  (length l
   <= String.length (json.render (json.JArray (map json.JString l))))%nat.
Proof.
  rewrite render_strings, !length_app.
  pose proof (join_length (map json.quote l)) as H.
  rewrite List.length_map in H.
  assert (Forall (fun x => (1 <= String.length x)%nat) (map json.quote l)) as Hq.
  { apply List.Forall_forall. intros x Hx. apply in_map_iff in Hx as [s [<- _]].
    apply quote_length. }
  specialize (H Hq). lia.
Qed.

Lemma member_length_In (k : string) (v : json.value)
    (ms : list (string * json.value)) :
  In (k, v) ms ->
  (String.length (json.render v)
   <= String.length (join "," (map member_text ms)))%nat.
Proof.
  intros Hin.
  pose proof (join_length_In (member_text (k, v)) (map member_text ms)
                (in_map member_text ms (k, v) Hin)) as H.
  unfold member_text in H at 1. cbn [fst snd] in H.
  rewrite !length_app in H. lia.
Qed.

(** The text that the encoder writes for an object, read by the parser. *)
Lemma parse_object (ms : list (string * json.value)) (n : nat) :
  Forall (fun m => ascii_text (fst m) = true /\ reads_back n 1 (snd m)) ms ->
  (n <= 2 + String.length (join "," (map member_text ms)))%nat ->
  json.parse (json.render (json.JObject ms) +:+ String (byte_of 10) "")
  = Some (json.JObject ms).
Proof.
  intros Hall Hn. unfold json.parse.
  pose proof (members_length ms) as Hlen.
  assert (String.length
            (json.render (json.JObject ms) +:+ String (byte_of 10) "")
          = (3 + String.length (join "," (map member_text ms)))%nat) as Htext.
  { cbn [json.render].
    change (map (fun m => json.quote (fst m) +:+ ":" +:+ json.render (snd m))
                ms)
      with (map member_text ms).
    rewrite !length_app. simpl. lia. }
  rewrite Htext.
  replace (2 * (3 + String.length (join "," (map member_text ms))) + 2)%nat
    with (S (2 * String.length (join "," (map member_text ms)) + 7))%nat
    by lia.
  rewrite (parse_value_object ms n 0); [reflexivity | exact Hall | | lia].
  reflexivity.
Qed.

Lemma Forall_member (P : string * json.value -> Prop) (name : string)
    (omit : bool) (v : json.value) :
  (omit = false -> P (name, v)) -> Forall P (json.member name omit v).
Proof.
  unfold json.member. destruct omit; [constructor |].
  intros H. constructor; [now apply H | constructor].
Qed.

(** X20.  A [createCollectionRequest] survives the trip through its JSON
    text: the text that [json.NewEncoder(..).Encode] writes for the record
    (the compact object and a newline), given to [json.Unmarshal] with a
    pointer to a zero record, leaves that record equal to the one encoded,
    without error.  This holds provided the view, the title and every
    element of the cover list consist of ASCII bytes (below 0x80), the sort
    is in the range of [int] (64 bits), the parent identifier is in the
    range of [uint32], and the cover list is not an empty list that is not
    [nil].  Fields left out by [omitempty] come back as the zero values
    they were. *)
Theorem createCollectionRequest_round_trip (r : createCollectionRequest) :
  ascii_text (createCollectionRequest_View r) = true ->
  ascii_text (createCollectionRequest_Title r) = true ->
  Forall (fun s => ascii_text s = true)
         (default [] (createCollectionRequest_Cover r)) ->
  - 2 ^ 63 <= createCollectionRequest_Sort r < 2 ^ 63 ->
  0 <= createCollectionRequest_ParentId r < 2 ^ 32 ->
  createCollectionRequest_Cover r <> Some [] ->
  exists text : string,
    json.Encode r = Ok text
    /\ json.Unmarshal_ptr text (Some zero_createCollectionRequest)
       = (Some r, None).
Proof.
  intros Hview Htitle Hcover Hsort Hparent Hnil.
  eexists. split; [reflexivity |].
  pose proof (createCollectionRequest_tree_round_trip r Hsort Hparent Hnil)
    as Htree.
  unfold json.Unmarshal_ptr.
  set (n := (length (default [] (createCollectionRequest_Cover r)) + 2)%nat).
  unfold json.marshal at 1, Marshal_createCollectionRequest at 1.
  unfold json.marshal at 1, Marshal_createCollectionRequest at 1 in Htree.
  match goal with
  | |- context [json.render (json.JObject ?l)] => set (ms := l) in *
  end.
  assert (Forall (fun m => ascii_text (fst m) = true
                           /\ reads_back n 1 (snd m)) ms) as Hall.
  { unfold ms.
    repeat (apply Forall_app; split); apply Forall_member; intros Homit;
      (split; [reflexivity |]); cbn [snd].
    - apply (reads_back_more 1); [lia |]. now apply reads_back_string.
    - apply (reads_back_more 1); [lia |]. now apply reads_back_string.
    - apply (reads_back_more 1); [lia |]. apply reads_back_number.
    - apply negb_false_iff in Homit. rewrite Homit.
      apply (reads_back_more 1); [lia |]. apply reads_back_true.
    - apply (reads_back_more 1); [lia |]. apply reads_back_number.
    - subst n.
      destruct (createCollectionRequest_Cover r) as [[|x l]|];
        try discriminate Homit.
      cbn [default] in *.
      change (json.marshal (Some (x :: l)))
        with (json.JArray (map json.JString (x :: l))).
      apply reads_back_strings;
        [discriminate | exact Hcover | reflexivity]. }
  assert (n <= 2 + String.length (join "," (map member_text ms)))%nat as Hn.
  { subst n.
    destruct (createCollectionRequest_Cover r) as [[|x l]|] eqn:Ecover;
      [congruence | | change (2 <= 2 + String.length
                                     (join "," (map member_text ms)))%nat; lia].
    change (default [] (Some (x :: l))) with (x :: l).
    pose proof (strings_length (x :: l)) as H1.
    pose proof (member_length_In "cover"
                  (json.JArray (map json.JString (x :: l))) ms) as H2.
    assert (In ("cover", json.JArray (map json.JString (x :: l))) ms) as Hin.
    { unfold ms. rewrite ?Ecover.
      repeat (apply in_or_app; right). left. reflexivity. }
    specialize (H2 Hin). lia. }
  rewrite (parse_object ms n Hall Hn).
  change (json.decode (json.JObject ms)
            (default json.zero (Some zero_createCollectionRequest)))
    with (decode_createCollectionRequest (json.JObject ms)
            zero_createCollectionRequest).
  now rewrite Htree.
Qed.

Lemma createCollectionRequest_round_trip_witness :
  exists text : string,
    json.Encode
      {| createCollectionRequest_View := "list";
         createCollectionRequest_Title := "a<b";
         createCollectionRequest_Sort := -1;
         createCollectionRequest_Public := true;
         createCollectionRequest_ParentId := 4294967295;
         createCollectionRequest_Cover := Some ["a.png"; ""] |} = Ok text
    /\ json.Unmarshal_ptr text (Some zero_createCollectionRequest)
       = (Some {| createCollectionRequest_View := "list";
                  createCollectionRequest_Title := "a<b";
                  createCollectionRequest_Sort := -1;
                  createCollectionRequest_Public := true;
                  createCollectionRequest_ParentId := 4294967295;
                  createCollectionRequest_Cover := Some ["a.png"; ""] |},
          None).
Proof.
  apply createCollectionRequest_round_trip;
    [reflexivity
    | reflexivity
    | repeat constructor
    | split; [apply Z.leb_le | apply Z.ltb_lt]; reflexivity
    | split; [apply Z.leb_le | apply Z.ltb_lt]; reflexivity
    | discriminate].
Defined.

(** A title that is not valid UTF-8 does not come back: the encoder writes
    the escape of the replacement character in its place, and the decoder
    reads that as the three bytes of the character. *)
Lemma createCollectionRequest_invalid_title :
  let r := {| createCollectionRequest_View := "";
              createCollectionRequest_Title := String (byte_of 255) "";
              createCollectionRequest_Sort := 0;
              createCollectionRequest_Public := false;
              createCollectionRequest_ParentId := 0;
              createCollectionRequest_Cover := None |} in
  json.Encode r
  = Ok ("{" +:+ quoted "title" +:+ ":" +:+ quoted "\ufffd" +:+ "}" +:+ newline)
  /\ json.Unmarshal_ptr
       ("{" +:+ quoted "title" +:+ ":" +:+ quoted "\ufffd" +:+ "}" +:+ newline)
       (Some zero_createCollectionRequest)
     = (Some {| createCollectionRequest_View := "";
                createCollectionRequest_Title :=
                  String (byte_of 239) (String (byte_of 191)
                                          (String (byte_of 189) ""));
                createCollectionRequest_Sort := 0;
                createCollectionRequest_Public := false;
                createCollectionRequest_ParentId := 0;
                createCollectionRequest_Cover := None |}, None).
Proof. split; vm_compute; reflexivity. Qed.

(** ** [DeleteTags] *)

(** X21.  [DeleteTags] hands exactly one request to the transport: a DELETE
    of [/rest/v1/tags] on the API host whose body is the JSON object with
    the single member [tags].  The member is always there: a [nil] list
    goes out as [null], a list as the array of its tags, in order, the
    empty list as the empty array. *)
Theorem DeleteTags_request (net : http.Network) (c : Client)
    (accessToken : string) (ctx : option context.Context)
    (tagIDs : option (list string)) (w : World) :
  api_configured c w ->
  requests (snd (DeleteTags net c accessToken ctx tagIDs w))
  = (requests w
     ++ [request_for accessToken "DELETE"
           (url.set_Path "/rest/v1/tags" (parsed apiHost))
           (json.render
              (json.JObject
                 [("tags",
                   match tagIDs with
                   | None => json.JNull
                   | Some tags => json.JArray (map json.JString tags)
                   end)])
            +:+ newline) ctx])%list.
Proof.
  intros Hc. unfold DeleteTags.
  unfold mbind at 1, M_bind, bind at 1. rewrite (load_api c w Hc).
  unfold mbind at 1, M_bind, bind at 1. rewrite (load_api c w Hc).
  cbv beta iota zeta.
  change (path.Join _) with ("/" +:+ "rest/v1/tags").
  rewrite newRequest_api by reflexivity.
  assert (body_text (Some (Any {| deleteTagsRequest_Tags := tagIDs |}))
          = json.render
              (json.JObject
                 [("tags",
                   match tagIDs with
                   | None => json.JNull
                   | Some tags => json.JArray (map json.JString tags)
                   end)])
            +:+ newline) as -> by (destruct tagIDs; reflexivity).
  apply (send_and_parse_requests net _ (Some zero_DeleteTagsResponse)
           (fun err => mret (Some err))
           (fun '(r, err) =>
              match err with
              | Some err => mret (Some err)
              | None => mret None
              end)).
  - reflexivity.
  - intros [r [err|]] w0; reflexivity.
Qed.

Lemma DeleteTags_request_witness :
  map http.Request_Body
    (requests (snd (DeleteTags offline example_client "token" None None
                      example_world))
     ++ requests (snd (DeleteTags offline example_client "token" None
                         (Some []) example_world)))
  = ["{" +:+ quoted "tags" +:+ ":null}" +:+ newline;
     "{" +:+ quoted "tags" +:+ ":[]}" +:+ newline].
Proof.
  rewrite !(DeleteTags_request offline example_client "token" None _
              example_world eq_refl).
  vm_compute. reflexivity.
Defined.

(** ** The authorization flow *)

Lemma GetAuthorizationCodeHandler_with_code (c : Client)
    (rw : http.ResponseWriter) (r : http.Request) (w : World) :
  url.Values_Get (url.Query (http.URL r)) "code" <> "" ->
  exists rw' w',
    GetAuthorizationCodeHandler c rw r w
    = (Returned
         (set_ClientCode (url.Values_Get (url.Query (http.URL r)) "code") c,
          rw'), w')
    /\ urls w' = urls w /\ trace w' = trace w.
Proof.
  intros Hcode. unfold GetAuthorizationCodeHandler.
  rewrite GetAuthorizationCode_code by exact Hcode.
  destruct (http.ResponseWriter_Write _ _) as [rw' [err|]];
    eexists; eexists; (split; [reflexivity | split; reflexivity]).
Qed.

Lemma NewClient_trace (id secret redirect : string) (w : World) :
  trace (snd (NewClient id secret redirect w)) = trace w.
Proof.
  unfold NewClient.
  change (url.Parse authHost) with (Ok (parsed authHost)).
  change (url.Parse apiHost) with (Ok (parsed apiHost)).
  reflexivity.
Qed.

(** X22.  The authorization flow as a whole.  A client made by
    [NewClient], asked for the authorization URL, whose handler then
    receives the redirect with a [code] parameter that is not empty, keeps
    that code in [ClientCode]; and [GetAccessToken], called with it, hands
    exactly one request to the transport: the POST of [/oauth/access_token]
    on [https://raindrop.io] whose body carries the code of the redirect
    and the identifier, the secret and the redirect URI that [NewClient]
    was given.  No step fails, and nothing else is sent. *)
Theorem authorization_flow (net : http.Network)
    (id secret redirect : string) (rw : http.ResponseWriter)
    (r : http.Request) (ctx : option context.Context) (w : World) :
  url.Values_Get (url.Query (http.URL r)) "code" <> "" ->
  let code := url.Values_Get (url.Query (http.URL r)) "code" in
  exists c w1 u w2 c' rw' w3,
    NewClient id secret redirect w = (Returned (Some c, None), w1)
    /\ GetAuthorizationURL c w1 = (Returned (u, None), w2)
    /\ GetAuthorizationCodeHandler c rw r w2 = (Returned (c', rw'), w3)
    /\ ClientCode c' = code
    /\ requests (snd (GetAccessToken net c' (ClientCode c') ctx w3))
       = (requests w
          ++ [request_for "" "POST"
                (url.set_Path "/oauth/access_token" (parsed authHost))
                (json.render
                   (json.JObject
                      [("code", json.JString code);
                       ("client_id", json.JString id);
                       ("client_secret", json.JString secret);
                       ("redirect_uri", json.JString redirect);
                       ("grant_type", json.JString "authorization_code")])
                 +:+ newline) ctx])%list.
Proof.
  intros Hcode code.
  destruct (NewClient_configured id secret redirect w)
    as (c & w1 & Hnew & Hapi & Hauth & Hid & Hsecret & Hredirect).
  pose proof (NewClient_trace id secret redirect w) as Htrace1.
  rewrite Hnew in Htrace1. cbn [snd] in Htrace1.
  change (parsed authHost) with (url.set_Path "" (parsed authHost)) in Hauth.
  set (path := path.Join
                 [fmt.Sprintf authorizeUri [clientId c; redirectUri c]]).
  set (w2 := set_urls
               (insert (authURL c)
                  (url.set_Path path (url.set_Path "" (parsed authHost))))
               w1).
  assert (GetAuthorizationURL c w1
          = (Returned
               (url.set_Path path (url.set_Path "" (parsed authHost)), None),
             w2)) as Hurl.
  { unfold GetAuthorizationURL.
    cbv [mbind M_bind bind mret M_ret ret store_Path load_URL].
    rewrite Hauth. fold path. fold w2.
    assert (urls w2 !! authURL c
            = Some (url.set_Path path (url.set_Path "" (parsed authHost))))
      as -> by apply lookup_insert_eq.
    reflexivity. }
  destruct (GetAuthorizationCodeHandler_with_code c rw r w2 Hcode)
    as (rw' & w3 & Hhandler & Hurls3 & Htrace3).
  exists c, w1. eexists. exists w2. eexists. exists rw', w3.
  split; [exact Hnew |]. split; [exact Hurl |]. split; [exact Hhandler |].
  split; [reflexivity |].
  rewrite GetAccessToken_run.
  - rewrite send_and_parse_sends. cbn [ClientCode clientId clientSecret
      redirectUri set_ClientCode]. rewrite Hid, Hsecret, Hredirect.
    unfold requests. rewrite Htrace3.
    change (trace w2) with (trace w1). now rewrite Htrace1.
  - exists path. cbn [authURL set_ClientCode]. rewrite Hurls3.
    apply lookup_insert_eq.
Qed.

Lemma authorization_flow_witness :
  exists c w1 u w2 c' rw' w3,
    NewClient "id" "secret" "http://localhost/cb" empty_World
    = (Returned (Some c, None), w1)
    /\ GetAuthorizationURL c w1 = (Returned (u, None), w2)
    /\ GetAuthorizationCodeHandler c
         {| http.rw_Header := ∅; http.rw_written := "";
            http.rw_write_error := None |}
         (inbound_request "/callback?code=abc123") w2
       = (Returned (c', rw'), w3)
    /\ ClientCode c' = "abc123"
    /\ requests (snd (GetAccessToken offline c' (ClientCode c') None w3))
       = [request_for "" "POST"
            (url.set_Path "/oauth/access_token" (parsed authHost))
            (json.render
               (json.JObject
                  [("code", json.JString "abc123");
                   ("client_id", json.JString "id");
                   ("client_secret", json.JString "secret");
                   ("redirect_uri", json.JString "http://localhost/cb");
                   ("grant_type", json.JString "authorization_code")])
             +:+ newline) None].
Proof.
  destruct (authorization_flow offline "id" "secret" "http://localhost/cb"
              {| http.rw_Header := ∅; http.rw_written := "";
                 http.rw_write_error := None |}
              (inbound_request "/callback?code=abc123") None empty_World)
    as (c & w1 & u & w2 & c' & rw' & w3 & H1 & H2 & H3 & H4 & H5).
  { vm_compute. discriminate. }
  exists c, w1, u, w2, c', rw', w3.
  split; [exact H1 |]. split; [exact H2 |]. split; [exact H3 |].
  split; [exact H4 | exact H5].
Defined.

(** ** Answers that are decoded *)

Lemma exchange_decoded {T : Type} `{json.Unmarshal T} (net : http.Network)
    (accessToken method body : string) (u : url.URL)
    (ctx : option context.Context) (w : World) (response : http.Response)
    (tree : json.value) (t : T) :
  url.Scheme u = "https" ->
  is_empty (url.Host u) = false ->
  (forall req, http.roundtrip net req = http.Reply response) ->
  accepted response 200 ->
  http.read_error (http.Body response) = None ->
  json.parse (http.data (http.Body response)) = Some tree ->
  tree <> json.JNull ->
  json.decode tree json.zero = (t, None) ->
  returns_with
    (send_and_parse net (request_for accessToken method u body ctx)
       (Some json.zero)) w (Some t, None)
    [Ev_ReadAll (http.Body response); Ev_Close (http.Body response)].
Proof.
  intros Hscheme Hhost Hnet Hacc Hread Hparse Hnull Hdec.
  unfold returns_with.
  rewrite (send_and_parse_accepted net
             (request_for accessToken method u body ctx) (Some json.zero)
             Hscheme Hhost response w) by (apply Hnet || assumption).
  rewrite Hread. unfold json.Unmarshal_ptr. rewrite Hparse.
  cbn [default fst snd].
  rewrite body_events_Close, body_events_ReadAll, body_events_Do,
    <- app_assoc.
  unfold id. destruct tree; try congruence; rewrite Hdec; split; reflexivity.
Qed.

Lemma decode_tags_back (tags old : list Tag) :
  Forall (fun t => - 2 ^ 63 <= Tag_Count t < 2 ^ 63) tags ->
  json.decode_elems zero_Tag decode_Tag (map tag_object tags) old
  = (tags, None).
Proof.
  intros Hall. revert old.
  induction Hall as [|t tags Ht Htags IH]; intros old; [reflexivity |].
  cbn [map json.decode_elems]. rewrite IH.
  destruct t as [id count]. cbn [Tag_Count] in Ht.
  unfold tag_object, decode_Tag, json.decode_struct.
  cbn -[strconv.ParseInt strconv.Itoa].
  rewrite (ParseInt_Itoa count 64 Ht). reflexivity.
Qed.

(** X23.  [GetTags] on an answer that lists tags.  When the response has
    status 200 or 400 and its body is the JSON object with a boolean
    [result] and an array [items] of objects with a string [_id] and a
    number [count] (in the range of [int]), [GetTags] returns the record
    with that flag and those tags, in order, and a [nil] error; the body
    has been read and closed. *)
Theorem GetTags_decodes_items (net : http.Network) (c : Client)
    (accessToken : string) (ctx : option context.Context) (w : World)
    (response : http.Response) (result : bool) (tags : list Tag) :
  api_configured c w ->
  (forall req, http.roundtrip net req = http.Reply response) ->
  accepted response 200 ->
  http.read_error (http.Body response) = None ->
  json.parse (http.data (http.Body response))
  = Some (json.JObject
            [("result", json.JBool result);
             ("items", json.JArray (map tag_object tags))]) ->
  Forall (fun t => - 2 ^ 63 <= Tag_Count t < 2 ^ 63) tags ->
  returns_with (GetTags net c accessToken ctx) w
    (Some {| Tags_Result := result; Tags_Items := Some tags |}, None)
    [Ev_ReadAll (http.Body response); Ev_Close (http.Body response)].
Proof.
  intros Hc Hnet Hacc Hread Hparse Hcount.
  unfold returns_with. rewrite GetTags_run by exact Hc.
  apply (exchange_decoded (H := Unmarshal_Tags) net accessToken "GET" "" _
           ctx w response
           (json.JObject
              [("result", json.JBool result);
               ("items", json.JArray (map tag_object tags))]));
    try assumption; try endpoint_facts; [discriminate |].
  cbn -[json.decode_elems]. rewrite decode_tags_back by exact Hcount.
  reflexivity.
Qed.

Lemma GetTags_decodes_items_witness :
  let body :=
    readable ("{" +:+ quoted "result" +:+ ":true," +:+ quoted "items"
              +:+ ":[{" +:+ quoted "_id" +:+ ":" +:+ quoted "go" +:+ ","
              +:+ quoted "count" +:+ ":3}]}") in
  returns_with
    (GetTags (answering {| http.StatusCode := 200; http.Body := body |})
       example_client "token" None)
    example_world
    (Some {| Tags_Result := true;
             Tags_Items := Some [{| Tag_ID := "go"; Tag_Count := 3 |}] |},
     None)
    [Ev_ReadAll body; Ev_Close body].
Proof.
  intros body.
  apply (GetTags_decodes_items
           (answering {| http.StatusCode := 200; http.Body := body |})
           example_client "token" None example_world
           {| http.StatusCode := 200; http.Body := body |} true
           [{| Tag_ID := "go"; Tag_Count := 3 |}]);
    [reflexivity | reflexivity | left; reflexivity | reflexivity
     | vm_compute; reflexivity |].
  constructor; [| constructor].
  split; [apply Z.leb_le | apply Z.ltb_lt]; reflexivity.
Defined.

(** X24.  The token operations on an answer that is an object.  When the
    response has status 200 or 400 and its body is a JSON object made of
    any of the members [access_token], [refresh_token], [expires],
    [expires_in], [token_type] and [error], in this order, with strings and
    numbers (in the range of [int]) as values, [GetAccessToken] and
    [RefreshAccessToken] return the record of these values, the zero value
    standing for a missing member, and a [nil] error.  An answer that
    reports an error, such as a 400 with an [error] member alone, is
    returned the same way: as a record, with a [nil] error. *)
Theorem token_answer_decoded (net : http.Network) (c : Client)
    (userCode refreshToken : string) (ctx : option context.Context)
    (w : World) (response : http.Response)
    (access refresh kind err : option string) (expires expires_in : option Z) :
  auth_configured c w ->
  (forall req, http.roundtrip net req = http.Reply response) ->
  accepted response 200 ->
  http.read_error (http.Body response) = None ->
  json.parse (http.data (http.Body response))
  = Some (json.JObject
            (optional_member "access_token" json.JString access
             ++ optional_member "refresh_token" json.JString refresh
             ++ optional_member "expires"
                  (fun z => json.JNumber (strconv.Itoa z)) expires
             ++ optional_member "expires_in"
                  (fun z => json.JNumber (strconv.Itoa z)) expires_in
             ++ optional_member "token_type" json.JString kind
             ++ optional_member "error" json.JString err)%list) ->
  - 2 ^ 63 <= default 0 expires < 2 ^ 63 ->
  - 2 ^ 63 <= default 0 expires_in < 2 ^ 63 ->
  let answer :=
    {| AccessTokenResponse_AccessToken := default "" access;
       AccessTokenResponse_RefreshToken := default "" refresh;
       AccessTokenResponse_Expires := default 0 expires;
       AccessTokenResponse_ExpiresIn := default 0 expires_in;
       AccessTokenResponse_TokenType := default "" kind;
       AccessTokenResponse_Error := default "" err |} in
  let done :=
    [Ev_ReadAll (http.Body response); Ev_Close (http.Body response)] in
  returns_with (GetAccessToken net c userCode ctx) w (Some answer, None) done
  /\ returns_with (RefreshAccessToken net c refreshToken ctx) w
       (Some answer, None) done.
Proof.
  intros Hc Hnet Hacc Hread Hparse He Hei answer done. subst answer done.
  assert (decode_AccessTokenResponse
            (json.JObject
               (optional_member "access_token" json.JString access
                ++ optional_member "refresh_token" json.JString refresh
                ++ optional_member "expires"
                     (fun z => json.JNumber (strconv.Itoa z)) expires
                ++ optional_member "expires_in"
                     (fun z => json.JNumber (strconv.Itoa z)) expires_in
                ++ optional_member "token_type" json.JString kind
                ++ optional_member "error" json.JString err)%list)
            zero_AccessTokenResponse
          = ({| AccessTokenResponse_AccessToken := default "" access;
                AccessTokenResponse_RefreshToken := default "" refresh;
                AccessTokenResponse_Expires := default 0 expires;
                AccessTokenResponse_ExpiresIn := default 0 expires_in;
                AccessTokenResponse_TokenType := default "" kind;
                AccessTokenResponse_Error := default "" err |}, None))
    as Hdec.
  { pose proof (ParseInt_Itoa _ 64 He) as H1.
    pose proof (ParseInt_Itoa _ 64 Hei) as H2.
    unfold decode_AccessTokenResponse, json.decode_struct.
    destruct access, refresh, expires, expires_in, kind, err;
      cbn -[strconv.ParseInt strconv.Itoa] in *;
      rewrite ?H1, ?H2; cbn -[strconv.ParseInt strconv.Itoa];
      rewrite ?H1, ?H2; reflexivity. }
  split; run_operation;
    (eapply (exchange_decoded (H := Unmarshal_AccessTokenResponse));
     [endpoint_facts | endpoint_facts | exact Hnet | exact Hacc | exact Hread
      | exact Hparse | discriminate | exact Hdec]).
Qed.

Lemma token_answer_decoded_witness :
  let body :=
    readable ("{" +:+ quoted "error" +:+ ":" +:+ quoted "invalid_grant"
              +:+ "}") in
  returns_with
    (GetAccessToken
       (answering {| http.StatusCode := 400; http.Body := body |})
       example_client "code" None)
    example_world
    (Some {| AccessTokenResponse_AccessToken := "";
             AccessTokenResponse_RefreshToken := "";
             AccessTokenResponse_Expires := 0;
             AccessTokenResponse_ExpiresIn := 0;
             AccessTokenResponse_TokenType := "";
             AccessTokenResponse_Error := "invalid_grant" |}, None)
    [Ev_ReadAll body; Ev_Close body].
Proof.
  intros body.
  refine (proj1
    (token_answer_decoded
       (answering {| http.StatusCode := 400; http.Body := body |})
       example_client "code" "refresh" None example_world
       {| http.StatusCode := 400; http.Body := body |}
       None None None (Some "invalid_grant") None None _ _ _ _ _ _ _)).
  - exists "". reflexivity.
  - reflexivity.
  - right. reflexivity.
  - reflexivity.
  - vm_compute. reflexivity.
  - split; [apply Z.leb_le | apply Z.ltb_lt]; reflexivity.
  - split; [apply Z.leb_le | apply Z.ltb_lt]; reflexivity.
Defined.

(** ** A plus sign in a path *)

Lemma path_or_plus_bytes (c : ascii) :
  path_safe c || Ascii.eqb c "+" = true ->
  url.shouldEscape c url.encodePath = false
  /\ Ascii.eqb "%" c = false
  /\ Ascii.eqb "%" (plus_to_space c) = false
  /\ Ascii.eqb "+" (plus_to_space c) = false
  /\ Ascii.eqb "#" (plus_to_space c) = false
  /\ Ascii.eqb "?" (plus_to_space c) = false
  /\ url.is_CTL (plus_to_space c) = false
  /\ Ascii.eqb "/" (plus_to_space c) = Ascii.eqb "/" c
  /\ Ascii.eqb " " (plus_to_space c) = Ascii.eqb "+" c.
Proof.
  destruct c as [[] [] [] [] [] [] [] []]; vm_compute; intros H;
    try discriminate H; repeat split.
Qed.

Lemma string_map_app (f : ascii -> ascii) (a b : string) :
  string_map f (a +:+ b) = string_map f a +:+ string_map f b.
Proof.
  induction a as [|c a IH]; [reflexivity |].
  change (String (f c) (string_map f (a +:+ b))
          = String (f c) (string_map f a +:+ string_map f b)).
  now rewrite IH.
Qed.

Lemma string_forallb_map (P : ascii -> bool) (f : ascii -> ascii)
    (s : string) :
  string_forallb P (string_map f s) = string_forallb (fun c => P (f c)) s.
Proof.
  induction s as [|c s IH]; [reflexivity |]. simpl. now rewrite IH.
Qed.

Lemma mem_byte_cons (x c : ascii) (s : string) :
  url.mem_byte x (String c s) = Ascii.eqb x c || url.mem_byte x s.
Proof.
  unfold url.mem_byte, string_existsb. simpl.
  now rewrite negb_andb, negb_involutive.
Qed.

(** The plus signs of a path are the spaces of the unescaped one. *)
Lemma plus_to_space_spaces (p : string) :
  string_forallb (fun c => path_safe c || Ascii.eqb c "+") p = true ->
  url.mem_byte " " (string_map plus_to_space p) = url.mem_byte "+" p.
Proof.
  induction p as [|c p IH]; [reflexivity |].
  cbn [string_forallb string_map]. intros [Hc Hp]%andb_true_iff.
  rewrite !mem_byte_cons, (IH Hp).
  destruct (path_or_plus_bytes c Hc) as (_ & _ & _ & _ & _ & _ & _ & _ & ->).
  reflexivity.
Qed.

Lemma plus_to_space_plain (p : string) :
  string_forallb (fun c => path_safe c || Ascii.eqb c "+") p = true ->
  url.mem_byte "%" (string_map plus_to_space p) = false
  /\ url.mem_byte "+" (string_map plus_to_space p) = false
  /\ url.mem_byte "#" (string_map plus_to_space p) = false
  /\ url.mem_byte "?" (string_map plus_to_space p) = false
  /\ string_existsb url.is_CTL (string_map plus_to_space p) = false.
Proof.
  intros Hp. rewrite !mem_byte_false. unfold string_existsb.
  rewrite negb_false_iff, !string_forallb_map.
  repeat split; revert Hp; apply string_forallb_impl; intros c Hc;
    destruct (path_or_plus_bytes c Hc)
      as (_ & _ & H1 & H2 & H3 & H4 & H5 & _);
    now rewrite ?H1, ?H2, ?H3, ?H4, ?H5.
Qed.

Lemma unescape_plus (p : string) :
  string_forallb (fun c => path_safe c || Ascii.eqb c "+") p = true ->
  url.QueryUnescape p = Ok (string_map plus_to_space p).
Proof.
  unfold url.QueryUnescape.
  induction p as [|c p IH]; [reflexivity |].
  cbn [string_forallb string_map url.unescape].
  intros [Hc Hp]%andb_true_iff. rewrite (IH Hp).
  destruct (path_or_plus_bytes c Hc) as (_ & H1 & _).
  rewrite Ascii.eqb_sym, H1. unfold plus_to_space.
  destruct (Ascii.eqb c "+"); reflexivity.
Qed.

Lemma unescape_app_plain (mode : url.encoding) (s t : string) :
  mode <> url.encodeHost ->
  url.mem_byte "%" s = false -> url.mem_byte "+" s = false ->
  url.unescape (s +:+ t) mode
  = match url.unescape t mode with
    | Ok t' => Ok (s +:+ t')
    | Err e => Err e
    end.
Proof.
  intros Hmode. rewrite !mem_byte_false.
  induction s as [|c s IH].
  - intros _ _. change ("" +:+ t) with t.
    destruct (url.unescape t mode); reflexivity.
  - cbn [string_forallb].
    intros [Hc Hs]%andb_true_iff [Hp Hs']%andb_true_iff.
    apply negb_true_iff in Hc, Hp.
    rewrite Ascii.eqb_sym in Hc. rewrite Ascii.eqb_sym in Hp.
    change (String c s +:+ t) with (String c (s +:+ t)).
    cbn [url.unescape]. rewrite Hc, Hp, (IH Hs Hs').
    destruct (url.unescape t mode);
      destruct mode; try contradiction; reflexivity.
Qed.

Lemma escape_path_space_byte (c : ascii) :
  url.mem_byte " " (url.escape (String c "") url.encodePath) = false.
Proof. destruct c as [[] [] [] [] [] [] [] []]; reflexivity. Qed.

(** No space is left in an escaped path. *)
Lemma escape_path_space (s : string) :
  url.mem_byte " " (url.escape s url.encodePath) = false.
Proof.
  induction s as [|c s IH]; [reflexivity |].
  now rewrite escape_cons, mem_byte_app, escape_path_space_byte, IH.
Qed.

(** [url.Parse] of a URL on the API host whose path holds no byte that
    means something to the parser. *)
Lemma Parse_api_raw (q : string) :
  url.mem_byte "%" q = false -> url.mem_byte "+" q = false ->
  url.mem_byte "#" q = false -> url.mem_byte "?" q = false ->
  string_existsb url.is_CTL q = false ->
  url.Parse ("https://api.raindrop.io/" +:+ q)
  = Ok {| url.Scheme := "https"; url.Opaque := "";
          url.Host := "api.raindrop.io"; url.Path := "/" +:+ q;
          url.RawPath :=
            if String.eqb ("/" +:+ q) (url.escape ("/" +:+ q) url.encodePath)
            then "" else "/" +:+ q;
          url.ForceQuery := false; url.RawQuery := "";
          url.Fragment := ""; url.RawFragment := "" |}.
Proof.
  intros H1 H2 H3 H4 H5.
  unfold url.Parse.
  rewrite cut_absent by (rewrite mem_byte_app, H3; reflexivity).
  unfold url.parse.
  assert (string_existsb url.is_CTL ("https://api.raindrop.io/" +:+ q)
          = false) as ->.
  { unfold string_existsb in *. rewrite string_forallb_app.
    apply negb_false_iff in H5. now rewrite H5. }
  change (("https://api.raindrop.io/" +:+ q =? "*")%string) with false.
  change (url.getScheme ("https://api.raindrop.io/" +:+ q))
    with (Ok ("https", "//api.raindrop.io/" +:+ q)).
  cbv iota beta.
  rewrite (count_byte_absent "?" ("//api.raindrop.io/" +:+ q))
    by (rewrite mem_byte_app, H4; reflexivity).
  rewrite andb_false_r.
  rewrite cut_absent by (rewrite mem_byte_app, H4; reflexivity).
  cbv iota beta.
  change (has_prefix ("//api.raindrop.io/" +:+ q) "/") with true.
  change (has_prefix ("//api.raindrop.io/" +:+ q) "///") with false.
  change (has_prefix ("//api.raindrop.io/" +:+ q) "//") with true.
  cbn [negb andb orb is_empty string_map].
  change (String.substring 2
            (String.length ("//api.raindrop.io/" +:+ q) - 2)
            ("//api.raindrop.io/" +:+ q))
    with (String.substring 0 (String.length ("api.raindrop.io/" +:+ q))
            ("api.raindrop.io/" +:+ q)).
  rewrite substring_all.
  change (cut "/" ("api.raindrop.io/" +:+ q))
    with ("api.raindrop.io", q, true).
  cbv iota beta.
  change (url.parseAuthority "api.raindrop.io") with (Ok "api.raindrop.io").
  cbv iota.
  rewrite unescape_plain;
    [| discriminate | rewrite mem_byte_app, H1; reflexivity
     | rewrite mem_byte_app, H2; reflexivity].
  reflexivity.
Qed.

Lemma String_api_unescaped (p : string) :
  string_forallb (fun c => negb (url.shouldEscape c url.encodePath)) p
  = true ->
  url.String_ (url.set_Path ("/" +:+ p) (parsed apiHost))
  = "https://api.raindrop.io/" +:+ p.
Proof.
  intros Hesc. rewrite parsed_apiHost.
  unfold url.String_, url.EscapedPath, url.set_Path.
  cbn [url.Scheme url.Opaque url.Host url.Path url.RawPath url.ForceQuery
       url.RawQuery url.Fragment url.RawFragment is_empty negb andb orb].
  change (("/" +:+ p =? "*")%string) with false. cbv iota.
  assert (url.escape ("/" +:+ p) url.encodePath = "/" +:+ p) as ->
      by (apply escape_safe; simpl; exact Hesc).
  simpl. now rewrite !append_empty_r.
Qed.

(** [newRequest] on the API host for a path with a plus sign: the request
    is made, and its URL has spaces where the path had plus signs. *)
Lemma newRequest_api_plus (c : Client) (accessToken method p : string)
    (body : option any) (ctx : option context.Context) :
  http.validMethod method = true ->
  string_forallb (fun c => path_safe c || Ascii.eqb c "+") p = true ->
  url.mem_byte "+" p = true ->
  newRequest c accessToken method
    (url.set_Path ("/" +:+ p) (parsed apiHost)) body ctx
  = Ok (request_for accessToken method
          {| url.Scheme := "https"; url.Opaque := "";
             url.Host := "api.raindrop.io";
             url.Path := "/" +:+ string_map plus_to_space p;
             url.RawPath := "/" +:+ string_map plus_to_space p;
             url.ForceQuery := false; url.RawQuery := "";
             url.Fragment := ""; url.RawFragment := "" |}
          (body_text body) ctx).
Proof.
  intros Hm Hp Hplus.
  assert (is_empty method = false) as Hne.
  { unfold http.validMethod in Hm. apply andb_true_iff in Hm as [Hm _].
    now apply negb_true_iff in Hm. }
  destruct (plus_to_space_plain p Hp) as (H1 & H2 & H3 & H4 & H5).
  set (q := string_map plus_to_space p) in *.
  assert (String.eqb ("/" +:+ q) (url.escape ("/" +:+ q) url.encodePath)
          = false) as Hraw.
  { apply String.eqb_neq. intros Heq.
    pose proof (escape_path_space ("/" +:+ q)) as Hsp.
    rewrite <- Heq in Hsp.
    change (url.mem_byte " " ("/" +:+ q)) with (url.mem_byte " " q) in Hsp.
    subst q. rewrite plus_to_space_spaces in Hsp by exact Hp. congruence. }
  rewrite (newRequest_returns c accessToken method _ body ctx
             ("https://api.raindrop.io/" +:+ q)
             {| http.Method := method;
                http.URL :=
                  {| url.Scheme := "https"; url.Opaque := "";
                     url.Host := "api.raindrop.io";
                     url.Path := "/" +:+ q; url.RawPath := "/" +:+ q;
                     url.ForceQuery := false; url.RawQuery := "";
                     url.Fragment := ""; url.RawFragment := "" |};
                http.Header := ∅;
                http.Request_Body := body_text body;
                http.Request_ctx := default context.Background ctx;
                http.Request_Response := None |}).
  - unfold request_for. destruct (is_empty accessToken); reflexivity.
  - rewrite String_api_unescaped.
    + rewrite unescape_plus.
      * rewrite string_map_app. reflexivity.
      * rewrite string_forallb_app. rewrite Hp. reflexivity.
    + revert Hp. apply string_forallb_impl. intros b Hb.
      destruct (path_or_plus_bytes b Hb) as (-> & _). reflexivity.
  - unfold http.NewRequestWithContext. rewrite Hne, Hm.
    rewrite (Parse_api_raw q H1 H2 H3 H4 H5), Hraw.
    destruct body as [[A HA a]|]; reflexivity.
Qed.

(** X25.  A plus sign in the collection identifier of [GetRaindrops] does
    not reach the service: [newRequest] unescapes the whole printed URL as
    if it were a query component, which turns every plus sign into a space.
    For an identifier that is one path element of bytes that need no
    escaping and plus signs, with at least one plus sign, the one request
    that is sent has the path [/rest/v1/raindrops/<id>] with a space for
    every plus sign, in [Path] and in [RawPath], and the query
    [perpage=<perpage>]. *)
Theorem GetRaindrops_plus_becomes_space (net : http.Network) (c : Client)
    (accessToken collectionID : string) (perpage : Z)
    (ctx : option context.Context) (w : World) :
  api_configured c w ->
  path_element collectionID = true ->
  string_forallb (fun b => path_safe b || Ascii.eqb b "+") collectionID
  = true ->
  url.mem_byte "+" collectionID = true ->
  let sent := "/rest/v1/raindrops/" +:+ string_map plus_to_space collectionID in
  requests (snd (GetRaindrops net c accessToken collectionID perpage ctx w))
  = (requests w
     ++ [request_for accessToken "GET"
           {| url.Scheme := "https"; url.Opaque := "";
              url.Host := "api.raindrop.io";
              url.Path := sent; url.RawPath := sent;
              url.ForceQuery := false;
              url.RawQuery := "perpage=" +:+ strconv.Itoa perpage;
              url.Fragment := ""; url.RawFragment := "" |} "" ctx])%list
  /\ url.mem_byte "+" sent = false
  /\ url.mem_byte " " sent = true.
Proof.
  intros Hc Hel Hsafe Hplus sent.
  assert (is_empty collectionID = false) as Hne
      by (destruct collectionID; [discriminate Hplus | reflexivity]).
  split.
  - unfold GetRaindrops.
    unfold mbind at 1, M_bind, bind at 1. rewrite (load_api c w Hc).
    unfold mbind at 1, M_bind, bind at 1. rewrite (load_api c w Hc).
    cbv beta iota zeta.
    assert (path.Join [url.Path (parsed apiHost); endpointRaindrops;
                       collectionID]
            = "/" +:+ ("rest/v1/raindrops/" +:+ collectionID)) as ->.
    { rewrite parsed_apiHost.
      change (path.Join _)
        with (path.Clean
                ("/" +:+ join "/" ["rest"; "v1"; "raindrops"; "";
                                   collectionID])).
      rewrite Clean_rooted; [| discriminate | repeat constructor; exact Hel].
      cbn [List.filter is_empty negb]. rewrite Hne. reflexivity. }
    rewrite newRequest_api_plus;
      [| reflexivity
       | rewrite string_forallb_app, Hsafe; reflexivity
       | rewrite mem_byte_app, Hplus; apply orb_true_r].
    cbv beta iota zeta.
    rewrite Query_empty by reflexivity.
    rewrite Values_Add_empty, Values_Encode_singleton.
    destruct (Itoa_bytes perpage) as [Hb _].
    assert (url.QueryEscape (strconv.Itoa perpage) = strconv.Itoa perpage)
      as ->.
    { apply escape_safe. revert Hb. apply string_forallb_impl.
      intros b Hbb. destruct (decimal_byte_plain b Hbb) as (_ & -> & _).
      reflexivity. }
    rewrite string_map_app.
    apply (send_and_parse_requests net _ (Some zero_MultiRaindropsResponse)
             (fun err => mret (None, Some err))
             (fun '(r, err) =>
                match err with
                | Some err => mret (None, Some err)
                | None => mret (r, None)
                end)).
    + reflexivity.
    + intros [r [err|]] w0; reflexivity.
  - destruct (plus_to_space_plain collectionID Hsafe) as (_ & H2 & _).
    subst sent. rewrite !mem_byte_app, H2.
    rewrite plus_to_space_spaces by exact Hsafe. rewrite Hplus.
    split; reflexivity.
Qed.

Lemma GetRaindrops_plus_becomes_space_witness :
  map (fun req => url.Path (http.URL req))
    (requests (snd (GetRaindrops offline example_client "token" "a+b" 10
                      None example_world)))
  = ["/rest/v1/raindrops/a b"].
Proof.
  rewrite (proj1 (GetRaindrops_plus_becomes_space offline example_client
                    "token" "a+b" 10 None example_world
                    eq_refl eq_refl eq_refl eq_refl)).
  reflexivity.
Defined.

(** ** A client without endpoints *)

(** X26.  A client whose endpoint pointers are [nil], as in a [Client] that
    was not made by [NewClient], cannot be used: every operation on the API
    panics on the [nil] API endpoint, and [GetAuthorizationURL] and the
    token operations panic on the [nil] auth endpoint.  The panic comes
    first: nothing has been sent, printed or stored. *)
Theorem operations_panic_without_endpoints (net : http.Network)
    (GetHtmlTitle : http.ReadCloser -> string * bool) (c : Client)
    (accessToken collectionID tag userCode refreshToken view title link
       : string)
    (id perpage sort parentId : Z) (isRoot public : bool)
    (cover tagIDs : option (list string)) (ctx : option context.Context)
    (w : World) :
  (urls w !! apiURL c = None ->
   GetRootCollections net c accessToken ctx w
   = (Panicked runtime_nil_dereference, w)
   /\ GetChildCollections net c accessToken ctx w
      = (Panicked runtime_nil_dereference, w)
   /\ GetCollection net c accessToken id ctx w
      = (Panicked runtime_nil_dereference, w)
   /\ CreateCollection net c accessToken isRoot view title sort public
        parentId cover ctx w
      = (Panicked runtime_nil_dereference, w)
   /\ CreateSimpleRaindrop net GetHtmlTitle c accessToken link ctx w
      = (Panicked runtime_nil_dereference, w)
   /\ GetRaindrops net c accessToken collectionID perpage ctx w
      = (Panicked runtime_nil_dereference, w)
   /\ GetTags net c accessToken ctx w = (Panicked runtime_nil_dereference, w)
   /\ DeleteTags net c accessToken ctx tagIDs w
      = (Panicked runtime_nil_dereference, w)
   /\ GetTaggedRaindrops net c accessToken tag ctx w
      = (Panicked runtime_nil_dereference, w))
  /\ (urls w !! authURL c = None ->
      GetAuthorizationURL c w = (Panicked runtime_nil_dereference, w)
      /\ GetAccessToken net c userCode ctx w
         = (Panicked runtime_nil_dereference, w)
      /\ RefreshAccessToken net c refreshToken ctx w
         = (Panicked runtime_nil_dereference, w)).
Proof.
  split; intros Hnil; split_operations.
  all: cbv [GetRootCollections GetChildCollections GetCollection
            CreateCollection CreateSimpleRaindrop GetRaindrops GetTags
            DeleteTags GetTaggedRaindrops GetAuthorizationURL GetAccessToken
            RefreshAccessToken mbind M_bind bind load_URL store_Path].
  all: rewrite Hnil; reflexivity.
Qed.

Lemma operations_panic_without_endpoints_witness :
  GetTags offline
    {| apiURL := 0%nat; authURL := 0%nat;
       httpClient := httpClient example_client;
       clientId := ""; clientSecret := ""; redirectUri := "";
       ClientCode := "" |} "token" None empty_World
  = (Panicked runtime_nil_dereference, empty_World)
  /\ GetAuthorizationURL
       {| apiURL := 0%nat; authURL := 0%nat;
          httpClient := httpClient example_client;
          clientId := ""; clientSecret := ""; redirectUri := "";
          ClientCode := "" |} empty_World
     = (Panicked runtime_nil_dereference, empty_World).
Proof.
  pose proof (operations_panic_without_endpoints offline no_title
                {| apiURL := 0%nat; authURL := 0%nat;
                   httpClient := httpClient example_client;
                   clientId := ""; clientSecret := ""; redirectUri := "";
                   ClientCode := "" |}
                "token" "0" "recipe" "code" "refresh" "list" "Books"
                "http://example.com/" 7 50 0 0 true false None None None
                empty_World) as [Hapi Hauth].
  split.
  - exact (proj1 (proj2 (proj2 (proj2 (proj2 (proj2 (proj2
             (Hapi eq_refl)))))))).
  - exact (proj1 (Hauth eq_refl)).
Defined.
